(** * sp_upload: the IBM Storage Protect upload client

    A shallow embedding of [fastapi_backup_server/sp_upload.c] and the
    properties of its session lifecycle: response decoding, sign-on, job
    submission, polling, sign-off and the orchestration in [main].

    Conventions.  A C string is a [string] (a sequence of bytes), an [int]
    a [Z], a [char*] that may be [NULL] an [option string].  Heap allocation
    is assumed to succeed.  What libcurl, the file system, the environment
    and the clock answer is a parameter of every statement.  A procedure
    yields its result, the state of the network after it and the trace of
    what it printed, entered, sent and slept; or it runs into undefined
    behaviour: a store outside a heap block, a signed overflow, a null
    pointer handed to [%s], a read of a heap byte that was never written. *)

From Stdlib Require Import ZArith List Bool Ascii String Lia.
From Stdlib Require Import Numbers.DecimalString.
Import ListNotations.

Local Open Scope string_scope.
Local Open Scope Z_scope.

(** ** C string primitives *)

Module CStr.

(** The characters the source names by escapes. *)
Definition dquote : ascii := ascii_of_nat 34.
Definition newline : ascii := ascii_of_nat 10.
Definition tab : ascii := ascii_of_nat 9.

Definition quot : string := String dquote EmptyString.
Definition nl : string := String newline EmptyString.

(** [quoted s] is [s] between two double-quote characters, the
    rendering of a quoted [%s] in a format. *)
Definition quoted (s : string) : string := quot ++ s ++ quot.

(** [strlen], as a C [int]/[size_t] value. *)
Definition strlen (s : string) : Z := Z.of_nat (String.length s).

(** The first [n] bytes of [s] (all of [s] when it is shorter). *)
Fixpoint take (n : nat) (s : string) : string :=
  match n, s with
  | S n', String c s' => String c (take n' s')
  | _, _ => EmptyString
  end.

(** [s + n] on a pointer into a string: the suffix after [n] bytes. *)
Fixpoint drop (n : nat) (s : string) : string :=
  match n, s with
  | S n', String _ s' => drop n' s'
  | _, _ => s
  end.

(** [snprintf(buf, size, ...)] into a buffer of its own: [buf] receives
    the first [size - 1] bytes of the formatted text [s]. *)
Definition snprintf (size : nat) (s : string) : string :=
  take (size - 1) s.

(** [strstr(haystack, needle)]: the suffix of [haystack] that starts at
    the first occurrence of [needle], or [None] for [NULL]. *)
Fixpoint strstr (haystack needle : string) : option string :=
  if String.prefix needle haystack then Some haystack
  else match haystack with
       | EmptyString => None
       | String _ rest => strstr rest needle
       end.

(** [strchr(s, c)] for a non-zero [c]. *)
Fixpoint strchr (s : string) (c : ascii) : option string :=
  match s with
  | EmptyString => None
  | String a rest => if Ascii.eqb a c then Some s else strchr rest c
  end.

(** [strrchr(s, c)] for a non-zero [c]: the suffix at the last [c]. *)
Fixpoint strrchr (s : string) (c : ascii) : option string :=
  match s with
  | EmptyString => None
  | String a rest =>
      match strrchr rest c with
      | Some r => Some r
      | None => if Ascii.eqb a c then Some s else None
      end
  end.

(** [strcmp(a, b) == 0]. *)
Definition streq (a b : string) : bool := String.eqb a b.

(** [%d] and [%ld]. *)
Definition fmt_d (z : Z) : string := NilZero.string_of_int (Z.to_int z).

End CStr.
Import CStr.

(** ** The response decoder *)

Definition is_json_space (c : ascii) : bool :=
  Ascii.eqb c " " || Ascii.eqb c newline || Ascii.eqb c tab.

Definition is_json_delim (c : ascii) : bool :=
  Ascii.eqb c "," || Ascii.eqb c "}" || Ascii.eqb c "]".

(** The loop that advances [start] over spaces, newlines and tabs. *)
Fixpoint skip_spaces (s : string) : string :=
  match s with
  | String c rest => if is_json_space c then skip_spaces rest else s
  | EmptyString => s
  end.

(** The loop that advances [end] to the next comma, closing brace, closing
    bracket or the terminating zero: the suffix [end] points to when it
    stops. *)
Fixpoint scan_bare (s : string) : string :=
  match s with
  | String c rest => if is_json_delim c then s else scan_bare rest
  | EmptyString => s
  end.

(** The copy [strncpy(value, start, end - start)] of the bytes between two
    pointers into the same string. *)
Definition copy_between (start end_ : string) : string :=
  take (String.length start - String.length end_) start.

Definition extract_json_value (json key : string) : option string :=
  let search := snprintf 256 (quoted key ++ ":") in
  match strstr json search with
  | None => None
  | Some start =>
      let start := drop (String.length search) start in
      let start := skip_spaces start in
      match start with
      | String c rest =>
          if Ascii.eqb c dquote then
            match strchr rest dquote with
            | None => None
            | Some end_ => Some (copy_between rest end_)
            end
          else Some (copy_between start (scan_bare start))
      | EmptyString => Some (copy_between start (scan_bare start))
      end
  end.

(** ** The world outside the process *)

(** A request handed to libcurl by [curl_easy_setopt] before
    [curl_easy_perform]. *)
Inductive Method := GET | POST.

Record Request := {
  req_method : Method;
  req_url : string;
  req_headers : list string;
  req_body : option string
}.

(** What [curl_easy_perform] comes back with.

    [CURLE_OK code data]: the transfer succeeded with response code [code]
    and libcurl handed the body [data] to the write callback, in one call
    at least (for an empty body, a call with zero bytes).  Where the
    callback is [write_callback], [chunk.data] then holds [data] as a
    terminated C string; where none is set, libcurl has written [data] to
    standard output.

    [CURLE_OK_nobody code]: the transfer succeeded and libcurl never called
    the write callback.  [chunk.data] is still the block of [malloc(1)],
    whose one byte nobody has written.

    [CURLE_failed msg]: the transfer failed before any body byte arrived;
    [msg] is the text of [curl_easy_strerror]. *)
Inductive CurlResult :=
| CURLE_OK (response_code : Z) (data : string)
| CURLE_failed (strerror : string)
| CURLE_OK_nobody (response_code : Z).

(** What a run does that can be seen from outside.  [Enter f] marks the
    entry into the procedure [f], so that a call is counted even where the
    procedure returns before it has printed or sent anything. *)
Inductive Event :=
| Stdout (text : string)
| Stderr (text : string)
| Enter (procedure : string)
| Http (r : Request)
| Sleep (seconds : Z).

(** Behaviour the C standard leaves undefined. *)
Inductive Undef := HeapOverflow | IntOverflow | NullPointer | UninitRead.

Inductive result (A : Type) :=
| Ok (a : A)
| Undefined (why : Undef).
Arguments Ok {A} a.
Arguments Undefined {A} why.

(** [struct dirent], the two fields the scan reads. *)
Record dirent := { d_name : string; d_type : Z }.

(** [DT_REG] of [dirent.h]. *)
Definition DT_REG : Z := 8.

(** [struct tm], the fields [strftime] formats here. *)
Record tm := {
  tm_year : Z; tm_mon : Z; tm_mday : Z;
  tm_hour : Z; tm_min : Z; tm_sec : Z
}.

(** The process environment, which the run only reads: the command line
    after [argv[0]], the environment variables, the directories that
    [opendir] opens with the entries [readdir] then yields, the size [stat]
    reports, and the clock. *)
Record Env := {
  argv0 : string;
  args : list string;
  getenv : string -> option string;
  opendir : string -> option (list dirent);
  st_size : string -> Z;
  localtime_now : tm
}.

Definition INT_MAX : Z := 2147483647.
Definition INT_MIN : Z := -2147483648.

Definition MAX_URL_LEN : nat := 2048.
Definition MAX_PATH_LEN : nat := 1024.
Definition MAX_FILES : Z := 1000.

Record SPConfig := {
  server_url : string;
  node_id : string;
  password : option string;
  backup_directory : string
}.

(** [FileList]: [count] is the number of entries of [files] that are set. *)
Record FileList := { files : list string }.
Definition count (l : FileList) : Z := Z.of_nat (List.length (files l)).

(** ** The fixed-size payload buffer of [sp_start_backup] *)

(** The state of [offset += snprintf(payload + offset, cap - offset, ...)]
    on a heap block of [cap] bytes: the C string the block holds and the
    running [offset]. *)
Record Builder := { text : string; offset : Z }.

(** One such call with formatted text [s].  [snprintf] stores at most
    [size - 1] bytes and a terminating zero at [payload + offset] and
    returns the full length of [s].  With [offset = cap] the size is zero
    and nothing is stored; with [offset > cap] the size [cap - offset] turns
    into a huge [size_t] and the destination lies past the block, so the
    store runs outside it. *)
Definition snprintf_at (cap : Z) (b : Builder) (s : string) : result Builder :=
  if cap <? offset b then Undefined HeapOverflow
  else if INT_MAX <? offset b + strlen s then Undefined IntOverflow
  else if offset b =? cap then
    Ok {| text := text b; offset := offset b + strlen s |}
  else
    Ok {| text := take (Z.to_nat (offset b)) (text b)
                  ++ take (Z.to_nat (cap - offset b - 1)) s;
          offset := offset b + strlen s |}.

Definition bind_result {A B} (r : result A) (k : A -> result B) : result B :=
  match r with
  | Ok a => k a
  | Undefined u => Undefined u
  end.

(** The loop over [file_list->files] in [sp_start_backup]; [n] is
    [file_list->count] and [i] the loop index. *)
Fixpoint add_file_entries (cap n i : Z) (fs : list string) (b : Builder)
  : result Builder :=
  match fs with
  | [] => Ok b
  | f :: rest =>
      bind_result
        (snprintf_at cap b
           (quoted f ++ (if i <? n - 1 then "," else EmptyString)))
        (add_file_entries cap n (i + 1) rest)
  end.

Definition payload_head (session_id backup_name backup_path : string) : string :=
  "{" ++ quoted "sessionId" ++ ":" ++ quoted session_id ++ ","
  ++ quoted "backupName" ++ ":" ++ quoted backup_name ++ ","
  ++ quoted "backupType" ++ ":" ++ quoted "ceph_downloads" ++ ","
  ++ quoted "backupPath" ++ ":" ++ quoted backup_path.

(** Lines 178-199 of [sp_start_backup]: the body left in [payload]. *)
Definition build_backup_payload (session_id backup_path backup_name : string)
    (file_list : option FileList) : result string :=
  let cap := 8192 in
  let b := {| text := EmptyString; offset := 0 |} in
  bind_result
    (snprintf_at cap b (payload_head session_id backup_name backup_path))
    (fun b =>
       bind_result
         (match file_list with
          | Some l =>
              if 0 <? count l then
                bind_result
                  (snprintf_at cap b ("," ++ quoted "fileList" ++ ":["))
                  (fun b =>
                     bind_result
                       (add_file_entries cap (count l) 0 (files l) b)
                       (fun b => snprintf_at cap b "]"))
              else Ok b
          | None => Ok b
          end)
         (fun b =>
            bind_result (snprintf_at cap b "}") (fun b => Ok (text b)))).

(** ** The client *)

Definition banner_line : string :=
  "======================================================================".

Definition pad2 (z : Z) : string :=
  if z <? 10 then "0" ++ fmt_d z else fmt_d z.

(** [strftime(backup_name, 128, "ceph_downloads_%Y%m%d_%H%M%S", t)]; the
    text is far shorter than the buffer for every [int] year. *)
Definition strftime_backup_name (t : tm) : string :=
  "ceph_downloads_" ++ fmt_d (tm_year t + 1900) ++ pad2 (tm_mon t + 1)
  ++ pad2 (tm_mday t) ++ "_" ++ pad2 (tm_hour t) ++ pad2 (tm_min t)
  ++ pad2 (tm_sec t).

(** The [readdir] loop of [scan_directory]: [acc] is [list->files] so far. *)
Fixpoint readdir_loop (dir_path : string) (entries : list dirent)
    (acc : list string) : list string :=
  match entries with
  | [] => acc
  | entry :: rest =>
      if Z.of_nat (List.length acc) <? MAX_FILES then
        if d_type entry =? DT_REG then
          match strrchr (d_name entry) "." with
          | Some ext =>
              if streq ext ".txt" then
                readdir_loop dir_path rest
                  (acc ++ [snprintf MAX_PATH_LEN
                             (dir_path ++ "/" ++ d_name entry)])%list
              else readdir_loop dir_path rest acc
          | None => readdir_loop dir_path rest acc
          end
        else readdir_loop dir_path rest acc
      else acc
  end.

(** The network and libcurl: an arbitrary state with the two entry points
    the client calls.  [curl_easy_init] yields [false] for [NULL]. *)
Class Curl (Net : Type) := {
  curl_easy_init : Net -> bool * Net;
  curl_easy_perform : Request -> Net -> CurlResult * Net
}.

Section Client.

Context {Net : Type} {curl : Curl Net}.

(** A procedure of the client: it threads the network state, appends to
    the trace of events, and may run into undefined behaviour. *)
Definition M (A : Type) : Type := Net -> result (A * Net * list Event).

Definition ret {A} (a : A) : M A := fun n => Ok (a, n, []).

Definition bind {A B} (m : M A) (k : A -> M B) : M B :=
  fun n =>
    match m n with
    | Ok (a, n1, t1) =>
        match k a n1 with
        | Ok (b, n2, t2) => Ok (b, n2, (t1 ++ t2)%list)
        | Undefined u => Undefined u
        end
    | Undefined u => Undefined u
    end.

Notation "x <- m ;; k" := (bind m (fun x => k))
  (at level 61, m at next level, right associativity).
Notation "m ;; k" := (bind m (fun _ => k))
  (at level 61, right associativity).

Definition emit (e : Event) : M unit := fun n => Ok (tt, n, [e]).
Definition undefined {A} (u : Undef) : M A := fun _ => Undefined u.
Definition lift {A} (r : result A) : M A :=
  fun n => match r with Ok a => Ok (a, n, []) | Undefined u => Undefined u end.

Definition printf (s : string) : M unit := emit (Stdout s).
Definition eprintf (s : string) : M unit := emit (Stderr s).
Definition when (b : bool) (m : M unit) : M unit := if b then m else ret tt.

Definition easy_init : M bool :=
  fun n => let (ok, n') := curl_easy_init n in Ok (ok, n', []).

Definition easy_perform (r : Request) : M CurlResult :=
  fun n => let (res, n') := curl_easy_perform r n in Ok (res, n', [Http r]).

(** The requests the five procedures set up. *)
Definition signon_request (config : SPConfig) (pw : string) : Request :=
  {| req_method := POST;
     req_url :=
       snprintf MAX_URL_LEN (server_url config ++ "/api/baclient/signon");
     req_headers :=
       ["Content-Type: application/json"; "Accept: application/json"];
     req_body :=
       Some (snprintf 1024
               ("{" ++ quoted "nodeId" ++ ":" ++ quoted (node_id config)
                ++ "," ++ quoted "password" ++ ":" ++ quoted pw ++ "}")) |}.

Definition backup_request (config : SPConfig) (payload : string) : Request :=
  {| req_method := POST;
     req_url :=
       snprintf MAX_URL_LEN (server_url config ++ "/api/baclient/backup");
     req_headers :=
       ["Content-Type: application/json"; "Accept: application/json"];
     req_body := Some payload |}.

Definition session_header (session_id : string) : string :=
  snprintf 512 ("X-Session-Id: " ++ session_id).

Definition status_request (config : SPConfig) (session_id task_id : string)
  : Request :=
  {| req_method := GET;
     req_url :=
       snprintf MAX_URL_LEN
         (server_url config ++ "/api/baclient/task/" ++ task_id ++ "/status");
     req_headers := ["Accept: application/json"; session_header session_id];
     req_body := None |}.

Definition data_request (config : SPConfig) (session_id task_id : string)
  : Request :=
  {| req_method := GET;
     req_url :=
       snprintf MAX_URL_LEN
         (server_url config ++ "/api/baclient/task/" ++ task_id);
     req_headers := ["Accept: application/json"; session_header session_id];
     req_body := None |}.

Definition signoff_request (config : SPConfig) (session_id : string)
  : Request :=
  {| req_method := POST;
     req_url :=
       snprintf MAX_URL_LEN (server_url config ++ "/api/baclient/signoff");
     req_headers := ["Content-Type: application/json"];
     req_body :=
       Some (snprintf 512
               ("{" ++ quoted "sessionId" ++ ":" ++ quoted session_id
                ++ "}")) |}.

(** The four procedures that decode a response start from
    [chunk.data = malloc(1)] and hand [chunk.data] to [extract_json_value]
    or to [%s] after a successful transfer.  When [write_callback] has run,
    that is the body; when it has not, they read the byte that was never
    written, and whatever lies behind it. *)

(** [sp_sign_on]: the second argument is what [*session_id] holds on
    entry; the result is the returned task id and [*session_id] on exit. *)
Definition sp_sign_on (config : SPConfig) (session_id : option string)
  : M (option string * option string) :=
  emit (Enter "sp_sign_on") ;;
  curl <- easy_init ;;
  if negb curl then ret (None, session_id)
  else
    match password config with
    | None => undefined NullPointer
    | Some pw =>
        printf ("Signing on to IBM Storage Protect..." ++ nl) ;;
        printf ("Server: " ++ server_url config ++ nl) ;;
        printf ("Node: " ++ node_id config ++ nl ++ nl) ;;
        res <- easy_perform (signon_request config pw) ;;
        match res with
        | CURLE_OK response_code data =>
            if (response_code =? 200) || (response_code =? 201) then
              printf ("✓ Sign-on successful" ++ nl) ;;
              let session_id := extract_json_value data "sessionId" in
              let task_id := extract_json_value data "taskId" in
              match session_id with
              | Some s => printf ("Session ID: " ++ s ++ nl)
              | None => ret tt
              end ;;
              match task_id with
              | Some t => printf ("Task ID: " ++ t ++ nl)
              | None => ret tt
              end ;;
              ret (task_id, session_id)
            else
              eprintf ("✗ Sign-on failed (HTTP " ++ fmt_d response_code
                       ++ ")" ++ nl) ;;
              eprintf ("Response: " ++ data ++ nl) ;;
              ret (None, session_id)
        | CURLE_failed msg =>
            eprintf ("✗ Request failed: " ++ msg ++ nl) ;;
            ret (None, session_id)
        | CURLE_OK_nobody _ => undefined UninitRead
        end
    end.

Definition sp_start_backup (config : SPConfig)
    (session_id backup_path backup_name : string)
    (file_list : option FileList) : M (option string) :=
  emit (Enter "sp_start_backup") ;;
  curl <- easy_init ;;
  if negb curl then ret None
  else
    payload <- lift (build_backup_payload session_id backup_path
                       backup_name file_list) ;;
    printf (nl ++ banner_line ++ nl) ;;
    printf ("  STARTING BACKUP: " ++ backup_name ++ nl) ;;
    printf (banner_line ++ nl) ;;
    printf ("Source directory: " ++ backup_path ++ nl) ;;
    match file_list with
    | Some l => printf ("Files to backup: " ++ fmt_d (count l) ++ nl)
    | None => ret tt
    end ;;
    res <- easy_perform (backup_request config payload) ;;
    match res with
    | CURLE_OK response_code data =>
        if (response_code =? 200) || (response_code =? 201)
           || (response_code =? 202) then
          printf ("✓ Backup started successfully" ++ nl) ;;
          let task_id := extract_json_value data "taskId" in
          match task_id with
          | Some t => printf ("Backup task ID: " ++ t ++ nl)
          | None => ret tt
          end ;;
          ret task_id
        else
          eprintf ("✗ Backup start failed (HTTP " ++ fmt_d response_code
                   ++ ")" ++ nl) ;;
          eprintf ("Response: " ++ data ++ nl) ;;
          ret None
    | CURLE_failed msg =>
        eprintf ("✗ Request failed: " ++ msg ++ nl) ;;
        ret None
    | CURLE_OK_nobody _ => undefined UninitRead
    end.

Definition sp_get_task_status (config : SPConfig)
    (session_id task_id : string) : M (option string) :=
  emit (Enter "sp_get_task_status") ;;
  curl <- easy_init ;;
  if negb curl then ret None
  else
    res <- easy_perform (status_request config session_id task_id) ;;
    match res with
    | CURLE_OK _ data => ret (extract_json_value data "taskState")
    | CURLE_failed _ => ret None
    | CURLE_OK_nobody _ => undefined UninitRead
    end.

Definition sp_get_task_data (config : SPConfig)
    (session_id task_id : string) : M unit :=
  emit (Enter "sp_get_task_data") ;;
  curl <- easy_init ;;
  if negb curl then ret tt
  else
    res <- easy_perform (data_request config session_id task_id) ;;
    match res with
    | CURLE_OK _ data =>
        let total_files := extract_json_value data "totalFiles" in
        let completed_files := extract_json_value data "totalCompletedFiles" in
        let failed_files := extract_json_value data "totalFailedFiles" in
        let total_bytes := extract_json_value data "totalBytes" in
        printf (nl ++ banner_line ++ nl) ;;
        printf ("  BACKUP COMPLETED SUCCESSFULLY" ++ nl) ;;
        printf (banner_line ++ nl) ;;
        match completed_files, total_files with
        | Some c, Some t =>
            printf ("Files processed: " ++ c ++ "/" ++ t ++ nl)
        | _, _ => ret tt
        end ;;
        match failed_files with
        | Some f => printf ("Files failed: " ++ f ++ nl)
        | None => ret tt
        end ;;
        match total_bytes with
        | Some b => printf ("Total size: " ++ b ++ " bytes" ++ nl)
        | None => ret tt
        end ;;
        printf ("Task ID: " ++ task_id ++ nl)
    | CURLE_failed _ => ret tt
    | CURLE_OK_nobody _ => undefined UninitRead
    end.

(** One iteration of the [for] loop of [sp_wait_for_task], up to its
    [sleep]: [Some r] when the body returns [r], [None] when control
    reaches the [sleep] at its end. *)
Definition poll_once (config : SPConfig) (session_id task_id : string)
    (i : Z) : M (option Z) :=
  task_state <- sp_get_task_status config session_id task_id ;;
  match task_state with
  | Some st =>
      if streq st "Success" then
        printf ("✓ Backup completed successfully" ++ nl) ;;
        ret (Some 1)
      else if streq st "Failed" || streq st "Error" then
        eprintf ("✗ Backup failed with state: " ++ st ++ nl) ;;
        ret (Some 0)
      else
        when ((streq st "Running" || streq st "Pending") && (i mod 6 =? 0))
          (printf ("  Status: " ++ st ++ "... (checking again in 5s)" ++ nl)) ;;
        ret None
  | None => ret None
  end.

(** The loop itself, with [remaining] iterations to go and loop index
    [i]: [None] when it runs to its end. *)
Fixpoint poll_loop (config : SPConfig) (session_id task_id : string)
    (remaining : nat) (i : Z) : M (option Z) :=
  match remaining with
  | O => ret None
  | S remaining' =>
      r <- poll_once config session_id task_id i ;;
      match r with
      | Some v => ret (Some v)
      | None =>
          emit (Sleep 5) ;;
          poll_loop config session_id task_id remaining' (i + 1)
      end
  end.

Definition sp_wait_for_task (config : SPConfig)
    (session_id task_id : string) (max_minutes : Z) : M Z :=
  emit (Enter "sp_wait_for_task") ;;
  let max_attempts := max_minutes * 12 in
  if (max_attempts <? INT_MIN) || (INT_MAX <? max_attempts) then
    undefined IntOverflow
  else
    printf (nl ++ "Waiting for backup to complete (max "
            ++ fmt_d max_minutes ++ " minutes)..." ++ nl) ;;
    r <- poll_loop config session_id task_id (Z.to_nat max_attempts) 0 ;;
    match r with
    | Some v => ret v
    | None =>
        eprintf ("✗ Timeout waiting for backup to complete" ++ nl) ;;
        ret 0
    end.

(** [sp_sign_off] sets no write callback, so libcurl itself writes the body
    of the response to standard output; the result of the transfer is not
    looked at. *)
Definition sp_sign_off (config : SPConfig) (session_id : string) : M unit :=
  emit (Enter "sp_sign_off") ;;
  curl <- easy_init ;;
  if negb curl then ret tt
  else
    printf (nl ++ "Signing off..." ++ nl) ;;
    res <- easy_perform (signoff_request config session_id) ;;
    match res with
    | CURLE_OK _ data => printf data
    | CURLE_failed _ => ret tt
    | CURLE_OK_nobody _ => ret tt
    end.

Definition scan_directory (env : Env) (dir_path : string) : M FileList :=
  match opendir env dir_path with
  | None =>
      eprintf ("Error: Cannot open directory '" ++ dir_path ++ "'" ++ nl) ;;
      ret {| files := [] |}
  | Some entries =>
      ret {| files := readdir_loop dir_path entries [] |}
  end.

(** The listing loop of [main]: one line per file, with the part of the
    path after its last slash. *)
Fixpoint print_files (env : Env) (fs : list string) : M unit :=
  match fs with
  | [] => ret tt
  | f :: rest =>
      match strrchr f "/" with
      | None => undefined NullPointer
      | Some slash =>
          printf ("  - " ++ drop 1 slash ++ " (" ++ fmt_d (st_size env f)
                  ++ " bytes)" ++ nl) ;;
          print_files env rest
      end
  end.

Definition usage (env : Env) : M unit :=
  eprintf ("Error: SP_PASSWORD environment variable not set" ++ nl) ;;
  eprintf (nl ++ "Usage: " ++ argv0 env ++ " [download_directory]" ++ nl) ;;
  eprintf (nl ++ "Environment variables:" ++ nl) ;;
  eprintf ("  SP_SERVER_URL  - Storage Protect server (default: http://spserver:1580)" ++ nl) ;;
  eprintf ("  SP_NODE_ID     - Node ID (default: APPLEBEES)" ++ nl) ;;
  eprintf ("  SP_PASSWORD    - Password (required)" ++ nl) ;;
  eprintf ("  SP_BACKUP_DIR  - Backup directory (default: /sp_backups/ceph_downloads)" ++ nl).

Definition getenv_or (env : Env) (name default : string) : string :=
  match getenv env name with
  | Some v => v
  | None => default
  end.

Definition load_config (env : Env) : SPConfig :=
  {| server_url := getenv_or env "SP_SERVER_URL" "http://spserver:1580";
     node_id := getenv_or env "SP_NODE_ID" "APPLEBEES";
     password := getenv env "SP_PASSWORD";
     backup_directory :=
       getenv_or env "SP_BACKUP_DIR" "/sp_backups/ceph_downloads" |}.

Definition download_dir_of (env : Env) : string :=
  match args env with
  | d :: _ => d
  | [] => "downloads"
  end.

(** [main] from the point where sign-on has left a session id: backup
    name, submission, wait, report, sign-off and the exit status. *)
Definition run_session (env : Env) (config : SPConfig)
    (download_dir : string) (flist : FileList) (session_id : string) : M Z :=
  let backup_name := strftime_backup_name (localtime_now env) in
  backup_task_id <- sp_start_backup config session_id download_dir
                      backup_name (Some flist) ;;
  match backup_task_id with
  | None =>
      eprintf ("Failed to start backup" ++ nl) ;;
      sp_sign_off config session_id ;;
      ret 1
  | Some backup_task_id =>
      success <- sp_wait_for_task config session_id backup_task_id 10 ;;
      when (negb (success =? 0))
        (sp_get_task_data config session_id backup_task_id) ;;
      sp_sign_off config session_id ;;
      ret (if success =? 0 then 1 else 0)
  end.

Definition main (env : Env) : M Z :=
  let config := load_config env in
  let download_dir := download_dir_of env in
  match password config with
  | None => usage env ;; ret 1
  | Some _ =>
      printf (banner_line ++ nl) ;;
      printf ("  IBM STORAGE PROTECT - C UPLOADER" ++ nl) ;;
      printf (banner_line ++ nl) ;;
      printf (nl ++ "Scanning directory: " ++ download_dir ++ nl) ;;
      flist <- scan_directory env download_dir ;;
      if count flist =? 0 then
        eprintf ("WARNING: No .txt files found in " ++ download_dir ++ nl) ;;
        ret 0
      else
        printf ("Found " ++ fmt_d (count flist) ++ " file(s) to backup:"
                ++ nl) ;;
        print_files env (files flist) ;;
        printf (nl ++ banner_line ++ nl) ;;
        printf ("  SIGNING ON TO IBM STORAGE PROTECT" ++ nl) ;;
        printf (banner_line ++ nl) ;;
        r <- sp_sign_on config None ;;
        match snd r with
        | None =>
            eprintf ("Failed to sign on" ++ nl) ;;
            ret 1
        | Some session_id =>
            run_session env config download_dir flist session_id
        end
  end.

End Client.

(** ** A scripted network and a small environment, for concrete runs *)

Module Script.

(** Each entry answers one [curl_easy_init]: [None] makes it fail,
    [Some r] lets it succeed and makes the transfer end in [r].  Once the
    script is used up every transfer fails to connect. *)
Definition Net : Type := list (option CurlResult).

Definition init (n : Net) : bool * Net :=
  match n with
  | None :: rest => (false, rest)
  | _ => (true, n)
  end.

Definition perform (_ : Request) (n : Net) : CurlResult * Net :=
  match n with
  | Some r :: rest => (r, rest)
  | _ => (CURLE_failed "Couldn't connect to server", List.tl n)
  end.

#[export] Instance scripted : Curl Net :=
  {| curl_easy_init := init; curl_easy_perform := perform |}.

Definition json1 (k v : string) : string :=
  "{" ++ quoted k ++ ":" ++ quoted v ++ "}".

Definition env_with (dir : option (list dirent)) : Env :=
  {| argv0 := "./sp_upload";
     args := [];
     getenv := fun name =>
       if String.eqb name "SP_PASSWORD" then Some "secret" else None;
     opendir := fun path =>
       if String.eqb path "downloads" then dir else None;
     st_size := fun _ => 42;
     localtime_now := {| tm_year := 124; tm_mon := 0; tm_mday := 5;
                         tm_hour := 9; tm_min := 30; tm_sec := 7 |} |}.

(** A directory of 500 regular files [f0.txt] ... [f499.txt]. *)
Definition many_files : list dirent :=
  List.map (fun k => {| d_name := "f" ++ fmt_d (Z.of_nat k) ++ ".txt";
                        d_type := DT_REG |})
    (List.seq 0 500).

(** A single answer, and the same answer [k] times over. *)
Definition state_is (st : string) : option CurlResult :=
  Some (CURLE_OK 200 (json1 "taskState" st)).

Definition always (k : nat) (answer : option CurlResult) : Net :=
  List.repeat answer k.

(** The value a run returned, if it returned. *)
Definition returned {A} (r : result (A * Net * list Event)) : option A :=
  match r with
  | Ok (a, _, _) => Some a
  | Undefined _ => None
  end.

Definition two_files : list dirent :=
  [ {| d_name := "a.txt"; d_type := DT_REG |};
    {| d_name := "notes.md"; d_type := DT_REG |};
    {| d_name := "sub.txt"; d_type := 4 |};
    {| d_name := "b.txt"; d_type := DT_REG |} ].

Definition demo_config : SPConfig := load_config (env_with (Some two_files)).

(** A key of 253 bytes, one more than the search pattern has room for. *)
Definition long_key : string :=
  string_of_list_ascii (List.repeat "a"%char 253).

(** No answer of the script is a successful transfer without a body. *)
Definition has_body (answer : option CurlResult) : bool :=
  match answer with
  | Some (CURLE_OK_nobody _) => false
  | _ => true
  end.

Definition bodied (n : Net) : Prop := forallb has_body n = true.

(** The environment [env] with [SP_PASSWORD] unset. *)
Definition no_password (env : Env) : Env :=
  {| argv0 := argv0 env;
     args := args env;
     getenv := fun name =>
       if String.eqb name "SP_PASSWORD" then None else getenv env name;
     opendir := opendir env;
     st_size := st_size env;
     localtime_now := localtime_now env |}.

End Script.

(** ** Vocabulary of the statements *)

(** Every byte of [s] satisfies [p]. *)
Fixpoint all_chars (p : ascii -> bool) (s : string) : bool :=
  match s with
  | EmptyString => true
  | String c rest => p c && all_chars p rest
  end.

(** [s] is not empty and its first byte satisfies [p]. *)
Definition starts_with (p : ascii -> bool) (s : string) : bool :=
  match s with
  | EmptyString => false
  | String c _ => p c
  end.

Definition is_dquote (c : ascii) : bool := Ascii.eqb c dquote.

(** [needle] occurs in [s] at offset [String.length pre], and nowhere
    before. *)
Definition first_occurrence (needle pre s : string) : Prop :=
  (exists post, s = pre ++ needle ++ post) /\
  forall pre' post', s = pre' ++ needle ++ post' ->
                     (String.length pre <= String.length pre')%nat.

Definition occurs (needle s : string) : Prop :=
  exists pre post, s = pre ++ needle ++ post.

(** How often [procedure] is entered in a trace, and the requests sent. *)
Fixpoint entries_of (procedure : string) (t : list Event) : nat :=
  match t with
  | [] => O
  | Enter f :: rest =>
      if String.eqb f procedure then S (entries_of procedure rest)
      else entries_of procedure rest
  | _ :: rest => entries_of procedure rest
  end.

Fixpoint requests_of (t : list Event) : list Request :=
  match t with
  | [] => []
  | Http r :: rest => r :: requests_of rest
  | _ :: rest => requests_of rest
  end.

Definition is_output (e : Event) : bool :=
  match e with
  | Stdout _ | Stderr _ => true
  | _ => false
  end.

Definition is_enter (e : Event) : bool :=
  match e with
  | Enter _ => true
  | _ => false
  end.

(** The trace of one call of [procedure] that calls no other procedure and
    sends nothing but [request]. *)
Definition single_call (procedure : string) (request : Request)
    (t : list Event) : Prop :=
  exists body,
    t = Enter procedure :: body
    /\ forallb (fun e => negb (is_enter e)) body = true
    /\ (requests_of body = [] \/ requests_of body = [request]).

(** The texts that the [snprintf] calls of [sp_start_backup] format, in the
    order of the calls, and the body they spell when nothing is cut. *)
Fixpoint entry_pieces (n i : Z) (fs : list string) : list string :=
  match fs with
  | [] => []
  | f :: rest =>
      (quoted f ++ (if i <? n - 1 then "," else EmptyString))
      :: entry_pieces n (i + 1) rest
  end.

Definition list_pieces (file_list : option FileList) : list string :=
  match file_list with
  | Some l =>
      if 0 <? count l then
        ("," ++ quoted "fileList" ++ ":[")%string
        :: (entry_pieces (count l) 0 (files l) ++ ["]"])%list
      else []
  | None => []
  end.

Definition concat_s (ss : list string) : string :=
  fold_right append EmptyString ss.

Definition payload_text (session_id backup_path backup_name : string)
    (file_list : option FileList) : string :=
  payload_head session_id backup_name backup_path
  ++ concat_s (list_pieces file_list) ++ "}".

(** A run of [snprintf_at] calls, one per text. *)
Fixpoint write_all (cap : Z) (b : Builder) (ss : list string) : result Builder :=
  match ss with
  | [] => Ok b
  | s :: rest => bind_result (snprintf_at cap b s) (fun b => write_all cap b rest)
  end.

(** The builder has seen the text [full] so far. *)
Definition holds (cap : Z) (full : string) (b : Builder) : Prop :=
  offset b = strlen full /\ text b = take (Z.to_nat (cap - 1)) full.

(** [run_session] without its two calls of [sp_sign_off]: the work that
    fixes the exit status.  It is not a procedure of the source; the
    statements about sign-off compare [run_session] with it. *)
Definition session_work {Net : Type} {curl : Curl Net} (env : Env)
    (config : SPConfig) (download_dir : string) (flist : FileList)
    (session_id : string) : M Z :=
  bind
    (sp_start_backup config session_id download_dir
       (strftime_backup_name (localtime_now env)) (Some flist))
    (fun backup_task_id =>
       match backup_task_id with
       | None =>
           bind (eprintf ("Failed to start backup" ++ nl)) (fun _ => ret 1)
       | Some backup_task_id =>
           bind (sp_wait_for_task config session_id backup_task_id 10)
             (fun success =>
                bind
                  (when (negb (success =? 0))
                     (sp_get_task_data config session_id backup_task_id))
                  (fun _ => ret (if success =? 0 then 1 else 0)))
       end).

(** The files the scan of the download directory finds. *)
Definition found_files (env : Env) : list string :=
  match opendir env (download_dir_of env) with
  | Some entries => readdir_loop (download_dir_of env) entries []
  | None => []
  end.

(** What the scan reports on standard error. *)
Definition scan_diagnostic (env : Env) : list Event :=
  match opendir env (download_dir_of env) with
  | Some _ => []
  | None =>
      [Stderr ("Error: Cannot open directory '" ++ download_dir_of env ++ "'"
               ++ nl)]
  end.

(** What [main] prints before the scan reports. *)
Definition start_trace (env : Env) : list Event :=
  [Stdout (banner_line ++ nl);
   Stdout ("  IBM STORAGE PROTECT - C UPLOADER" ++ nl);
   Stdout (banner_line ++ nl);
   Stdout (nl ++ "Scanning directory: " ++ download_dir_of env ++ nl)].

(** [env] with another answer of [opendir] for the download directory, and
    [env] with another value of the variable [SP_BACKUP_DIR]. *)
Definition with_directory (env : Env) (dir : option (list dirent)) : Env :=
  {| argv0 := argv0 env;
     args := args env;
     getenv := getenv env;
     opendir := fun path =>
       if String.eqb path (download_dir_of env) then dir else opendir env path;
     st_size := st_size env;
     localtime_now := localtime_now env |}.

Definition with_backup_dir (env : Env) (value : option string) : Env :=
  {| argv0 := argv0 env;
     args := args env;
     getenv := fun name =>
       if String.eqb name "SP_BACKUP_DIR" then value else getenv env name;
     opendir := opendir env;
     st_size := st_size env;
     localtime_now := localtime_now env |}.

Definition no_files_warning (env : Env) : Event :=
  Stderr ("WARNING: No .txt files found in " ++ download_dir_of env ++ nl).

Definition has_slash (f : string) : bool :=
  match strrchr f "/" with
  | Some _ => true
  | None => false
  end.

(** The run gets as far as the call of [sp_sign_on]: the password is set,
    the scan finds a file, and the listing finds a slash in every path. *)
Definition reaches_sign_on (env : Env) : Prop :=
  getenv env "SP_PASSWORD" <> None
  /\ found_files env <> []
  /\ forallb has_slash (found_files env) = true.

(** [good] is a set of states of the network that the two entry points of
    libcurl never leave and in which no transfer succeeds without handing
    a body to the write callback. *)
Definition delivers_body {Net : Type} {curl : Curl Net} (good : Net -> Prop)
  : Prop :=
  forall n, good n ->
    good (snd (curl_easy_init n))
    /\ forall q,
         good (snd (curl_easy_perform q n))
         /\ forall code, fst (curl_easy_perform q n) <> CURLE_OK_nobody code.

(** ** The response buffer *)

Module ResponseBuffer.

(** [Response]: [data] is the heap block, [size] the number of body bytes
    in it. *)
Record Response := { data : string; size : Z }.

(** [size_t] has 64 bits. *)
Definition SIZE_MODULUS : Z := 2 ^ 64.

Definition zero_byte : string := String Ascii.zero EmptyString.

(** [chunk.data = malloc(1); chunk.size = 0;] the one byte is whatever the
    allocator left there. *)
Definition fresh (garbage : ascii) : Response :=
  {| data := String garbage EmptyString; size := 0 |}.

(** [write_callback]: [contents] holds the bytes libcurl hands over,
    [realloc_ok] tells whether [realloc] succeeds.  The result is the
    returned count and [*userp] after the call. *)
Definition write_callback (realloc_ok : bool) (contents : string)
    (size_ nmemb : Z) (mem : Response) : result (Z * Response * list Event) :=
  let realsize := (size_ * nmemb) mod SIZE_MODULUS in
  let block := (size mem + realsize + 1) mod SIZE_MODULUS in
  if negb realloc_ok then
    Ok (0, mem, [Stderr ("Memory allocation failed" ++ nl)])
  else if (block <? size mem + realsize + 1) || (strlen contents <? realsize)
  then Undefined HeapOverflow
  else
    Ok (realsize,
        {| data := take (Z.to_nat (size mem)) (data mem)
                   ++ take (Z.to_nat realsize) contents ++ zero_byte;
           size := size mem + realsize |},
        []).

(** The calls libcurl makes for the chunks of one body, each of one-byte
    items, with [realloc] succeeding: the buffer after the last one. *)
Fixpoint receive (chunks : list string) (mem : Response) : result Response :=
  match chunks with
  | [] => Ok mem
  | c :: rest =>
      match write_callback true c 1 (strlen c) mem with
      | Ok (_, mem', _) => receive rest mem'
      | Undefined u => Undefined u
      end
  end.

(** The C string a block holds: its bytes up to the first zero. *)
Fixpoint c_str (bytes : string) : string :=
  match bytes with
  | EmptyString => EmptyString
  | String a rest =>
      if Ascii.eqb a Ascii.zero then EmptyString else String a (c_str rest)
  end.

End ResponseBuffer.

(** ** More vocabulary *)

(** The test [scan_directory] makes of an entry, and the path it stores. *)
Definition is_txt_file (entry : dirent) : bool :=
  (d_type entry =? DT_REG)
  && match strrchr (d_name entry) "." with
     | Some ext => streq ext ".txt"
     | None => false
     end.

Definition full_path (dir_path : string) (entry : dirent) : string :=
  snprintf MAX_PATH_LEN (dir_path ++ "/" ++ d_name entry).

(** Quoted paths with a comma between each two. *)
Fixpoint join_quoted (fs : list string) : string :=
  match fs with
  | [] => EmptyString
  | [f] => quoted f
  | f :: rest => quoted f ++ "," ++ join_quoted rest
  end.

(** The seconds a trace sleeps in total. *)
Fixpoint sleep_total (t : list Event) : Z :=
  match t with
  | [] => 0
  | Sleep s :: rest => s + sleep_total rest
  | _ :: rest => sleep_total rest
  end.

Definition is_stderr (e : Event) : bool :=
  match e with
  | Stderr _ => true
  | _ => false
  end.

Definition success_line : Event :=
  Stdout ("✓ Backup completed successfully" ++ nl).

(** A request that belongs to the session [sid] and the task [tid]. *)
Definition in_session (config : SPConfig) (sid tid : string) (q : Request)
  : Prop :=
  q = status_request config sid tid
  \/ q = data_request config sid tid
  \/ q = signoff_request config sid.

(** Calendar values as [localtime] yields them, for a four-digit year. *)
Definition calendar_time (t : tm) : Prop :=
  1000 <= tm_year t + 1900 <= 9999
  /\ 0 <= tm_mon t <= 11 /\ 1 <= tm_mday t <= 31
  /\ 0 <= tm_hour t <= 23 /\ 0 <= tm_min t <= 59 /\ 0 <= tm_sec t <= 60.

(** * Properties *)

(** ** Facts about the string primitives *)

Section StringFacts.

Local Open Scope nat_scope.

Lemma length_app (a b : string) :
  String.length (a ++ b) = String.length a + String.length b.
Proof. induction a as [|c a IH]; simpl; congruence. Qed.

Lemma app_assoc_s (a b c : string) : (a ++ b) ++ c = a ++ b ++ c.
Proof. induction a as [|x a IH]; simpl; congruence. Qed.

Lemma app_empty_r (a : string) : a ++ EmptyString = a.
Proof. induction a as [|x a IH]; simpl; congruence. Qed.

Lemma take_all (n : nat) (s : string) :
  String.length s <= n -> take n s = s.
Proof.
  revert n; induction s as [|c s IH]; intros [|n] H; simpl in *;
    try reflexivity; try lia.
  f_equal. apply IH. lia.
Qed.

Lemma take_app_length (a b : string) : take (String.length a) (a ++ b) = a.
Proof. induction a as [|c a IH]; simpl; [destruct b|]; congruence. Qed.

Lemma take_app_ge (n : nat) (a b : string) :
  String.length a <= n ->
  take n (a ++ b) = a ++ take (n - String.length a) b.
Proof.
  revert n; induction a as [|c a IH]; intros n H; simpl in *.
  - now rewrite Nat.sub_0_r.
  - destruct n as [|n]; [lia|]. simpl. f_equal. apply IH. lia.
Qed.

Lemma take_app_le (n : nat) (a b : string) :
  n <= String.length a -> take n (a ++ b) = take n a.
Proof.
  revert n; induction a as [|c a IH]; intros [|n] H; simpl in *;
    try reflexivity; try lia.
  f_equal. apply IH. lia.
Qed.

Lemma length_take (n : nat) (s : string) :
  String.length (take n s) = Nat.min n (String.length s).
Proof.
  revert n; induction s as [|c s IH]; intros [|n]; simpl; auto.
Qed.

Lemma drop_app_length (a b : string) : drop (String.length a) (a ++ b) = b.
Proof. induction a as [|c a IH]; simpl; [destruct b|]; auto. Qed.

Lemma copy_between_app (v rest : string) : copy_between (v ++ rest) rest = v.
Proof.
  unfold copy_between. rewrite length_app.
  replace (String.length v + String.length rest - String.length rest)
    with (String.length v) by lia.
  apply take_app_length.
Qed.

Lemma prefix_app (p r : string) : String.prefix p (p ++ r) = true.
Proof.
  induction p as [|c p IH]; simpl.
  - now destruct r.
  - destruct (ascii_dec c c); [assumption | congruence].
Qed.

Lemma prefix_inv (p s : string) :
  String.prefix p s = true -> exists r, s = p ++ r.
Proof.
  revert s; induction p as [|c p IH]; intros s H.
  - now exists s.
  - destruct s as [|d s]; simpl in H; [discriminate|].
    destruct (ascii_dec c d) as [->|]; [|discriminate].
    destruct (IH _ H) as [r ->]. now exists r.
Qed.

Lemma strstr_at_prefix (haystack needle : string) :
  String.prefix needle haystack = true ->
  strstr haystack needle = Some haystack.
Proof. intros H. destruct haystack; cbn [strstr]; rewrite H; reflexivity. Qed.

(** [strstr] finds the first occurrence of the needle. *)
Lemma strstr_first (needle pre post : string) :
  (forall pre' post', pre ++ needle ++ post = pre' ++ needle ++ post' ->
                      String.length pre <= String.length pre') ->
  strstr (pre ++ needle ++ post) needle = Some (needle ++ post).
Proof.
  induction pre as [|c pre IH]; intros Hmin.
  - simpl. apply strstr_at_prefix, prefix_app.
  - cbn [append strstr].
    destruct (String.prefix needle (String c (pre ++ needle ++ post))) eqn:P.
    + apply prefix_inv in P. destruct P as [r Hr].
      specialize (Hmin EmptyString r Hr). simpl in Hmin. lia.
    + apply IH. intros pre' post' E.
      specialize (Hmin (String c pre') post'). simpl in Hmin.
      rewrite E in Hmin. specialize (Hmin eq_refl). lia.
Qed.

Lemma strstr_none (haystack needle : string) :
  (forall pre post, haystack <> pre ++ needle ++ post) ->
  strstr haystack needle = None.
Proof.
  induction haystack as [|c h IH]; intros Hno.
  - cbn [strstr]. destruct (String.prefix needle EmptyString) eqn:P; [|reflexivity].
    apply prefix_inv in P. destruct P as [r Hr].
    exfalso. apply (Hno EmptyString r). exact Hr.
  - cbn [strstr]. destruct (String.prefix needle (String c h)) eqn:P.
    + apply prefix_inv in P. destruct P as [r Hr].
      exfalso. apply (Hno EmptyString r). exact Hr.
    + apply IH. intros pre post E. apply (Hno (String c pre) post).
      simpl. now rewrite E.
Qed.

Lemma strstr_some (needle pre post : string) :
  strstr (pre ++ needle ++ post) needle <> None.
Proof.
  induction pre as [|c pre IH]; cbn [append strstr].
  - rewrite strstr_at_prefix by apply prefix_app. discriminate.
  - destruct (String.prefix needle (String c (pre ++ needle ++ post)));
      [discriminate | exact IH].
Qed.

End StringFacts.

(** ** The response decoder *)

Section DecoderFacts.

Lemma skip_spaces_app (ws rest : string) :
  all_chars is_json_space ws = true ->
  starts_with is_json_space rest = false ->
  skip_spaces (ws ++ rest) = rest.
Proof.
  intros Hws Hrest.
  induction ws as [|c ws IH]; cbn [append skip_spaces all_chars] in *.
  - destruct rest as [|d rest]; [reflexivity|].
    cbn [starts_with skip_spaces] in *. now rewrite Hrest.
  - apply andb_prop in Hws. destruct Hws as [Hc Hws]. rewrite Hc. auto.
Qed.

Lemma strchr_app (v post : string) (c : ascii) :
  all_chars (fun a => negb (Ascii.eqb a c)) v = true ->
  strchr (v ++ String c post) c = Some (String c post).
Proof.
  intros Hv. induction v as [|a v IH]; cbn [append strchr all_chars] in *.
  - now rewrite Ascii.eqb_refl.
  - apply andb_prop in Hv. destruct Hv as [Ha Hv].
    apply negb_true_iff in Ha. rewrite Ha. auto.
Qed.

Lemma scan_bare_app (tok post : string) :
  all_chars (fun a => negb (is_json_delim a)) tok = true ->
  post = EmptyString \/ starts_with is_json_delim post = true ->
  scan_bare (tok ++ post) = post.
Proof.
  intros Htok Hpost.
  induction tok as [|a tok IH]; cbn [append scan_bare all_chars] in *.
  - destruct Hpost as [->|H]; [reflexivity|].
    destruct post as [|d post]; [discriminate|].
    cbn [starts_with scan_bare] in *. now rewrite H.
  - apply andb_prop in Htok. destruct Htok as [Ha Htok].
    apply negb_true_iff in Ha. rewrite Ha. auto.
Qed.

Lemma search_pattern_fits (key : string) :
  (String.length key <= 252)%nat ->
  snprintf 256 (quoted key ++ ":") = quoted key ++ ":".
Proof.
  intros H. unfold snprintf. apply take_all.
  unfold quoted, quot. rewrite !length_app. simpl. lia.
Qed.

(** What the decoder does once the search pattern has been located. *)
Lemma extract_at_first (json key pre ws rest : string) :
  (String.length key <= 252)%nat ->
  first_occurrence (quoted key ++ ":") pre json ->
  json = pre ++ (quoted key ++ ":") ++ ws ++ rest ->
  all_chars is_json_space ws = true ->
  starts_with is_json_space rest = false ->
  extract_json_value json key =
    match rest with
    | String c tail =>
        if Ascii.eqb c dquote then
          match strchr tail dquote with
          | None => None
          | Some end_ => Some (copy_between tail end_)
          end
        else Some (copy_between rest (scan_bare rest))
    | EmptyString => Some (copy_between rest (scan_bare rest))
    end.
Proof.
  intros Hk [_ Hmin] E Hws Hrest. unfold extract_json_value.
  rewrite (search_pattern_fits key Hk). subst json.
  rewrite strstr_first by (intros; eapply Hmin; eassumption).
  rewrite drop_app_length, skip_spaces_app by assumption.
  reflexivity.
Qed.

(** The two cases the callers rely on: a quoted value, and no key. *)
Lemma extract_quoted_value (json key pre ws v post : string) :
  (String.length key <= 252)%nat ->
  first_occurrence (quoted key ++ ":") pre json ->
  json = pre ++ (quoted key ++ ":") ++ ws ++ quoted v ++ post ->
  all_chars is_json_space ws = true ->
  all_chars (fun a => negb (is_dquote a)) v = true ->
  extract_json_value json key = Some v.
Proof.
  intros Hk Hfirst E Hws Hv.
  rewrite (extract_at_first json key pre ws (quoted v ++ post) Hk Hfirst E Hws)
    by reflexivity.
  unfold quoted, quot. cbn [append]. rewrite Ascii.eqb_refl.
  rewrite app_assoc_s. cbn [append].
  rewrite strchr_app by exact Hv.
  now rewrite copy_between_app.
Qed.

Lemma extract_absent (json key : string) :
  (String.length key <= 252)%nat ->
  ~ occurs (quoted key ++ ":") json ->
  extract_json_value json key = None.
Proof.
  intros Hk Hno. unfold extract_json_value.
  rewrite (search_pattern_fits key Hk).
  rewrite strstr_none; [reflexivity|].
  intros pre post E. apply Hno. now exists pre, post.
Qed.

End DecoderFacts.

(** C6 (as amended): for a key of at most 252 bytes the decoder looks at
    the first place where the body holds the key between quotes followed by
    a colon, skips spaces, newlines and tabs, and then: behind an opening
    quote it returns the bytes up to the next quote; otherwise it returns the
    raw bytes up to the next comma, closing brace, closing bracket or the end
    of the body.  When the body holds no such place the result is absent. *)
Theorem extract_json_value_first_match (json key : string) :
  (String.length key <= 252)%nat ->
  (~ occurs (quoted key ++ ":") json -> extract_json_value json key = None)
  /\
  (forall pre ws rest,
      first_occurrence (quoted key ++ ":") pre json ->
      json = pre ++ (quoted key ++ ":") ++ ws ++ rest ->
      all_chars is_json_space ws = true ->
      starts_with is_json_space rest = false ->
      (forall v post,
          rest = quoted v ++ post ->
          all_chars (fun a => negb (is_dquote a)) v = true ->
          extract_json_value json key = Some v)
      /\
      (forall tok post,
          rest = tok ++ post ->
          starts_with is_dquote rest = false ->
          all_chars (fun a => negb (is_json_delim a)) tok = true ->
          post = EmptyString \/ starts_with is_json_delim post = true ->
          extract_json_value json key = Some tok)).
Proof.
  intros Hk. split.
  - intros Hno. unfold extract_json_value.
    rewrite (search_pattern_fits key Hk).
    rewrite strstr_none; [reflexivity|].
    intros pre post E. apply Hno. now exists pre, post.
  - intros pre ws rest Hfirst E Hws Hrest. split.
    + intros v post -> Hv.
      rewrite (extract_at_first json key pre ws _ Hk Hfirst E Hws Hrest).
      unfold quoted, quot. cbn [append]. rewrite Ascii.eqb_refl.
      rewrite app_assoc_s. cbn [append].
      rewrite strchr_app by exact Hv.
      now rewrite copy_between_app.
    + intros tok post -> Hq Htok Hpost.
      rewrite (extract_at_first json key pre ws _ Hk Hfirst E Hws Hrest).
      assert (R : Some (copy_between (tok ++ post) (scan_bare (tok ++ post)))
                  = Some tok).
      { rewrite scan_bare_app by assumption. now rewrite copy_between_app. }
      destruct (tok ++ post) as [|c tail] eqn:Et; [exact R|].
      simpl in Hq. unfold is_dquote in Hq. rewrite Hq. exact R.
Qed.

(** ** Traces *)

Lemma entries_of_app (f : string) (t1 t2 : list Event) :
  entries_of f (t1 ++ t2)%list = (entries_of f t1 + entries_of f t2)%nat.
Proof.
  induction t1 as [|e t1 IH]; [reflexivity|].
  destruct e; simpl; auto. destruct (String.eqb procedure f); simpl; auto.
Qed.

Lemma requests_of_app (t1 t2 : list Event) :
  requests_of (t1 ++ t2)%list = (requests_of t1 ++ requests_of t2)%list.
Proof.
  induction t1 as [|e t1 IH]; [reflexivity|].
  destruct e; simpl; auto. now rewrite IH.
Qed.

Lemma outputs_no_entries (f : string) (t : list Event) :
  forallb is_output t = true -> entries_of f t = O.
Proof.
  induction t as [|e t IH]; [reflexivity|].
  destruct e; simpl; intros H; try discriminate; auto.
Qed.

Lemma outputs_no_requests (t : list Event) :
  forallb is_output t = true -> requests_of t = [].
Proof.
  induction t as [|e t IH]; [reflexivity|].
  destruct e; simpl; intros H; try discriminate; auto.
Qed.

(** ** The payload buffer *)

Section PayloadFacts.

Lemma strlen_app (a b : string) : strlen (a ++ b) = strlen a + strlen b.
Proof. unfold strlen. rewrite length_app. lia. Qed.

Lemma strlen_nonneg (a : string) : 0 <= strlen a.
Proof. unfold strlen. lia. Qed.

Lemma holds_start (cap : Z) :
  holds cap EmptyString {| text := EmptyString; offset := 0 |}.
Proof. split; [reflexivity|]. simpl. now destruct (Z.to_nat (cap - 1)). Qed.

(** One call: it runs outside the block exactly when the text so far is
    longer than the block, and otherwise keeps [holds]. *)
Lemma snprintf_at_spec (cap : Z) (full s : string) (b : Builder) :
  0 < cap ->
  holds cap full b ->
  strlen full + strlen s <= INT_MAX ->
  if cap <? strlen full then snprintf_at cap b s = Undefined HeapOverflow
  else exists b', snprintf_at cap b s = Ok b' /\ holds cap (full ++ s) b'.
Proof.
  intros Hcap [Hoff Htext] Hmax. unfold snprintf_at. rewrite Hoff.
  destruct (cap <? strlen full) eqn:E1; [reflexivity|].
  apply Z.ltb_ge in E1.
  replace (INT_MAX <? strlen full + strlen s) with false
    by (symmetry; now apply Z.ltb_ge).
  destruct (strlen full =? cap) eqn:E2.
  - apply Z.eqb_eq in E2. eexists. split; [reflexivity|]. split; simpl.
    + now rewrite strlen_app.
    + rewrite Htext. symmetry. rewrite take_app_le; [reflexivity|].
      unfold strlen in E2. lia.
  - apply Z.eqb_neq in E2. eexists. split; [reflexivity|]. split; simpl.
    + now rewrite strlen_app.
    + assert (Hlen : (String.length full <= Z.to_nat (cap - 1))%nat)
        by (unfold strlen in *; lia).
      rewrite Htext, (take_all _ full Hlen).
      unfold strlen. rewrite Nat2Z.id, (take_all _ full) by lia.
      rewrite take_app_ge by exact Hlen. f_equal. f_equal. lia.
Qed.

Lemma concat_s_app (a b : list string) :
  concat_s (a ++ b) = concat_s a ++ concat_s b.
Proof.
  induction a as [|x a IH]; simpl; [reflexivity|].
  now rewrite IH, app_assoc_s.
Qed.

(** A run of calls: it fails exactly when the text before the last call is
    longer than the block. *)
Lemma write_all_spec (cap : Z) (ss : list string) :
  0 < cap ->
  forall (full : string) (b : Builder),
    holds cap full b ->
    strlen full + strlen (concat_s ss) <= INT_MAX ->
    match write_all cap b ss with
    | Ok b' =>
        holds cap (full ++ concat_s ss) b'
        /\ (ss <> [] -> strlen (full ++ concat_s (removelast ss)) <= cap)
    | Undefined u =>
        u = HeapOverflow /\ cap < strlen (full ++ concat_s (removelast ss))
    end.
Proof.
  intros Hcap. induction ss as [|s ss IH]; intros full b Hb Hmax.
  - simpl. rewrite app_empty_r. split; [assumption | congruence].
  - cbn [write_all]. cbn [concat_s fold_right] in Hmax. fold (concat_s ss) in Hmax.
    rewrite strlen_app in Hmax.
    pose proof (strlen_nonneg (concat_s ss)) as Hnn.
    pose proof (strlen_nonneg s) as Hns.
    assert (Hstep := snprintf_at_spec cap full s b Hcap Hb ltac:(lia)).
    assert (Hrl : strlen full <= strlen (full ++ concat_s (removelast (s :: ss)))).
    { rewrite strlen_app.
      pose proof (strlen_nonneg (concat_s (removelast (s :: ss)))). lia. }
    destruct (cap <? strlen full) eqn:E.
    + rewrite Hstep. simpl bind_result. apply Z.ltb_lt in E. split; [reflexivity | lia].
    + destruct Hstep as (b1 & -> & Hb1). simpl bind_result.
      apply Z.ltb_ge in E.
      specialize (IH (full ++ s) b1 Hb1).
      rewrite strlen_app in IH. specialize (IH ltac:(lia)).
      destruct ss as [|s' ss'].
      * cbn [write_all concat_s fold_right removelast] in *.
        rewrite !app_empty_r in *. destruct IH as [IH _].
        split; [exact IH|]. intros _. exact E.
      * change (removelast (s :: s' :: ss')) with (s :: removelast (s' :: ss')).
        change (concat_s (s :: ?l)) with (s ++ concat_s l).
        rewrite <- !app_assoc_s.
        destruct (write_all cap b1 (s' :: ss')) as [b'|u].
        -- destruct IH as [IH1 IH2]. split; [exact IH1|].
           intros _. apply IH2. discriminate.
        -- exact IH.
Qed.

Lemma write_all_app (cap : Z) (a c : list string) (b : Builder) :
  write_all cap b (a ++ c) =
    bind_result (write_all cap b a) (fun b => write_all cap b c).
Proof.
  revert b; induction a as [|s a IH]; intros b; [reflexivity|].
  cbn [write_all app]. destruct (snprintf_at cap b s); simpl; auto.
Qed.

Lemma add_file_entries_pieces (cap n : Z) (fs : list string) :
  forall (i : Z) (b : Builder),
    add_file_entries cap n i fs b = write_all cap b (entry_pieces n i fs).
Proof.
  induction fs as [|f fs IH]; intros i b; [reflexivity|].
  cbn [add_file_entries entry_pieces write_all].
  destruct (snprintf_at cap b _); simpl; auto.
Qed.

(** [sp_start_backup] builds its body by one run of calls. *)
Lemma build_backup_payload_pieces (sid path name : string)
    (fl : option FileList) :
  build_backup_payload sid path name fl =
    bind_result
      (write_all 8192 {| text := EmptyString; offset := 0 |}
         (payload_head sid name path :: list_pieces fl ++ ["}"]))
      (fun b => Ok (text b)).
Proof.
  unfold build_backup_payload. cbn [write_all].
  destruct (snprintf_at 8192 _ (payload_head sid name path)) as [b|u];
    [|reflexivity].
  cbn [bind_result]. rewrite write_all_app. unfold list_pieces.
  destruct fl as [l|];
    [destruct (0 <? count l)|];
    cbn [write_all bind_result];
    try (destruct (snprintf_at 8192 b "}"); reflexivity).
  destruct (snprintf_at 8192 b _) as [b1|u]; [|reflexivity].
  cbn [bind_result]. rewrite write_all_app, add_file_entries_pieces.
  destruct (write_all 8192 b1 _) as [b2|u]; [|reflexivity].
  cbn [bind_result write_all].
  destruct (snprintf_at 8192 b2 "]") as [b3|u]; [|reflexivity].
  cbn [bind_result].
  destruct (snprintf_at 8192 b3 "}"); reflexivity.
Qed.

(** The outcome of the payload construction, by the length of the text it
    is to hold: up to 8193 bytes it leaves the first 8191 of them in the
    block, from 8194 bytes on a store runs outside the block. *)
Lemma build_backup_payload_cases (sid path name : string)
    (fl : option FileList) :
  strlen (payload_text sid path name fl) <= INT_MAX ->
  (strlen (payload_text sid path name fl) <= 8193
   /\ build_backup_payload sid path name fl
      = Ok (take (Z.to_nat 8191) (payload_text sid path name fl)))
  \/ (8194 <= strlen (payload_text sid path name fl)
      /\ build_backup_payload sid path name fl = Undefined HeapOverflow).
Proof.
  intros Hmax. rewrite build_backup_payload_pieces.
  set (ss := payload_head sid name path :: list_pieces fl ++ ["}"]).
  assert (Htext : concat_s ss = payload_text sid path name fl).
  { unfold ss, payload_text. cbn [concat_s fold_right].
    fold (concat_s (list_pieces fl ++ ["}"])). now rewrite concat_s_app. }
  assert (Hlast : concat_s (removelast ss) ++ "}" = payload_text sid path name fl).
  { unfold ss. change (removelast (?a :: ?l ++ ["}"]))
      with (removelast ((a :: l) ++ ["}"])).
    rewrite removelast_last. unfold payload_text.
    cbn [concat_s fold_right]. now rewrite app_assoc_s. }
  assert (Hlen : strlen (payload_text sid path name fl)
                 = strlen (concat_s (removelast ss)) + 1).
  { rewrite <- Hlast, strlen_app. reflexivity. }
  pose proof (write_all_spec 8192 ss ltac:(lia) EmptyString _ (holds_start 8192))
    as H.
  rewrite Htext in H. change (strlen EmptyString) with 0 in H.
  specialize (H Hmax). cbn [append] in H.
  destruct (write_all 8192 _ ss) as [b|u]; cbn [bind_result].
  - destruct H as [[_ Ht] Hle]. left. split.
    + specialize (Hle ltac:(discriminate)). lia.
    + rewrite Ht. reflexivity.
  - destruct H as [-> Hgt]. right. split; [lia | reflexivity].
Qed.

Lemma build_backup_payload_fits (sid path name : string) (fl : option FileList) :
  strlen (payload_text sid path name fl) <= 8191 ->
  build_backup_payload sid path name fl = Ok (payload_text sid path name fl).
Proof.
  intros H.
  destruct (build_backup_payload_cases sid path name fl) as [[_ E]|[H' _]];
    [unfold INT_MAX; lia | | lia].
  rewrite E. f_equal. apply take_all. unfold strlen in H. lia.
Qed.

Lemma snprintf_at_Ok_inv (cap : Z) (full s : string) (b b' : Builder) :
  0 < cap ->
  holds cap full b ->
  snprintf_at cap b s = Ok b' ->
  holds cap (full ++ s) b' /\ strlen full <= cap.
Proof.
  intros Hcap Hb Hok.
  assert (Hle : strlen full <= cap /\ strlen full + strlen s <= INT_MAX).
  { destruct Hb as [Hoff _]. unfold snprintf_at in Hok. rewrite Hoff in Hok.
    destruct (cap <? strlen full) eqn:E1; [discriminate|].
    destruct (INT_MAX <? strlen full + strlen s) eqn:E2; [discriminate|].
    apply Z.ltb_ge in E1, E2. auto. }
  destruct Hle as [Hle Hmax].
  pose proof (snprintf_at_spec cap full s b Hcap Hb Hmax) as H.
  replace (cap <? strlen full) with false in H
    by (symmetry; now apply Z.ltb_ge).
  destruct H as (b1 & E & Hb1). rewrite Hok in E. injection E as <-. auto.
Qed.

Lemma write_all_Ok_inv (cap : Z) (ss : list string) :
  0 < cap ->
  forall (full : string) (b b' : Builder),
    holds cap full b ->
    write_all cap b ss = Ok b' ->
    holds cap (full ++ concat_s ss) b'
    /\ (ss <> [] -> strlen (full ++ concat_s (removelast ss)) <= cap).
Proof.
  intros Hcap. induction ss as [|s ss IH]; intros full b b' Hb Hok.
  - injection Hok as <-. simpl. rewrite app_empty_r. split; [assumption|congruence].
  - cbn [write_all] in Hok.
    destruct (snprintf_at cap b s) as [b1|u] eqn:E; [|discriminate].
    cbn [bind_result] in Hok.
    destruct (snprintf_at_Ok_inv cap full s b b1 Hcap Hb E) as [Hb1 Hle].
    destruct (IH (full ++ s) b1 b' Hb1 Hok) as [H1 H2].
    change (concat_s (s :: ss)) with (s ++ concat_s ss).
    rewrite <- app_assoc_s. split; [exact H1|]. intros _.
    destruct ss as [|s' ss'].
    + cbn [removelast concat_s fold_right]. now rewrite app_empty_r.
    + change (removelast (s :: s' :: ss')) with (s :: removelast (s' :: ss')).
      change (concat_s (s :: ?l)) with (s ++ concat_s l).
      rewrite <- app_assoc_s. apply H2. discriminate.
Qed.

(** When the construction returns, the body is the text cut to the
    capacity of the block, and the text is at most two bytes longer. *)
Lemma build_backup_payload_Ok_inv (sid path name body : string)
    (fl : option FileList) :
  build_backup_payload sid path name fl = Ok body ->
  body = take (Z.to_nat 8191) (payload_text sid path name fl)
  /\ strlen (payload_text sid path name fl) <= 8193.
Proof.
  rewrite build_backup_payload_pieces.
  set (ss := payload_head sid name path :: list_pieces fl ++ ["}"]).
  destruct (write_all 8192 _ ss) as [b|u] eqn:E; [|discriminate].
  cbn [bind_result]. intros [= <-].
  destruct (write_all_Ok_inv 8192 ss ltac:(lia) EmptyString _ b
              (holds_start 8192) E) as [[_ Ht] Hle].
  cbn [append] in *.
  assert (Htext : concat_s ss = payload_text sid path name fl).
  { unfold ss, payload_text. cbn [concat_s fold_right].
    fold (concat_s (list_pieces fl ++ ["}"])). now rewrite concat_s_app. }
  assert (Hlast : concat_s (removelast ss) ++ "}" = payload_text sid path name fl).
  { unfold ss. change (removelast (?a :: ?l ++ ["}"]))
      with (removelast ((a :: l) ++ ["}"])).
    rewrite removelast_last. unfold payload_text.
    cbn [concat_s fold_right]. now rewrite app_assoc_s. }
  rewrite Htext in Ht. split; [exact Ht|].
  specialize (Hle ltac:(discriminate)).
  rewrite <- Hlast, strlen_app. change (strlen "}") with 1. lia.
Qed.

(** With a file list, a body that was built starts with the whole head,
    and so holds the backup path it was given. *)
Lemma payload_has_head (sid path name body : string) (l : FileList) :
  0 < count l ->
  build_backup_payload sid path name (Some l) = Ok body ->
  exists rest, body = payload_head sid name path ++ rest.
Proof.
  intros Hl Hok.
  destruct (build_backup_payload_Ok_inv _ _ _ _ _ Hok) as [-> Hlen].
  unfold payload_text in *. unfold list_pieces in *.
  apply Z.ltb_lt in Hl. rewrite Hl in *.
  rewrite take_app_ge; [eauto|].
  rewrite !strlen_app in Hlen. cbn [concat_s fold_right] in Hlen.
  rewrite (strlen_app ("," ++ quoted "fileList" ++ ":[")) in Hlen.
  change (strlen ("," ++ quoted "fileList" ++ ":[")) with 13 in Hlen.
  change (strlen "}") with 1 in Hlen.
  pose proof (strlen_nonneg
                (fold_right append EmptyString
                   (entry_pieces (count l) 0 (files l) ++ ["]"]))).
  unfold strlen in *. lia.
Qed.

End PayloadFacts.

(** ** The procedures, one by one *)

Section ClientFacts.

Context {Net : Type} {curl : Curl Net}.

Lemma bind_Ok {A B} (m : M A) (k : A -> M B) (n n1 n2 : Net) a b t1 t2 :
  m n = Ok (a, n1, t1) -> k a n1 = Ok (b, n2, t2) ->
  bind m k n = Ok (b, n2, (t1 ++ t2)%list).
Proof. intros Hm Hk. unfold bind. rewrite Hm. rewrite Hk. reflexivity. Qed.

Lemma bind_Ok_inv {A B} (m : M A) (k : A -> M B) (n n2 : Net) b t :
  bind m k n = Ok (b, n2, t) ->
  exists a n1 t1 t2,
    m n = Ok (a, n1, t1) /\ k a n1 = Ok (b, n2, t2) /\ t = (t1 ++ t2)%list.
Proof.
  unfold bind. destruct (m n) as [[[a n1] t1]|] eqn:Em; [|discriminate].
  destruct (k a n1) as [[[b' n2'] t2]|] eqn:Ek; [|discriminate].
  intros [= <- <- <-]. now exists a, n1, t1, t2.
Qed.

(** [sp_sign_off] always returns, whatever libcurl does. *)
Lemma sp_sign_off_run (config : SPConfig) (sid : string) (n : Net) :
  sp_sign_off config sid n =
    let (ok, n1) := curl_easy_init n in
    if ok then
      let (res, n2) := curl_easy_perform (signoff_request config sid) n1 in
      Ok (tt, n2,
          Enter "sp_sign_off"
          :: Stdout (nl ++ "Signing off..." ++ nl)
          :: Http (signoff_request config sid)
          :: match res with
             | CURLE_OK _ data => [Stdout data]
             | _ => []
             end)
    else Ok (tt, n1, [Enter "sp_sign_off"]).
Proof.
  unfold sp_sign_off, bind, emit, easy_init, easy_perform, printf, ret.
  destruct (curl_easy_init n) as [[] n1]; simpl; [|reflexivity].
  destruct (curl_easy_perform _ n1) as [[code data|msg|code] n2]; reflexivity.
Qed.

Lemma sp_get_task_status_run (config : SPConfig) (sid tid : string) (n : Net) :
  sp_get_task_status config sid tid n =
    let (ok, n1) := curl_easy_init n in
    if ok then
      let (res, n2) := curl_easy_perform (status_request config sid tid) n1 in
      match res with
      | CURLE_OK _ data =>
          Ok (extract_json_value data "taskState", n2,
              [Enter "sp_get_task_status";
               Http (status_request config sid tid)])
      | CURLE_failed _ =>
          Ok (None, n2,
              [Enter "sp_get_task_status";
               Http (status_request config sid tid)])
      | CURLE_OK_nobody _ => Undefined UninitRead
      end
    else Ok (None, n1, [Enter "sp_get_task_status"]).
Proof.
  unfold sp_get_task_status, bind, emit, easy_init, easy_perform, ret,
    undefined.
  destruct (curl_easy_init n) as [[] n1]; simpl; [|reflexivity].
  destruct (curl_easy_perform _ n1) as [[code data|msg|code] n2]; reflexivity.
Qed.

Lemma sp_get_task_status_outcome (config : SPConfig) (sid tid : string)
    (n n1 : Net) (st : option string) (t1 : list Event) :
  sp_get_task_status config sid tid n = Ok (st, n1, t1) ->
  entries_of "sp_get_task_status" t1 = 1%nat
  /\ (forall f, f <> "sp_get_task_status" -> entries_of f t1 = O)
  /\ (forall r, In r (requests_of t1) -> r = status_request config sid tid).
Proof.
  rewrite sp_get_task_status_run.
  destruct (curl_easy_init n) as [[] n0].
  - destruct (curl_easy_perform _ n0) as [[code data|msg|code] n2];
      [| |discriminate]; intros [= <- <- <-]; repeat split.
    + intros f Hf. cbn [entries_of].
      destruct (String.eqb_spec "sp_get_task_status" f); congruence.
    + simpl. intros r [<-|[]]. reflexivity.
    + intros f Hf. cbn [entries_of].
      destruct (String.eqb_spec "sp_get_task_status" f); congruence.
    + simpl. intros r [<-|[]]. reflexivity.
  - intros [= <- <- <-]. repeat split.
    + intros f Hf. cbn [entries_of].
      destruct (String.eqb_spec "sp_get_task_status" f); congruence.
    + simpl. intros r [].
Qed.

(** Where the network delivers a body with every successful transfer. *)
Lemma delivers_init (good : Net -> Prop) (n n1 : Net) (ok : bool) :
  delivers_body good -> good n -> curl_easy_init n = (ok, n1) -> good n1.
Proof.
  intros Hd Hg E. destruct (Hd n Hg) as [H _]. now rewrite E in H.
Qed.

Lemma delivers_perform (good : Net -> Prop) (q : Request) (n n2 : Net)
    (res : CurlResult) :
  delivers_body good -> good n -> curl_easy_perform q n = (res, n2) ->
  good n2 /\ forall code, res <> CURLE_OK_nobody code.
Proof.
  intros Hd Hg E. destruct (Hd n Hg) as [_ H]. specialize (H q).
  now rewrite E in H.
Qed.

Lemma sp_get_task_status_defined (good : Net -> Prop) (config : SPConfig)
    (sid tid : string) (n : Net) :
  delivers_body good -> good n ->
  exists st n1 t1,
    sp_get_task_status config sid tid n = Ok (st, n1, t1) /\ good n1.
Proof.
  intros Hd Hg. rewrite sp_get_task_status_run.
  destruct (curl_easy_init n) as [[] n0] eqn:Ei;
    pose proof (delivers_init _ _ _ _ Hd Hg Ei) as Hg0; [|eauto 6].
  destruct (curl_easy_perform _ n0) as [res n2] eqn:Ep.
  destruct (delivers_perform _ _ _ _ _ Hd Hg0 Ep) as [Hg2 Hres].
  destruct res as [code data|msg|code]; [eauto 6 | eauto 6|].
  now destruct (Hres code).
Qed.

Lemma poll_once_run (config : SPConfig) (sid tid : string) (i : Z) (n : Net) :
  poll_once config sid tid i n =
    match sp_get_task_status config sid tid n with
    | Ok (Some st, n1, t1) =>
        if streq st "Success" then
          Ok (Some 1, n1,
              (t1 ++ [Stdout ("✓ Backup completed successfully" ++ nl)])%list)
        else if streq st "Failed" || streq st "Error" then
          Ok (Some 0, n1,
              (t1 ++ [Stderr ("✗ Backup failed with state: " ++ st ++ nl)])%list)
        else
          Ok (None, n1,
              (t1 ++
               if (streq st "Running" || streq st "Pending") && (i mod 6 =? 0)
               then [Stdout ("  Status: " ++ st
                             ++ "... (checking again in 5s)" ++ nl)]
               else [])%list)
    | Ok (None, n1, t1) => Ok (None, n1, t1)
    | Undefined u => Undefined u
    end.
Proof.
  unfold poll_once, bind.
  destruct (sp_get_task_status config sid tid n) as [[[[st|] n1] t1]|u];
    [| unfold ret; now rewrite app_nil_r | reflexivity].
  destruct (streq st "Success"); [reflexivity|].
  destruct (streq st "Failed" || streq st "Error"); [reflexivity|].
  destruct ((streq st "Running" || streq st "Pending") && (i mod 6 =? 0));
    reflexivity.
Qed.

Lemma poll_loop_step (config : SPConfig) (sid tid : string) (remaining : nat)
    (i : Z) (n : Net) :
  poll_loop config sid tid (S remaining) i n =
    match poll_once config sid tid i n with
    | Ok (Some v, n1, t1) => Ok (Some v, n1, t1)
    | Ok (None, n1, t1) =>
        match poll_loop config sid tid remaining (i + 1) n1 with
        | Ok (r, n2, t2) => Ok (r, n2, (t1 ++ Sleep 5 :: t2)%list)
        | Undefined u => Undefined u
        end
    | Undefined u => Undefined u
    end.
Proof.
  cbn [poll_loop]. unfold bind at 1.
  destruct (poll_once config sid tid i n) as [[[[v|] n1] t1]|u];
    [unfold ret; now rewrite app_nil_r | | reflexivity].
  unfold bind, emit.
  destruct (poll_loop config sid tid remaining (i + 1) n1) as [[[r n2] t2]|u];
    reflexivity.
Qed.

Lemma streq_true (a b : string) : streq a b = true <-> a = b.
Proof. apply String.eqb_eq. Qed.

Lemma streq_false (a b : string) : streq a b = false <-> a <> b.
Proof. apply String.eqb_neq. Qed.

(** A state is terminal when it is one of the three the loop returns on. *)
Lemma terminal_cases (st : string) :
  (st = "Success" /\ streq st "Success" = true)
  \/ ((st = "Failed" \/ st = "Error") /\ streq st "Success" = false
      /\ streq st "Failed" || streq st "Error" = true)
  \/ (st <> "Success" /\ st <> "Failed" /\ st <> "Error"
      /\ streq st "Success" = false
      /\ streq st "Failed" || streq st "Error" = false).
Proof.
  destruct (streq st "Success") eqn:E1.
  - left. split; [now apply streq_true | reflexivity].
  - right. apply streq_false in E1.
    destruct (streq st "Failed") eqn:E2.
    + left. apply streq_true in E2. auto.
    + destruct (streq st "Error") eqn:E3.
      * left. apply streq_true in E3. auto.
      * right. apply streq_false in E2, E3. auto.
Qed.

Lemma sp_wait_for_task_run (config : SPConfig) (sid tid : string)
    (max_minutes : Z) (n : Net) :
  INT_MIN <= max_minutes * 12 <= INT_MAX ->
  sp_wait_for_task config sid tid max_minutes n =
    match poll_loop config sid tid (Z.to_nat (max_minutes * 12)) 0 n with
    | Ok (Some v, n1, t1) =>
        Ok (v, n1,
            Enter "sp_wait_for_task"
            :: Stdout (nl ++ "Waiting for backup to complete (max "
                       ++ fmt_d max_minutes ++ " minutes)..." ++ nl)
            :: t1)
    | Ok (None, n1, t1) =>
        Ok (0, n1,
            Enter "sp_wait_for_task"
            :: Stdout (nl ++ "Waiting for backup to complete (max "
                       ++ fmt_d max_minutes ++ " minutes)..." ++ nl)
            :: (t1 ++ [Stderr ("✗ Timeout waiting for backup to complete"
                               ++ nl)])%list)
    | Undefined u => Undefined u
    end.
Proof.
  intros [Hlo Hhi]. unfold sp_wait_for_task.
  unfold bind at 1. unfold emit at 1.
  replace ((max_minutes * 12 <? INT_MIN) || (INT_MAX <? max_minutes * 12))
    with false
    by (symmetry; apply orb_false_iff; split; apply Z.ltb_ge; assumption).
  unfold bind, printf, eprintf, emit, ret.
  destruct (poll_loop config sid tid (Z.to_nat (max_minutes * 12)) 0 n)
    as [[[[v|] n1] t1]|u]; simpl; try reflexivity.
  now rewrite app_nil_r.
Qed.

(** C1: the loop of [sp_wait_for_task] decides on each observed task state:
    it returns 1 at once exactly for Success, returns 0 at once exactly for
    Failed and Error, and on every other string sleeps and goes on with the
    next attempt; [sp_wait_for_task] returns what its loop returned. *)
Theorem poll_state_decides (config : SPConfig) (sid tid st : string) (i : Z)
    (remaining : nat) (n n1 : Net) (t1 : list Event) :
  sp_get_task_status config sid tid n = Ok (Some st, n1, t1) ->
  (st = "Success" ->
   poll_loop config sid tid (S remaining) i n =
     Ok (Some 1, n1,
         (t1 ++ [Stdout ("✓ Backup completed successfully" ++ nl)])%list))
  /\ (st = "Failed" \/ st = "Error" ->
      poll_loop config sid tid (S remaining) i n =
        Ok (Some 0, n1,
            (t1 ++ [Stderr ("✗ Backup failed with state: " ++ st ++ nl)])%list))
  /\ (st <> "Success" -> st <> "Failed" -> st <> "Error" ->
      exists progress,
        forallb is_output progress = true /\
        poll_loop config sid tid (S remaining) i n =
          match poll_loop config sid tid remaining (i + 1) n1 with
          | Ok (r, n2, t2) =>
              Ok (r, n2, ((t1 ++ progress) ++ Sleep 5 :: t2)%list)
          | Undefined u => Undefined u
          end)
  /\ (forall r n' t',
        poll_once config sid tid i n = Ok (r, n', t') ->
        (r = Some 1 <-> st = "Success")
        /\ (r = Some 0 <-> st = "Failed" \/ st = "Error")
        /\ (r = None <-> st <> "Success" /\ st <> "Failed" /\ st <> "Error"))
  /\ (forall max_minutes v n0 n' t,
        INT_MIN <= max_minutes * 12 <= INT_MAX ->
        poll_loop config sid tid (Z.to_nat (max_minutes * 12)) 0 n0
          = Ok (Some v, n', t) ->
        exists t', sp_wait_for_task config sid tid max_minutes n0
                   = Ok (v, n', t')).
Proof.
  intros Hst.
  assert (Honce := poll_once_run config sid tid i n).
  rewrite Hst in Honce.
  pose proof (poll_loop_step config sid tid remaining i n) as Hstep.
  assert (Hwait : forall max_minutes v n0 n' t,
             INT_MIN <= max_minutes * 12 <= INT_MAX ->
             poll_loop config sid tid (Z.to_nat (max_minutes * 12)) 0 n0
               = Ok (Some v, n', t) ->
             exists t', sp_wait_for_task config sid tid max_minutes n0
                        = Ok (v, n', t')).
  { intros max_minutes v n0 n' t Hb Hl.
    rewrite sp_wait_for_task_run, Hl by assumption. eauto. }
  destruct (terminal_cases st)
    as [[Hs E1]|[[Hf [E1 E2]]|[Hs [Hf [He [E1 E2]]]]]];
    rewrite E1 in Honce; try rewrite E2 in Honce; rewrite Honce in Hstep;
    (split; [|split; [|split; [|split; [|exact Hwait]]]]).
  - intros _. exact Hstep.
  - intros [H|H]; congruence.
  - intros H; congruence.
  - intros r n' t' H. rewrite Honce in H. injection H as <- <- <-.
    split; [|split]; split; try discriminate; try congruence; auto.
    + intros [H|H]; congruence.
    + intros [H _]; congruence.
  - intros H. destruct Hf; congruence.
  - intros _. exact Hstep.
  - intros H1 H2 H3. destruct Hf; congruence.
  - intros r n' t' H. rewrite Honce in H. injection H as <- <- <-.
    split; [|split]; split; try discriminate; try congruence; auto.
    + intros H. destruct Hf; congruence.
    + intros [H1 [H2 H3]]. destruct Hf; congruence.
  - intros H; congruence.
  - intros [H|H]; congruence.
  - intros _ _ _. eexists. split; [|exact Hstep].
    destruct ((streq st "Running" || streq st "Pending") && (i mod 6 =? 0));
      reflexivity.
  - intros r n' t' H. rewrite Honce in H. injection H as <- <- <-.
    split; [|split]; split; try discriminate; try congruence; auto.
    intros [H|H]; congruence.
Qed.

(** What one iteration leaves behind. *)
Lemma poll_once_outcome (config : SPConfig) (sid tid : string) (i : Z)
    (n n1 : Net) (r : option Z) (t : list Event) :
  poll_once config sid tid i n = Ok (r, n1, t) ->
  entries_of "sp_get_task_status" t = 1%nat
  /\ (forall f, f <> "sp_get_task_status" -> entries_of f t = O)
  /\ (forall q, In q (requests_of t) -> q = status_request config sid tid)
  /\ (forall v, r = Some v ->
        exists st tk msg,
          sp_get_task_status config sid tid n = Ok (Some st, n1, tk)
          /\ t = (tk ++ [msg])%list
          /\ ((st = "Success" /\ v = 1)
              \/ ((st = "Failed" \/ st = "Error") /\ v = 0))).
Proof.
  rewrite poll_once_run.
  destruct (sp_get_task_status config sid tid n) as [[[st n0] t1]|u] eqn:Hst;
    [|discriminate].
  destruct (sp_get_task_status_outcome _ _ _ _ _ _ _ Hst)
    as (Hone & Hnone & Hreq).
  destruct st as [st|].
  2:{ intros [= <- <- <-]. repeat split; auto. discriminate. }
  destruct (terminal_cases st)
    as [[Hs E1]|[[Hf [E1 E2]]|[Hs [Hf [He [E1 E2]]]]]];
    rewrite E1; try rewrite E2; intros [= <- <- <-].
  - repeat split.
    + rewrite entries_of_app, Hone. reflexivity.
    + intros f Hf. rewrite entries_of_app, (Hnone f Hf). reflexivity.
    + intros q. rewrite requests_of_app, app_nil_r. apply Hreq.
    + intros v [= <-]. eexists st, t1, _. eauto.
  - repeat split.
    + rewrite entries_of_app, Hone. reflexivity.
    + intros f Hf'. rewrite entries_of_app, (Hnone f Hf'). reflexivity.
    + intros q. rewrite requests_of_app, app_nil_r. apply Hreq.
    + intros v [= <-]. eexists st, t1, _. eauto.
  - repeat split.
    + rewrite entries_of_app, Hone.
      destruct ((streq st "Running" || streq st "Pending") && (i mod 6 =? 0));
        reflexivity.
    + intros f Hf'. rewrite entries_of_app, (Hnone f Hf').
      destruct ((streq st "Running" || streq st "Pending") && (i mod 6 =? 0));
        reflexivity.
    + intros q. rewrite requests_of_app.
      destruct ((streq st "Running" || streq st "Pending") && (i mod 6 =? 0));
        simpl; rewrite app_nil_r; apply Hreq.
    + discriminate.
Qed.

Lemma poll_once_defined (good : Net -> Prop) (config : SPConfig)
    (sid tid : string) (i : Z) (n : Net) :
  delivers_body good -> good n ->
  exists r n1 t, poll_once config sid tid i n = Ok (r, n1, t) /\ good n1.
Proof.
  intros Hd Hg. rewrite poll_once_run.
  destruct (sp_get_task_status_defined good config sid tid n Hd Hg)
    as (st & n1 & t1 & -> & Hg1).
  destruct st as [st|]; [|eauto 6].
  destruct (streq st "Success"); [eauto 6|].
  destruct (streq st "Failed" || streq st "Error"); eauto 6.
Qed.

(** A loop that returns has made at most [remaining] status queries, all
    of them when it ran to its end, and has returned early only on a
    terminal state. *)
Lemma poll_loop_outcome (config : SPConfig) (sid tid : string)
    (remaining : nat) :
  forall (i : Z) (n n' : Net) (r : option Z) (t : list Event),
    poll_loop config sid tid remaining i n = Ok (r, n', t) ->
    (entries_of "sp_get_task_status" t <= remaining)%nat
    /\ (r = None -> entries_of "sp_get_task_status" t = remaining)
    /\ (forall f, f <> "sp_get_task_status" -> entries_of f t = O)
    /\ (forall q, In q (requests_of t) -> q = status_request config sid tid)
    /\ (forall v, r = Some v ->
          exists st nk tk pre msg,
            sp_get_task_status config sid tid nk = Ok (Some st, n', tk)
            /\ t = (pre ++ tk ++ [msg])%list
            /\ ((st = "Success" /\ v = 1)
                \/ ((st = "Failed" \/ st = "Error") /\ v = 0))).
Proof.
  induction remaining as [|remaining IH]; intros i n n' r t.
  - intros [= <- <- <-]. repeat split; auto; try discriminate.
    intros q [].
  - rewrite poll_loop_step.
    destruct (poll_once config sid tid i n) as [[[r1 n1] t1]|u] eqn:Honce;
      [|discriminate].
    destruct (poll_once_outcome _ _ _ _ _ _ _ _ Honce)
      as (Hone & Hnone & Hreq & Hterm).
    destruct r1 as [v|].
    + intros [= <- <- <-]. repeat split; auto.
      * rewrite Hone. lia.
      * discriminate.
      * intros v' [= <-].
        destruct (Hterm v eq_refl) as (st & tk & msg & H1 & H2 & H3).
        exists st, n, tk, [], msg. auto.
    + destruct (poll_loop config sid tid remaining (i + 1) n1)
        as [[[r2 n2] t2]|u] eqn:Hloop; [|discriminate].
      destruct (IH _ _ _ _ _ Hloop) as (Hle & Hall & Hnone2 & Hreq2 & Hterm2).
      intros [= <- <- <-]. repeat split.
      * rewrite entries_of_app, Hone. simpl. lia.
      * intros Hr. rewrite entries_of_app, Hone. simpl. now rewrite Hall.
      * intros f Hf. rewrite entries_of_app, (Hnone f Hf). simpl. auto.
      * intros q. rewrite requests_of_app. simpl. intros Hq.
        apply in_app_or in Hq. destruct Hq; auto.
      * intros v Hv.
        destruct (Hterm2 v Hv) as (st & nk & tk & pre & msg & H1 & H2 & H3).
        exists st, nk, tk, (t1 ++ Sleep 5 :: pre)%list, msg.
        repeat split; auto. rewrite H2, <- app_assoc. reflexivity.
Qed.

(** The loop always comes to an end where every successful transfer
    delivers a body. *)
Lemma poll_loop_defined (good : Net -> Prop) (config : SPConfig)
    (sid tid : string) (remaining : nat) :
  delivers_body good ->
  forall (i : Z) (n : Net),
    good n ->
    exists r n' t,
      poll_loop config sid tid remaining i n = Ok (r, n', t) /\ good n'.
Proof.
  intros Hd. induction remaining as [|remaining IH]; intros i n Hg.
  - exists None, n, []. split; [reflexivity | exact Hg].
  - rewrite poll_loop_step.
    destruct (poll_once_defined good config sid tid i n Hd Hg)
      as (r & n1 & t1 & -> & Hg1).
    destruct r as [v|]; [eauto 6|].
    destruct (IH (i + 1) n1 Hg1) as (r & n2 & t2 & -> & Hg2). eauto 6.
Qed.

Lemma sp_wait_for_task_defined (good : Net -> Prop) (config : SPConfig)
    (sid tid : string) (max_minutes : Z) (n : Net) :
  INT_MIN <= max_minutes * 12 <= INT_MAX ->
  delivers_body good -> good n ->
  exists r n' t,
    sp_wait_for_task config sid tid max_minutes n = Ok (r, n', t) /\ good n'.
Proof.
  intros Hb Hd Hg. rewrite sp_wait_for_task_run by assumption.
  destruct (poll_loop_defined good config sid tid
              (Z.to_nat (max_minutes * 12)) Hd 0 n Hg)
    as (r & n' & t & -> & Hg').
  destruct r as [v|]; eauto 6.
Qed.

(** C5: a status query that fails in transport yields no state, and an
    attempt without a state does not end the wait: the loop sleeps and makes
    the next attempt.  A loop that returns has ended after its last attempt
    or on a terminal state the server reported, and the loop does return
    on a network that delivers a body with every successful transfer. *)
Theorem poll_survives_transport_failure (config : SPConfig) (sid tid : string)
    (remaining : nat) (i : Z) (n : Net) :
  (forall n1 n2 msg,
      curl_easy_init n = (true, n1) ->
      curl_easy_perform (status_request config sid tid) n1
        = (CURLE_failed msg, n2) ->
      sp_get_task_status config sid tid n
        = Ok (None, n2, [Enter "sp_get_task_status";
                         Http (status_request config sid tid)]))
  /\ (forall n1 t1,
        sp_get_task_status config sid tid n = Ok (None, n1, t1) ->
        poll_loop config sid tid (S remaining) i n =
          match poll_loop config sid tid remaining (i + 1) n1 with
          | Ok (r, n2, t2) => Ok (r, n2, (t1 ++ Sleep 5 :: t2)%list)
          | Undefined u => Undefined u
          end)
  /\ (forall r n' t,
        poll_loop config sid tid remaining i n = Ok (r, n', t) ->
        (r = None
         /\ entries_of "sp_get_task_status" t = remaining)
        \/ (exists v st nk tk pre msg,
              r = Some v
              /\ sp_get_task_status config sid tid nk = Ok (Some st, n', tk)
              /\ t = (pre ++ tk ++ [msg])%list
              /\ ((st = "Success" /\ v = 1)
                  \/ ((st = "Failed" \/ st = "Error") /\ v = 0))))
  /\ (forall good : Net -> Prop,
        delivers_body good -> good n ->
        exists r n' t,
          poll_loop config sid tid remaining i n = Ok (r, n', t)).
Proof.
  split; [|split; [|split]].
  - intros n1 n2 msg Hinit Hperf.
    rewrite sp_get_task_status_run, Hinit, Hperf. reflexivity.
  - intros n1 t1 Hst.
    rewrite poll_loop_step, poll_once_run, Hst. reflexivity.
  - intros r n' t Hloop.
    destruct (poll_loop_outcome config sid tid remaining _ _ _ _ _ Hloop)
      as (_ & Hall & _ & _ & Hterm).
    destruct r as [v|].
    + right. destruct (Hterm v eq_refl) as (st & nk & tk & pre & msg & H).
      exists v, st, nk, tk, pre, msg. tauto.
    + left. auto.
  - intros good Hd Hg.
    destruct (poll_loop_defined good config sid tid remaining Hd i n Hg)
      as (r & n' & t & Hloop & _).
    eauto.
Qed.

(** C2 (as amended): the wait makes at most [max_minutes * 12] status
    queries, one per five seconds of the allowed time, a bound fixed before
    the loop starts.  When the loop runs to its end without a terminal state
    the wait makes exactly that many queries, reports the timeout on standard
    error and returns 0, never 1; 0 is also what it returns on a terminal
    failure.  The wait does return on a network that delivers a body with
    every successful transfer. *)
Theorem wait_bounded_then_timeout (config : SPConfig) (sid tid : string)
    (max_minutes : Z) (n : Net) :
  INT_MIN <= max_minutes * 12 <= INT_MAX ->
  max_minutes * 12 = (max_minutes * 60) / 5
  /\ (forall r n' t,
        sp_wait_for_task config sid tid max_minutes n = Ok (r, n', t) ->
        (entries_of "sp_get_task_status" t <= Z.to_nat (max_minutes * 12))%nat
        /\ (r = 0 \/ r = 1)
        /\ (forall n1 t1,
              poll_loop config sid tid (Z.to_nat (max_minutes * 12)) 0 n
                = Ok (None, n1, t1) ->
              r = 0
              /\ entries_of "sp_get_task_status" t
                 = Z.to_nat (max_minutes * 12)
              /\ exists t0,
                  t = (t0 ++ [Stderr ("✗ Timeout waiting for backup to complete"
                                      ++ nl)])%list))
  /\ (forall good : Net -> Prop,
        delivers_body good -> good n ->
        exists r n' t,
          sp_wait_for_task config sid tid max_minutes n = Ok (r, n', t)).
Proof.
  intros Hb. split; [|split].
  - replace (max_minutes * 60) with (max_minutes * 12 * 5) by lia.
    now rewrite Z.div_mul.
  - intros r n' t. rewrite sp_wait_for_task_run by assumption.
    destruct (poll_loop config sid tid (Z.to_nat (max_minutes * 12)) 0 n)
      as [[[r0 n0] t0]|u] eqn:Hloop; [|discriminate].
    destruct (poll_loop_outcome config sid tid _ _ _ _ _ _ Hloop)
      as (Hle & Hall & Hnone & _ & Hterm).
    destruct r0 as [v|]; intros [= <- <- <-].
    + split; [|split].
      * simpl. exact Hle.
      * destruct (Hterm v eq_refl) as (st & nk & tk & pre & msg & _ & _ & H).
        destruct H as [[_ ->]|[_ ->]]; auto.
      * discriminate.
    + split; [|split; [auto|]].
      * cbn [entries_of String.eqb]. simpl.
        rewrite entries_of_app. simpl. lia.
      * intros n1 t1 _. split; [reflexivity|]. split.
        -- cbn [entries_of]. simpl. rewrite entries_of_app. simpl.
           rewrite (Hall eq_refl). lia.
        -- eexists (_ :: _ :: t0). reflexivity.
  - intros good Hd Hg.
    destruct (sp_wait_for_task_defined good config sid tid max_minutes n
                Hb Hd Hg) as (r & n' & t & Hrun & _).
    eauto.
Qed.

Lemma no_enter_entries (f : string) (t : list Event) :
  forallb (fun e => negb (is_enter e)) t = true -> entries_of f t = O.
Proof.
  induction t as [|e t IH]; [reflexivity|].
  destruct e; simpl; intros H; try discriminate; auto.
Qed.

Lemma single_call_entries (g : string) (q : Request) (t : list Event) (f : string) :
  single_call g q t ->
  entries_of f t = if String.eqb g f then 1%nat else O.
Proof.
  intros (body & -> & Hbody & _). cbn [entries_of].
  rewrite (no_enter_entries f body Hbody). reflexivity.
Qed.

Lemma single_call_requests (g : string) (q : Request) (t : list Event) :
  single_call g q t -> forall r, In r (requests_of t) -> r = q.
Proof.
  intros (body & -> & _ & [H|H]) r; cbn [requests_of]; rewrite H.
  - intros [].
  - intros [<-|[]]. reflexivity.
Qed.

(** Taking a procedure apart along the answers of libcurl. *)
Ltac step_in H :=
  match type of H with
  | context [curl_easy_init ?n] =>
      let ok := fresh "ok" in
      destruct (curl_easy_init n) as [ok ?] eqn:?; destruct ok
  | context [curl_easy_perform ?r ?n] =>
      destruct (curl_easy_perform r n) as [[? ?|?|?] ?] eqn:?
  | context [password ?c] => destruct (password c) eqn:?
  | context [build_backup_payload ?a ?b ?c ?d] =>
      destruct (build_backup_payload a b c d) eqn:?
  | context [extract_json_value ?d ?k] =>
      destruct (extract_json_value d k) eqn:?
  | context [if ?c then _ else _] => destruct c eqn:?
  | context [match ?x with _ => _ end] => is_var x; destruct x
  end;
  cbv beta iota zeta delta [negb] in H.

Ltac run_in H :=
  unfold bind, when, printf, eprintf, ret, emit, easy_init, easy_perform,
    undefined, lift in H;
  cbv beta iota zeta in H;
  repeat step_in H;
  try discriminate H.

Ltac single_call_done :=
  eexists; split; [reflexivity|]; split; [reflexivity|];
  cbn [requests_of app]; solve [auto].

Lemma sp_sign_on_outcome (config : SPConfig) (pw : string)
    (sid0 : option string) (n n' : Net) r (t : list Event) :
  password config = Some pw ->
  sp_sign_on config sid0 n = Ok (r, n', t) ->
  single_call "sp_sign_on" (signon_request config pw) t.
Proof.
  intros Hpw H. unfold sp_sign_on in H. rewrite Hpw in H. run_in H;
    injection H as <- <- <-; single_call_done.
Qed.

Ltac step_goal :=
  match goal with
  | |- context [curl_easy_init ?n] =>
      let ok := fresh "ok" in
      destruct (curl_easy_init n) as [ok ?] eqn:?; destruct ok
  | |- context [curl_easy_perform ?r ?n] =>
      destruct (curl_easy_perform r n) as [[? ?|?|?] ?] eqn:?
  | |- context [build_backup_payload ?a ?b ?c ?d] =>
      destruct (build_backup_payload a b c d) eqn:?
  | |- context [extract_json_value ?d ?k] =>
      destruct (extract_json_value d k) eqn:?
  | |- context [if ?c then _ else _] => destruct c eqn:?
  | |- context [match ?x with _ => _ end] => is_var x; destruct x
  end;
  cbv beta iota zeta delta [negb].

Ltac run_goal :=
  unfold bind, when, printf, eprintf, ret, emit, easy_init, easy_perform,
    undefined, lift;
  cbv beta iota zeta;
  repeat step_goal.

Lemma code_2xx (code : Z) :
  (code =? 200) || (code =? 201) = true <-> code = 200 \/ code = 201.
Proof. rewrite orb_true_iff, !Z.eqb_eq. tauto. Qed.

(** What [sp_sign_on] returns, by the answer of libcurl. *)
Lemma sp_sign_on_answer (config : SPConfig) (pw : string) (n n1 n2 : Net)
    (code : Z) (data : string) :
  password config = Some pw ->
  curl_easy_init n = (true, n1) ->
  curl_easy_perform (signon_request config pw) n1 = (CURLE_OK code data, n2) ->
  exists t,
    sp_sign_on config None n
    = Ok (if (code =? 200) || (code =? 201)
          then (extract_json_value data "taskId",
                extract_json_value data "sessionId")
          else (None, None), n2, t).
Proof.
  intros Hpw Hi Hp. unfold sp_sign_on. rewrite Hpw.
  unfold bind, printf, eprintf, ret, emit, easy_init, easy_perform.
  rewrite Hi. cbv beta iota zeta delta [negb]. rewrite Hp.
  cbv beta iota zeta.
  destruct ((code =? 200) || (code =? 201)); cbv beta iota zeta;
    [|eexists; reflexivity].
  destruct (extract_json_value data "sessionId");
    destruct (extract_json_value data "taskId");
    eexists; reflexivity.
Qed.

Lemma sp_sign_on_failed (config : SPConfig) (pw : string) (n n1 n2 : Net)
    (msg : string) :
  password config = Some pw ->
  curl_easy_init n = (true, n1) ->
  curl_easy_perform (signon_request config pw) n1 = (CURLE_failed msg, n2) ->
  exists t, sp_sign_on config None n = Ok ((None, None), n2, t).
Proof.
  intros Hpw Hi Hp. unfold sp_sign_on. rewrite Hpw.
  unfold bind, printf, eprintf, ret, emit, easy_init, easy_perform.
  rewrite Hi. cbv beta iota zeta delta [negb]. rewrite Hp.
  eexists. reflexivity.
Qed.

Lemma sp_sign_on_no_handle (config : SPConfig) (n n1 : Net) :
  curl_easy_init n = (false, n1) ->
  sp_sign_on config None n = Ok ((None, None), n1, [Enter "sp_sign_on"]).
Proof.
  intros Hi. unfold sp_sign_on.
  unfold bind, ret, emit, easy_init. rewrite Hi. reflexivity.
Qed.

Lemma sp_sign_on_nobody (config : SPConfig) (pw : string) (n n1 n2 : Net)
    (code : Z) :
  password config = Some pw ->
  curl_easy_init n = (true, n1) ->
  curl_easy_perform (signon_request config pw) n1
    = (CURLE_OK_nobody code, n2) ->
  sp_sign_on config None n = Undefined UninitRead.
Proof.
  intros Hpw Hi Hp. unfold sp_sign_on. rewrite Hpw.
  unfold bind, printf, eprintf, ret, emit, easy_init, easy_perform, undefined.
  rewrite Hi. cbv beta iota zeta delta [negb]. rewrite Hp. reflexivity.
Qed.

Lemma sp_sign_on_defined (good : Net -> Prop) (config : SPConfig)
    (pw : string) (n : Net) :
  password config = Some pw ->
  delivers_body good -> good n ->
  exists r n' t, sp_sign_on config None n = Ok (r, n', t) /\ good n'.
Proof.
  intros Hpw Hd Hg.
  destruct (curl_easy_init n) as [[] n1] eqn:Ei;
    pose proof (delivers_init _ _ _ _ Hd Hg Ei) as Hg1.
  - destruct (curl_easy_perform (signon_request config pw) n1)
      as [res n2] eqn:Ep.
    destruct (delivers_perform _ _ _ _ _ Hd Hg1 Ep) as [Hg2 Hres].
    destruct res as [code data|msg|code].
    + destruct (sp_sign_on_answer _ _ _ _ _ _ _ Hpw Ei Ep) as [t Ht]. eauto 6.
    + destruct (sp_sign_on_failed _ _ _ _ _ _ Hpw Ei Ep) as [t Ht]. eauto 6.
    + now destruct (Hres code).
  - rewrite (sp_sign_on_no_handle config n n1 Ei). eauto 6.
Qed.

Lemma sp_start_backup_outcome (config : SPConfig) (sid path name : string)
    (fl : option FileList) (n n' : Net) r (t : list Event) :
  sp_start_backup config sid path name fl n = Ok (r, n', t) ->
  exists body,
    single_call "sp_start_backup" (backup_request config body) t
    /\ (requests_of t = []
        \/ build_backup_payload sid path name fl = Ok body).
Proof.
  intros H. unfold sp_start_backup in H. run_in H;
    injection H as <- <- <-;
    first [ exists EmptyString; split; [single_call_done|];
            left; reflexivity
          | eexists; split; [single_call_done|]; right; reflexivity ].
Qed.

(** What [sp_start_backup] returns, by the answer of libcurl. *)
Lemma sp_start_backup_answer (config : SPConfig)
    (sid path name body : string) (fl : option FileList) (n n1 n2 : Net)
    (code : Z) (data : string) :
  build_backup_payload sid path name fl = Ok body ->
  curl_easy_init n = (true, n1) ->
  curl_easy_perform (backup_request config body) n1
    = (CURLE_OK code data, n2) ->
  exists t,
    sp_start_backup config sid path name fl n
    = Ok (if (code =? 200) || (code =? 201) || (code =? 202)
          then extract_json_value data "taskId" else None, n2, t)
    /\ (forall v,
          (code =? 200) || (code =? 201) || (code =? 202) = true ->
          extract_json_value data "taskId" = Some v ->
          In (Stdout ("Backup task ID: " ++ v ++ nl)) t)
    /\ ((code =? 200) || (code =? 201) || (code =? 202) = false ->
        In (Stderr ("Response: " ++ data ++ nl)) t).
Proof.
  intros Hb Hi Hp. unfold sp_start_backup.
  unfold bind, printf, eprintf, ret, emit, easy_init, easy_perform, lift.
  rewrite Hi. cbv beta iota zeta delta [negb]. rewrite Hb.
  cbv beta iota zeta.
  destruct fl as [l|]; cbv beta iota zeta; rewrite Hp; cbv beta iota zeta;
    (destruct ((code =? 200) || (code =? 201) || (code =? 202));
     cbv beta iota zeta;
     [ destruct (extract_json_value data "taskId") as [v|];
       eexists; (split; [reflexivity|]); (split; [|discriminate]);
       intros v' _ E; try discriminate E; injection E as <-;
       cbn [In app]; tauto
     | eexists; (split; [reflexivity|]); (split; [discriminate|]);
       intros _; cbn [In app]; tauto ]).
Qed.

Lemma sp_start_backup_failed (config : SPConfig)
    (sid path name body : string) (fl : option FileList) (n n1 n2 : Net)
    (msg : string) :
  build_backup_payload sid path name fl = Ok body ->
  curl_easy_init n = (true, n1) ->
  curl_easy_perform (backup_request config body) n1
    = (CURLE_failed msg, n2) ->
  exists t, sp_start_backup config sid path name fl n = Ok (None, n2, t).
Proof.
  intros Hb Hi Hp. unfold sp_start_backup.
  unfold bind, printf, eprintf, ret, emit, easy_init, easy_perform, lift.
  rewrite Hi. cbv beta iota zeta delta [negb]. rewrite Hb.
  cbv beta iota zeta.
  destruct fl as [l|]; cbv beta iota zeta; rewrite Hp; eexists; reflexivity.
Qed.

Lemma sp_start_backup_nobody (config : SPConfig)
    (sid path name body : string) (fl : option FileList) (n n1 n2 : Net)
    (code : Z) :
  build_backup_payload sid path name fl = Ok body ->
  curl_easy_init n = (true, n1) ->
  curl_easy_perform (backup_request config body) n1
    = (CURLE_OK_nobody code, n2) ->
  sp_start_backup config sid path name fl n = Undefined UninitRead.
Proof.
  intros Hb Hi Hp. unfold sp_start_backup.
  unfold bind, printf, eprintf, ret, emit, easy_init, easy_perform, lift,
    undefined.
  rewrite Hi. cbv beta iota zeta delta [negb]. rewrite Hb.
  cbv beta iota zeta.
  destruct fl as [l|]; cbv beta iota zeta; rewrite Hp; reflexivity.
Qed.

Lemma sp_start_backup_no_handle (config : SPConfig)
    (sid path name : string) (fl : option FileList) (n n1 : Net) :
  curl_easy_init n = (false, n1) ->
  sp_start_backup config sid path name fl n
  = Ok (None, n1, [Enter "sp_start_backup"]).
Proof.
  intros Hi. unfold sp_start_backup.
  unfold bind, ret, emit, easy_init. rewrite Hi. reflexivity.
Qed.

Lemma sp_start_backup_defined (good : Net -> Prop) (config : SPConfig)
    (sid path name body : string) (fl : option FileList) (n : Net) :
  build_backup_payload sid path name fl = Ok body ->
  delivers_body good -> good n ->
  exists r n' t,
    sp_start_backup config sid path name fl n = Ok (r, n', t) /\ good n'.
Proof.
  intros Hb Hd Hg.
  destruct (curl_easy_init n) as [[] n1] eqn:Ei;
    pose proof (delivers_init _ _ _ _ Hd Hg Ei) as Hg1.
  - destruct (curl_easy_perform (backup_request config body) n1)
      as [res n2] eqn:Ep.
    destruct (delivers_perform _ _ _ _ _ Hd Hg1 Ep) as [Hg2 Hres].
    destruct res as [code data|msg|code].
    + destruct (sp_start_backup_answer _ _ _ _ _ _ _ _ _ _ _ Hb Ei Ep)
        as (t & Ht & _). eauto 6.
    + destruct (sp_start_backup_failed _ _ _ _ _ _ _ _ _ _ Hb Ei Ep)
        as [t Ht]. eauto 6.
    + now destruct (Hres code).
  - rewrite (sp_start_backup_no_handle config sid path name fl n n1 Ei).
    eauto 6.
Qed.

Lemma sp_get_task_data_outcome (config : SPConfig) (sid tid : string)
    (n n' : Net) (t : list Event) :
  sp_get_task_data config sid tid n = Ok (tt, n', t) ->
  single_call "sp_get_task_data" (data_request config sid tid) t.
Proof.
  intros H. unfold sp_get_task_data in H. run_in H;
    injection H as <- <-; single_call_done.
Qed.

Lemma sp_get_task_data_defined (good : Net -> Prop) (config : SPConfig)
    (sid tid : string) (n : Net) :
  delivers_body good -> good n ->
  exists n' t, sp_get_task_data config sid tid n = Ok (tt, n', t) /\ good n'.
Proof.
  intros Hd Hg. unfold sp_get_task_data.
  unfold bind, printf, ret, emit, easy_init, easy_perform, undefined.
  destruct (curl_easy_init n) as [[] n1] eqn:Ei;
    pose proof (delivers_init _ _ _ _ Hd Hg Ei) as Hg1;
    cbv beta iota zeta delta [negb]; [|eauto].
  destruct (curl_easy_perform (data_request config sid tid) n1)
    as [res n2] eqn:Ep.
  destruct (delivers_perform _ _ _ _ _ Hd Hg1 Ep) as [Hg2 Hres].
  destruct res as [code data|msg|code]; cbv beta iota zeta;
    [| eauto | now destruct (Hres code)].
  destruct (extract_json_value data "totalCompletedFiles");
    destruct (extract_json_value data "totalFiles");
    destruct (extract_json_value data "totalFailedFiles");
    destruct (extract_json_value data "totalBytes");
    cbv beta iota zeta; eauto.
Qed.

Lemma sp_sign_off_outcome (config : SPConfig) (sid : string) (n : Net) :
  exists n' t,
    sp_sign_off config sid n = Ok (tt, n', t)
    /\ single_call "sp_sign_off" (signoff_request config sid) t.
Proof.
  unfold sp_sign_off. run_goal;
    eexists _, _; (split; [reflexivity|]); single_call_done.
Qed.

Lemma sp_wait_for_task_outcome (config : SPConfig) (sid tid : string)
    (n n' : Net) (r : Z) (t : list Event) :
  sp_wait_for_task config sid tid 10 n = Ok (r, n', t) ->
  (r = 0 \/ r = 1)
  /\ (forall f, f <> "sp_wait_for_task" -> f <> "sp_get_task_status" ->
                entries_of f t = O)
  /\ (forall q, In q (requests_of t) -> q = status_request config sid tid).
Proof.
  rewrite sp_wait_for_task_run by (unfold INT_MIN, INT_MAX; lia).
  destruct (poll_loop config sid tid (Z.to_nat (10 * 12)) 0 n)
    as [[[r0 n0] t0]|u] eqn:Hloop; [|discriminate].
  destruct (poll_loop_outcome config sid tid _ _ _ _ _ _ Hloop)
    as (_ & _ & Hnone & Hreq & Hterm).
  destruct r0 as [v|]; intros [= <- <- <-]; (split; [|split]).
  - destruct (Hterm v eq_refl) as (st & nk & tk & pre & msg & _ & _ & H).
    destruct H as [[_ ->]|[_ ->]]; auto.
  - intros f H1 H2. cbn [entries_of].
    destruct (String.eqb_spec "sp_wait_for_task" f); [congruence|]. auto.
  - cbn [requests_of]. exact Hreq.
  - auto.
  - intros f H1 H2. cbn [entries_of].
    destruct (String.eqb_spec "sp_wait_for_task" f); [congruence|].
    rewrite entries_of_app, (Hnone f H2). reflexivity.
  - cbn [requests_of]. intros q. rewrite requests_of_app, app_nil_r.
    apply Hreq.
Qed.

(** Laws of the procedure monad. *)
Lemma bind_assoc {A B C} (m : M A) (f : A -> M B) (g : B -> M C) (n : Net) :
  bind (bind m f) g n = bind m (fun a => bind (f a) g) n.
Proof.
  unfold bind. destruct (m n) as [[[a n1] t1]|u]; [|reflexivity].
  destruct (f a n1) as [[[b n2] t2]|u]; [|reflexivity].
  destruct (g b n2) as [[[c n3] t3]|u]; [|reflexivity].
  now rewrite app_assoc.
Qed.

Lemma bind_ret_l {A B} (a : A) (f : A -> M B) (n : Net) :
  bind (ret a) f n = f a n.
Proof.
  unfold bind, ret. destruct (f a n) as [[[b n2] t2]|u]; reflexivity.
Qed.

Lemma bind_ext {A B} (m : M A) (f g : A -> M B) (n : Net) :
  (forall a n1, f a n1 = g a n1) -> bind m f n = bind m g n.
Proof.
  intros H. unfold bind. destruct (m n) as [[[a n1] t1]|u]; [|reflexivity].
  now rewrite H.
Qed.

(** [run_session] is its work followed by one [sp_sign_off], which hands
    the exit status through. *)
Lemma run_session_shape (env : Env) (config : SPConfig) (dir : string)
    (flist : FileList) (sid : string) (n : Net) :
  run_session env config dir flist sid n =
    bind (session_work env config dir flist sid)
      (fun code => bind (sp_sign_off config sid) (fun _ => ret code)) n.
Proof.
  unfold run_session, session_work. rewrite bind_assoc.
  apply bind_ext. intros [tid|] n1.
  - rewrite bind_assoc. apply bind_ext. intros success n2.
    rewrite bind_assoc. apply bind_ext. intros _ n3.
    now rewrite bind_ret_l.
  - rewrite bind_assoc. apply bind_ext. intros _ n2.
    now rewrite bind_ret_l.
Qed.

Lemma session_work_outcome (env : Env) (config : SPConfig) (dir : string)
    (flist : FileList) (sid : string) (n n0 : Net) (code : Z)
    (t0 : list Event) :
  session_work env config dir flist sid n = Ok (code, n0, t0) ->
  (code = 0 \/ code = 1)
  /\ entries_of "sp_sign_off" t0 = O
  /\ (forall q, In q (requests_of t0) ->
        (exists body,
            build_backup_payload sid dir
              (strftime_backup_name (localtime_now env)) (Some flist) = Ok body
            /\ q = backup_request config body)
        \/ (exists tid, q = status_request config sid tid)
        \/ (exists tid, q = data_request config sid tid)).
Proof.
  unfold session_work. intros H.
  apply bind_Ok_inv in H. destruct H as (r & n1 & t1 & t2 & Hsb & H & ->).
  destruct (sp_start_backup_outcome _ _ _ _ _ _ _ _ _ Hsb) as (b & Hcall & Hq).
  assert (Hreq1 : forall q', In q' (requests_of t1) ->
            exists body,
              build_backup_payload sid dir
                (strftime_backup_name (localtime_now env)) (Some flist) = Ok body
              /\ q' = backup_request config body).
  { intros q' Hin. destruct Hq as [E|Hb].
    - rewrite E in Hin. destruct Hin.
    - exists b. split; [exact Hb|].
      exact (single_call_requests _ _ _ Hcall q' Hin). }
  pose proof (single_call_entries _ _ _ "sp_sign_off" Hcall) as He1.
  cbn in He1.
  destruct r as [tid|].
  - apply bind_Ok_inv in H. destruct H as (success & n2 & t3 & t4 & Hw & H & ->).
    apply bind_Ok_inv in H. destruct H as ([] & n3 & t5 & t6 & Hd & H & ->).
    unfold ret in H. injection H as <- <- <-.
    destruct (sp_wait_for_task_outcome _ _ _ _ _ _ _ Hw)
      as (Hr & Hnone & Hreq).
    assert (Hdata : entries_of "sp_sign_off" t5 = O
                    /\ forall q', In q' (requests_of t5) ->
                                  q' = data_request config sid tid).
    { unfold when in Hd. destruct (negb (success =? 0)).
      - pose proof (sp_get_task_data_outcome _ _ _ _ _ _ Hd) as Hcall'.
        split; [exact (single_call_entries _ _ _ "sp_sign_off" Hcall')|].
        exact (single_call_requests _ _ _ Hcall').
      - unfold ret in Hd. injection Hd as <- <-. split; [reflexivity|].
        intros q' []. }
    destruct Hdata as [He5 Hreq5].
    split; [|split].
    + destruct Hr as [->| ->]; simpl; auto.
    + rewrite !entries_of_app, He1, He5, (Hnone "sp_sign_off") by discriminate.
      reflexivity.
    + intros q'. rewrite !requests_of_app, app_nil_r. intros Hin.
      apply in_app_or in Hin. destruct Hin as [Hin|Hin]; [left; auto|].
      apply in_app_or in Hin. destruct Hin as [Hin|Hin].
      * right. left. exists tid. auto.
      * right. right. exists tid. auto.
  - apply bind_Ok_inv in H. destruct H as ([] & n2 & t3 & t4 & He & H & ->).
    unfold eprintf, emit in He. injection He as <- <-.
    unfold ret in H. injection H as <- <- <-.
    split; [|split].
    + auto.
    + rewrite !entries_of_app, He1. reflexivity.
    + intros q'. rewrite !requests_of_app. cbn [requests_of app].
      rewrite app_nil_r. intros Hin. left. auto.
Qed.

Lemma session_work_defined (good : Net -> Prop) (env : Env)
    (config : SPConfig) (dir body : string) (flist : FileList) (sid : string)
    (n : Net) :
  build_backup_payload sid dir (strftime_backup_name (localtime_now env))
    (Some flist) = Ok body ->
  delivers_body good -> good n ->
  exists code n0 t0,
    session_work env config dir flist sid n = Ok (code, n0, t0) /\ good n0.
Proof.
  intros Hb Hd Hg. unfold session_work.
  destruct (sp_start_backup_defined good config sid dir _ body (Some flist) n
              Hb Hd Hg) as (r & n1 & t1 & Hsb & Hg1).
  destruct r as [tid|].
  - destruct (sp_wait_for_task_defined good config sid tid 10 n1
                ltac:(unfold INT_MIN, INT_MAX; lia) Hd Hg1)
      as (success & n2 & t2 & Hw & Hg2).
    assert (Hdata : exists n3 t3,
               when (negb (success =? 0)) (sp_get_task_data config sid tid) n2
               = Ok (tt, n3, t3) /\ good n3).
    { unfold when. destruct (negb (success =? 0)).
      - exact (sp_get_task_data_defined good config sid tid n2 Hd Hg2).
      - unfold ret. eauto. }
    destruct Hdata as (n3 & t3 & Hdata & Hg3).
    eexists _, _, _. split; [|exact Hg3]. eapply bind_Ok; [exact Hsb|].
    eapply bind_Ok; [exact Hw|]. eapply bind_Ok; [exact Hdata|]. reflexivity.
  - eexists _, _, _. split; [|exact Hg1]. eapply bind_Ok; [exact Hsb|].
    eapply bind_Ok; reflexivity.
Qed.

(** ** The run as a whole *)

Lemma scan_directory_run (env : Env) (n : Net) :
  scan_directory env (download_dir_of env) n
  = Ok ({| files := found_files env |}, n, scan_diagnostic env).
Proof.
  unfold scan_directory, found_files, scan_diagnostic.
  destruct (opendir env (download_dir_of env)); reflexivity.
Qed.

Lemma scan_diagnostic_output (env : Env) :
  forallb is_output (scan_diagnostic env) = true.
Proof.
  unfold scan_diagnostic. destruct (opendir env (download_dir_of env));
    reflexivity.
Qed.

(** The listing prints and nothing else, and it is defined exactly when
    every path holds a slash. *)
Lemma print_files_run (env : Env) (fs : list string) (n : Net) :
  if forallb has_slash fs then
    exists tl, print_files env fs n = Ok (tt, n, tl)
               /\ forallb is_output tl = true
  else print_files env fs n = Undefined NullPointer.
Proof.
  induction fs as [|f fs IH]; cbn [forallb print_files].
  - exists []. split; reflexivity.
  - unfold has_slash at 1. destruct (strrchr f "/") as [slash|];
      [|reflexivity].
    cbn [andb]. unfold bind, printf, emit.
    destruct (forallb has_slash fs).
    + destruct IH as (tl & -> & Htl). eexists. split; [reflexivity|].
      exact Htl.
    + now rewrite IH.
Qed.

Lemma count_zero (l : FileList) : (count l =? 0) = true <-> files l = [].
Proof.
  unfold count. rewrite Z.eqb_eq. destruct (files l); simpl; split;
    intros; try reflexivity; try discriminate; lia.
Qed.

Lemma bind_emit {B} (e : Event) (k : unit -> M B) (n : Net) :
  bind (emit e) k n =
    match k tt n with
    | Ok (b, n2, t2) => Ok (b, n2, e :: t2)
    | Undefined u => Undefined u
    end.
Proof. reflexivity. Qed.

(** A step that leaves the network as it is. *)
Lemma bind_pure {A B} (m : M A) (k : A -> M B) (n : Net) (a : A)
    (t : list Event) :
  m n = Ok (a, n, t) ->
  bind m k n =
    match k a n with
    | Ok (b, n2, t2) => Ok (b, n2, (t ++ t2)%list)
    | Undefined u => Undefined u
    end.
Proof. intros H. unfold bind. now rewrite H. Qed.

(** The four ways a run can go before it has a session. *)
Lemma main_cases (env : Env) (n : Net) :
  (getenv env "SP_PASSWORD" = None
   /\ exists t, main env n = Ok (1, n, t) /\ forallb is_output t = true)
  \/ (getenv env "SP_PASSWORD" <> None
      /\ found_files env = []
      /\ main env n
         = Ok (0, n, (start_trace env ++ scan_diagnostic env
                      ++ [no_files_warning env])%list))
  \/ (getenv env "SP_PASSWORD" <> None
      /\ found_files env <> []
      /\ forallb has_slash (found_files env) = false
      /\ main env n = Undefined NullPointer)
  \/ (reaches_sign_on env
      /\ exists pre,
           forallb is_output pre = true
           /\ main env n =
              match sp_sign_on (load_config env) None n with
              | Ok ((tid, None), n1, t1) =>
                  Ok (1, n1,
                      (pre ++ t1 ++ [Stderr ("Failed to sign on" ++ nl)])%list)
              | Ok ((tid, Some sid), n1, t1) =>
                  match run_session env (load_config env) (download_dir_of env)
                          {| files := found_files env |} sid n1 with
                  | Ok (code, n2, t2) => Ok (code, n2, (pre ++ t1 ++ t2)%list)
                  | Undefined u => Undefined u
                  end
              | Undefined u => Undefined u
              end).
Proof.
  remember (main env n) as R eqn:ER.
  unfold main in ER. cbn [load_config password] in ER.
  destruct (getenv env "SP_PASSWORD") as [pw|] eqn:Hpw.
  2:{ left. split; [reflexivity|]. subst R. eexists. split; reflexivity. }
  right. unfold printf, eprintf in ER.
  rewrite !bind_emit in ER.
  rewrite (bind_pure _ _ _ _ _ (scan_directory_run env n)) in ER.
  destruct (count {| files := found_files env |} =? 0) eqn:Hc.
  - left. apply count_zero in Hc. cbn [files] in Hc.
    split; [congruence|]. split; [exact Hc|].
    rewrite bind_emit in ER. unfold ret in ER. subst R.
    unfold no_files_warning, start_trace. reflexivity.
  - right.
    assert (Hne : found_files env <> []).
    { intros E. apply not_true_iff_false in Hc. apply Hc, count_zero. exact E. }
    rewrite bind_emit in ER. cbn [files] in ER.
    pose proof (print_files_run env (found_files env) n) as Hpf.
    destruct (forallb has_slash (found_files env)) eqn:Hs.
    + right. split; [repeat split; [congruence | exact Hne | exact Hs]|].
      destruct Hpf as (tl & Hpf & Htl).
      rewrite (bind_pure _ _ _ _ _ Hpf) in ER.
      rewrite !bind_emit in ER.
      eexists ([_; _; _; _] ++ scan_diagnostic env ++ [_] ++ tl ++ [_; _; _])%list.
      split; cycle 1.
      * subst R. unfold bind at 1.
        destruct (sp_sign_on (load_config env) None n)
          as [[[[tid [sid|]] n1] t1]|u]; cbn [snd]; cbv beta iota.
        -- destruct (run_session _ _ _ _ _ n1) as [[[code n2] t2]|u];
             [|reflexivity].
           f_equal. f_equal. rewrite <- !app_assoc. cbn [app]. reflexivity.
        -- rewrite bind_emit. unfold ret.
           f_equal. f_equal. rewrite <- !app_assoc. cbn [app]. reflexivity.
        -- reflexivity.
      * rewrite !forallb_app, Htl, scan_diagnostic_output. reflexivity.
    + left. split; [congruence|]. split; [exact Hne|]. split; [reflexivity|].
      subst R. unfold bind at 1. now rewrite Hpf.
Qed.

(** C8: when the scan finds no file the run warns on standard error and
    exits with status 0; it enters none of the procedures that talk to the
    server and sends no request. *)
Theorem no_files_exits_zero (env : Env) (n : Net) :
  getenv env "SP_PASSWORD" <> None ->
  found_files env = [] ->
  exists t,
    main env n = Ok (0, n, t)
    /\ In (no_files_warning env) t
    /\ requests_of t = []
    /\ (forall f, entries_of f t = O)
    /\ forallb is_output t = true.
Proof.
  intros Hpw Hnone.
  destruct (main_cases env n)
    as [[H _]|[(_ & _ & Hrun)|[(_ & H & _)|[(_ & H & _) _]]]];
    try contradiction.
  assert (Hout : forallb is_output
                   (start_trace env ++ scan_diagnostic env
                    ++ [no_files_warning env]) = true).
  { rewrite !forallb_app, scan_diagnostic_output. reflexivity. }
  eexists. split; [exact Hrun|]. split; [|split; [|split]].
  - apply in_or_app. right. apply in_or_app. right. left. reflexivity.
  - now apply outputs_no_requests.
  - intros f. now apply outputs_no_entries.
  - exact Hout.
Qed.

Lemma download_dir_with_directory (env : Env) (dir : option (list dirent)) :
  download_dir_of (with_directory env dir) = download_dir_of env.
Proof. reflexivity. Qed.

Lemma opendir_with_directory (env : Env) (dir : option (list dirent)) :
  opendir (with_directory env dir) (download_dir_of env) = dir.
Proof. cbn [opendir with_directory]. now rewrite String.eqb_refl. Qed.

(** C9: a directory that cannot be opened gives the same file list as an
    empty one, with count 0 and no error value.  The run then goes as with
    an empty directory: the warning, no request, exit status 0; the one
    difference is the line on standard error that names the directory. *)
Theorem unopenable_directory_as_empty (env : Env) (n : Net) :
  getenv env "SP_PASSWORD" <> None ->
  opendir env (download_dir_of env) = None ->
  let dir := download_dir_of env in
  let empty := with_directory env (Some []) in
  let cannot_open :=
    Stderr ("Error: Cannot open directory '" ++ dir ++ "'" ++ nl) in
  scan_directory env dir n = Ok ({| files := [] |}, n, [cannot_open])
  /\ scan_directory empty dir n = Ok ({| files := [] |}, n, [])
  /\ count {| files := [] |} = 0
  /\ main env n
     = Ok (0, n, (start_trace env ++ [cannot_open; no_files_warning env])%list)
  /\ main empty n
     = Ok (0, n, (start_trace env ++ [no_files_warning env])%list)
  /\ requests_of (start_trace env ++ [cannot_open; no_files_warning env]) = []
  /\ forall f,
       entries_of f (start_trace env ++ [cannot_open; no_files_warning env])
       = O.
Proof.
  intros Hpw Hdir dir empty cannot_open.
  assert (Hfound : found_files env = [])
    by (unfold found_files; now rewrite Hdir).
  assert (Hfound' : found_files empty = []).
  { unfold found_files, empty.
    rewrite download_dir_with_directory, opendir_with_directory. reflexivity. }
  assert (Hdiag : scan_diagnostic env = [cannot_open])
    by (unfold scan_diagnostic; now rewrite Hdir).
  assert (Hdiag' : scan_diagnostic empty = []).
  { unfold scan_diagnostic, empty.
    rewrite download_dir_with_directory, opendir_with_directory. reflexivity. }
  split; [|split; [|split; [|split; [|split; [|split]]]]].
  - unfold dir. rewrite scan_directory_run, Hfound, Hdiag. reflexivity.
  - unfold dir. rewrite <- (download_dir_with_directory env (Some [])).
    fold empty. rewrite scan_directory_run, Hfound', Hdiag'. reflexivity.
  - reflexivity.
  - destruct (main_cases env n)
      as [[H _]|[(_ & _ & Hrun)|[(_ & H & _)|[(_ & H & _) _]]]];
      try contradiction.
    rewrite Hrun, Hdiag. reflexivity.
  - destruct (main_cases empty n)
      as [[H _]|[(_ & _ & Hrun)|[(_ & H & _)|[(_ & H & _) _]]]];
      try contradiction.
    rewrite Hrun, Hdiag'. reflexivity.
  - reflexivity.
  - intros f. apply outputs_no_entries. reflexivity.
Qed.

Lemma reaches_sign_on_password (env : Env) :
  reaches_sign_on env -> exists pw, getenv env "SP_PASSWORD" = Some pw.
Proof.
  intros [H _]. destruct (getenv env "SP_PASSWORD") as [pw|]; [eauto|].
  contradiction.
Qed.

(** The run from the call of [sp_sign_on] on. *)
Lemma main_from_sign_on (env : Env) (n : Net) :
  reaches_sign_on env ->
  exists pre,
    forallb is_output pre = true
    /\ main env n =
       match sp_sign_on (load_config env) None n with
       | Ok ((tid, None), n1, t1) =>
           Ok (1, n1, (pre ++ t1 ++ [Stderr ("Failed to sign on" ++ nl)])%list)
       | Ok ((tid, Some sid), n1, t1) =>
           match run_session env (load_config env) (download_dir_of env)
                   {| files := found_files env |} sid n1 with
           | Ok (code, n2, t2) => Ok (code, n2, (pre ++ t1 ++ t2)%list)
           | Undefined u => Undefined u
           end
       | Undefined u => Undefined u
       end.
Proof.
  intros Hr. pose proof Hr as (Hpw & Hne & Hs).
  destruct (main_cases env n)
    as [[H _]|[(_ & H & _)|[(_ & _ & H & _)|[_ H]]]];
    [congruence | contradiction | congruence | exact H].
Qed.

(** C4 (as amended): sign-on reads the session id off the text of the
    body.  With status 200 or 201 and a body that holds the key [sessionId]
    between quotes and followed by a colon, and behind the first such place
    blanks and a quoted value, it yields exactly the bytes between the
    quotes, and the run goes on with that session.  With a body in which
    that text does not occur, whether or not it holds a task id, with any
    other status, on a transport failure and without a libcurl handle it
    yields none; the run then exits with status 1, does not sign off, and
    sends nothing after the sign-on request. *)
Theorem sign_on_session_id (env : Env) (n : Net) :
  reaches_sign_on env ->
  exists pw,
    getenv env "SP_PASSWORD" = Some pw
    /\ (forall n1 n2 code data,
          curl_easy_init n = (true, n1) ->
          curl_easy_perform (signon_request (load_config env) pw) n1
            = (CURLE_OK code data, n2) ->
          exists tid sid t,
            sp_sign_on (load_config env) None n = Ok ((tid, sid), n2, t)
            /\ (code = 200 \/ code = 201 ->
                (forall pre ws v post,
                    first_occurrence (quoted "sessionId" ++ ":") pre data ->
                    data = pre ++ (quoted "sessionId" ++ ":") ++ ws
                           ++ quoted v ++ post ->
                    all_chars is_json_space ws = true ->
                    all_chars (fun a => negb (is_dquote a)) v = true ->
                    sid = Some v)
                /\ (~ occurs (quoted "sessionId" ++ ":") data -> sid = None)
                /\ sid = extract_json_value data "sessionId"
                /\ tid = extract_json_value data "taskId")
            /\ (code <> 200 -> code <> 201 -> sid = None))
    /\ (forall n1 n2 msg,
          curl_easy_init n = (true, n1) ->
          curl_easy_perform (signon_request (load_config env) pw) n1
            = (CURLE_failed msg, n2) ->
          exists tid t,
            sp_sign_on (load_config env) None n = Ok ((tid, None), n2, t))
    /\ (forall n1,
          curl_easy_init n = (false, n1) ->
          exists tid t,
            sp_sign_on (load_config env) None n = Ok ((tid, None), n1, t))
    /\ (forall tid n' t,
          sp_sign_on (load_config env) None n = Ok ((tid, None), n', t) ->
          exists t',
            main env n = Ok (1, n', t')
            /\ entries_of "sp_sign_off" t' = O
            /\ requests_of t' = requests_of t)
    /\ (forall tid v n' t,
          sp_sign_on (load_config env) None n = Ok ((tid, Some v), n', t) ->
          exists pre,
            forallb is_output pre = true
            /\ main env n
               = match run_session env (load_config env) (download_dir_of env)
                         {| files := found_files env |} v n' with
                 | Ok (code, n2, t2) => Ok (code, n2, (pre ++ t ++ t2)%list)
                 | Undefined u => Undefined u
                 end).
Proof.
  intros Hr. destruct (reaches_sign_on_password env Hr) as [pw Hpw].
  assert (Hcfg : password (load_config env) = Some pw) by exact Hpw.
  assert (Hk : (String.length "sessionId" <= 252)%nat) by (simpl; lia).
  exists pw. split; [exact Hpw|].
  split; [|split; [|split; [|split]]].
  - intros n1 n2 code data Hi Hp.
    destruct (sp_sign_on_answer _ _ _ _ _ code data Hcfg Hi Hp) as [t Ht].
    destruct ((code =? 200) || (code =? 201)) eqn:Hc.
    + eexists _, _, t. split; [exact Ht|]. split.
      * intros _. split; [|split; [|split; reflexivity]].
        -- intros pre ws v post Hfirst E Hws Hv.
           exact (extract_quoted_value _ _ _ _ _ _ Hk Hfirst E Hws Hv).
        -- intros Hno. exact (extract_absent _ _ Hk Hno).
      * intros H0 H1. apply code_2xx in Hc. tauto.
    + eexists _, _, t. split; [exact Ht|]. split; [|reflexivity].
      intros Hc'. apply code_2xx in Hc'. congruence.
  - intros n1 n2 msg Hi Hp.
    destruct (sp_sign_on_failed _ _ _ _ _ msg Hcfg Hi Hp) as [t Ht]. eauto.
  - intros n1 Hi. rewrite (sp_sign_on_no_handle _ _ _ Hi). eauto.
  - intros tid n' t Hso.
    destruct (main_from_sign_on env n Hr) as (pre & Hpre & Hmain).
    rewrite Hso in Hmain. eexists. split; [exact Hmain|].
    pose proof (sp_sign_on_outcome _ _ _ _ _ _ _ Hcfg Hso) as Hcall.
    split.
    + rewrite !entries_of_app, (outputs_no_entries _ _ Hpre),
        (single_call_entries _ _ _ "sp_sign_off" Hcall).
      reflexivity.
    + rewrite !requests_of_app, (outputs_no_requests _ Hpre).
      cbn [requests_of app]. now rewrite app_nil_r.
  - intros tid v n' t Hso.
    destruct (main_from_sign_on env n Hr) as (pre & Hpre & Hmain).
    rewrite Hso in Hmain. exists pre. split; [exact Hpre | exact Hmain].
Qed.

(** X22: in a run that has a session id and returns, [sp_sign_off] is
    entered exactly once, as the last procedure, whether job submission
    fails or the wait ends in success, failure or timeout.  The exit status
    is the one fixed by the work before it, and [sp_sign_off] itself always
    returns.  Such a run does return when the payload fits its block and
    the network delivers a body with every successful transfer. *)
Theorem sign_off_exactly_once (env : Env) (n n1 : Net) (tid : option string)
    (sid : string) (t1 : list Event) :
  reaches_sign_on env ->
  sp_sign_on (load_config env) None n = Ok ((tid, Some sid), n1, t1) ->
  let config := load_config env in
  let dir := download_dir_of env in
  let flist := {| files := found_files env |} in
  (forall code n' t,
      main env n = Ok (code, n', t) ->
      entries_of "sp_sign_off" t = 1%nat
      /\ exists pre n0 t0 toff,
           session_work env config dir flist sid n1 = Ok (code, n0, t0)
           /\ sp_sign_off config sid n0 = Ok (tt, n', toff)
           /\ t = (pre ++ t1 ++ t0 ++ toff)%list
           /\ entries_of "sp_sign_off" (pre ++ t1 ++ t0) = O
           /\ (code = 0 \/ code = 1))
  /\ (forall n0, exists n' toff,
        sp_sign_off config sid n0 = Ok (tt, n', toff)
        /\ entries_of "sp_sign_off" toff = 1%nat)
  /\ (forall (good : Net -> Prop) body,
        build_backup_payload sid dir (strftime_backup_name (localtime_now env))
          (Some flist) = Ok body ->
        delivers_body good -> good n1 ->
        exists code n' t, main env n = Ok (code, n', t)).
Proof.
  intros Hr Hso config dir flist.
  destruct (reaches_sign_on_password env Hr) as [pw Hpw].
  assert (Hcfg : password config = Some pw) by exact Hpw.
  destruct (main_from_sign_on env n Hr) as (pre & Hpre & Hmain).
  rewrite Hso in Hmain. fold config dir flist in Hmain.
  rewrite run_session_shape in Hmain.
  pose proof (sp_sign_on_outcome _ _ _ _ _ _ _ Hcfg Hso) as Hcall.
  split; [|split].
  - intros code n' t Hrun. rewrite Hrun in Hmain.
    destruct (bind _ _ n1) as [[[code' n2] t2]|u] eqn:Hb; [|discriminate].
    injection Hmain as <- <- ->.
    apply bind_Ok_inv in Hb.
    destruct Hb as (c & n0 & t0 & t3 & Hwork & Hb & ->).
    apply bind_Ok_inv in Hb.
    destruct Hb as ([] & n3 & toff & t4 & Hoff & Hret & ->).
    unfold ret in Hret. injection Hret as <- <- <-.
    destruct (session_work_outcome _ _ _ _ _ _ _ _ _ Hwork) as (Hcode & Hnone & _).
    destruct (sp_sign_off_outcome config sid n0) as (n3' & toff' & Hoff' & Hc').
    rewrite Hoff in Hoff'. injection Hoff' as <- <-.
    assert (Hbefore : entries_of "sp_sign_off" (pre ++ t1 ++ t0) = O).
    { rewrite !entries_of_app, (outputs_no_entries _ _ Hpre),
        (single_call_entries _ _ _ "sp_sign_off" Hcall), Hnone.
      reflexivity. }
    split.
    + rewrite app_nil_r.
      replace (pre ++ t1 ++ t0 ++ toff)%list
        with ((pre ++ t1 ++ t0) ++ toff)%list
        by (now rewrite <- !app_assoc).
      rewrite entries_of_app, Hbefore,
        (single_call_entries _ _ _ "sp_sign_off" Hc').
      reflexivity.
    + exists pre, n0, t0, toff. rewrite app_nil_r. auto.
  - intros n0.
    destruct (sp_sign_off_outcome config sid n0) as (n' & toff & Hoff & Hc).
    exists n', toff. split; [exact Hoff|].
    rewrite (single_call_entries _ _ _ "sp_sign_off" Hc). reflexivity.
  - intros good body Hbody Hd Hg.
    destruct (session_work_defined good env config dir body flist sid n1
                Hbody Hd Hg) as (code & n0 & t0 & Hwork & _).
    destruct (sp_sign_off_outcome config sid n0) as (n' & toff & Hoff & _).
    assert (Hb : bind (session_work env config dir flist sid)
                   (fun code => bind (sp_sign_off config sid)
                                  (fun _ => ret code)) n1
                 = Ok (code, n', (t0 ++ toff ++ [])%list)).
    { eapply bind_Ok; [exact Hwork|].
      eapply bind_Ok; [exact Hoff | reflexivity]. }
    rewrite Hb in Hmain. eauto.
Qed.

(** The configured backup directory is loaded and never read again. *)
Lemma bind_ext2 {A B} (m m' : M A) (f g : A -> M B) (n : Net) :
  m n = m' n -> (forall a n1, f a n1 = g a n1) -> bind m f n = bind m' g n.
Proof.
  intros Hm H. unfold bind. rewrite Hm.
  destruct (m' n) as [[[a n1] t1]|u]; [|reflexivity]. now rewrite H.
Qed.

Lemma print_files_ignores_backup_dir (env : Env) (v : option string)
    (fs : list string) (n : Net) :
  print_files (with_backup_dir env v) fs n = print_files env fs n.
Proof.
  revert n. induction fs as [|f fs IH]; intros n; [reflexivity|].
  cbn [print_files]. destruct (strrchr f "/"); [|reflexivity].
  apply bind_ext2; [reflexivity|]. intros _ n1. apply IH.
Qed.

Lemma main_ignores_backup_dir (env : Env) (value : option string) (n : Net) :
  main (with_backup_dir env value) n = main env n.
Proof.
  unfold main.
  change (password (load_config (with_backup_dir env value)))
    with (password (load_config env)).
  change (download_dir_of (with_backup_dir env value))
    with (download_dir_of env).
  destruct (password (load_config env)); [|reflexivity].
  do 4 (apply bind_ext; intros _ ?).
  apply bind_ext2; [reflexivity|]. intros flist ?.
  destruct (count flist =? 0); [reflexivity|].
  apply bind_ext. intros _ ?.
  apply bind_ext2; [apply print_files_ignores_backup_dir|]. intros _ ?.
  do 3 (apply bind_ext; intros _ ?).
  apply bind_ext2; [reflexivity|]. intros r ?.
  destruct (snd r); reflexivity.
Qed.

(** C10: the job request carries the directory named on the command line
    (or [downloads]) as its backup path, and the variable [SP_BACKUP_DIR]
    changes nothing in the run.  Every request of a run is one of the five
    the procedures set up, and the body of a job request starts with the
    session id, the backup name, the backup type and, as [backupPath], that
    directory between quotes. *)
Theorem backup_path_is_scan_directory (env : Env) (n : Net) :
  (forall value, main (with_backup_dir env value) n = main env n)
  /\ download_dir_of env
     = match args env with
       | d :: _ => d
       | [] => "downloads"
       end
  /\ (forall code n' t q,
        main env n = Ok (code, n', t) ->
        In q (requests_of t) ->
        let config := load_config env in
        (exists pw, q = signon_request config pw)
        \/ (exists sid rest,
              q = backup_request config
                    ("{" ++ quoted "sessionId" ++ ":" ++ quoted sid ++ ","
                     ++ quoted "backupName" ++ ":"
                     ++ quoted (strftime_backup_name (localtime_now env))
                     ++ "," ++ quoted "backupType" ++ ":"
                     ++ quoted "ceph_downloads" ++ ","
                     ++ quoted "backupPath" ++ ":"
                     ++ quoted (match args env with
                                | d :: _ => d
                                | [] => "downloads"
                                end)
                     ++ rest))
        \/ (exists sid tid, q = status_request config sid tid)
        \/ (exists sid tid, q = data_request config sid tid)
        \/ (exists sid, q = signoff_request config sid)).
Proof.
  split; [|split].
  - intros value. apply main_ignores_backup_dir.
  - reflexivity.
  - intros code n' t q Hrun Hin config.
    destruct (main_cases env n)
      as [(_ & t0 & H & Hout)|[(_ & _ & H)|[(_ & _ & _ & H)|[Hr H]]]].
    + rewrite Hrun in H. injection H as -> -> ->.
      rewrite (outputs_no_requests _ Hout) in Hin. destruct Hin.
    + assert (Hq : requests_of (start_trace env ++ scan_diagnostic env
                                ++ [no_files_warning env]) = []).
      { apply outputs_no_requests.
        rewrite !forallb_app, scan_diagnostic_output. reflexivity. }
      rewrite Hrun in H.
      assert (Ht : t = (start_trace env ++ scan_diagnostic env
                        ++ [no_files_warning env])%list) by congruence.
      rewrite Ht, Hq in Hin. destruct Hin.
    + congruence.
    + destruct H as (pre & Hpre & Hmain). rewrite Hrun in Hmain.
      destruct (reaches_sign_on_password env Hr) as [pw Hpw].
      assert (Hcfg : password config = Some pw) by exact Hpw.
      destruct (sp_sign_on (load_config env) None n)
        as [[[[tid sid] n1] t1]|u] eqn:Hso; [|discriminate].
      pose proof (sp_sign_on_outcome _ _ _ _ _ _ _ Hcfg Hso) as Hcall.
      assert (Hfirst : forall q', In q' (requests_of (pre ++ t1)) ->
                                  q' = signon_request config pw).
      { intros q'. rewrite requests_of_app, (outputs_no_requests _ Hpre).
        apply (single_call_requests _ _ _ Hcall). }
      destruct sid as [sid|].
      * fold config in Hmain. rewrite run_session_shape in Hmain.
        destruct (bind _ _ n1) as [[[code' n2] t2]|u] eqn:Hb; [|discriminate].
        injection Hmain as -> -> ->.
        apply bind_Ok_inv in Hb.
        destruct Hb as (c & n0 & t0 & t3 & Hwork & Hb & ->).
        apply bind_Ok_inv in Hb.
        destruct Hb as ([] & n3 & toff & t4 & Hoff & Hret & ->).
        unfold ret in Hret. injection Hret as <- <- <-.
        destruct (session_work_outcome _ _ _ _ _ _ _ _ _ Hwork)
          as (_ & _ & Hreq).
        destruct (sp_sign_off_outcome config sid n0)
          as (n3' & toff' & Hoff' & Hc').
        rewrite Hoff in Hoff'. injection Hoff' as <- <-.
        rewrite app_assoc, requests_of_app in Hin.
        apply in_app_or in Hin. destruct Hin as [Hin|Hin];
          [left; exists pw; auto|].
        rewrite !requests_of_app, app_nil_r in Hin.
        apply in_app_or in Hin. destruct Hin as [Hin|Hin].
        -- destruct (Hreq q Hin) as [(body & Hbody & ->)|[[tk ->]|[tk ->]]].
           ++ right. left.
              assert (Hcount : 0 < count {| files := found_files env |}).
              { destruct Hr as (_ & Hne & _). unfold count. cbn [files].
                destruct (found_files env); [contradiction | simpl; lia]. }
              destruct (payload_has_head _ _ _ _ _ Hcount Hbody) as [rest ->].
              exists sid, rest. unfold payload_head.
              rewrite !app_assoc_s. reflexivity.
           ++ right. right. left. eauto.
           ++ right. right. right. left. eauto.
        -- right. right. right. right. exists sid.
           exact (single_call_requests _ _ _ Hc' q Hin).
      * injection Hmain as -> -> ->.
        rewrite app_assoc, requests_of_app in Hin.
        apply in_app_or in Hin. destruct Hin as [Hin|Hin].
        -- left. exists pw. auto.
        -- destruct Hin.
Qed.

(** ** Further properties of the run *)

(** X13: without the password the run prints the usage on standard error
    and exits with status 1 at once: no procedure is entered, no request
    sent, and the download directory is not even looked at. *)
Theorem credential_missing_exits_one (env : Env) (n : Net) :
  getenv env "SP_PASSWORD" = None ->
  exists t,
    main env n = Ok (1, n, t)
    /\ forallb is_stderr t = true
    /\ In (Stderr ("Error: SP_PASSWORD environment variable not set" ++ nl)) t
    /\ requests_of t = []
    /\ (forall f, entries_of f t = O)
    /\ (forall dir, main (with_directory env dir) n = main env n).
Proof.
  intros Hpw.
  assert (Hrun : forall e : Env,
             getenv e "SP_PASSWORD" = None -> argv0 e = argv0 env ->
             main e n = main env n).
  { intros e He Ha. unfold main. cbn [load_config password].
    rewrite He, Hpw. unfold usage. now rewrite Ha. }
  eexists. split; [|split; [|split; [|split; [|split]]]].
  - unfold main. cbn [load_config password]. rewrite Hpw.
    unfold usage, bind, eprintf, emit, ret. reflexivity.
  - reflexivity.
  - left. reflexivity.
  - reflexivity.
  - intros f. reflexivity.
  - intros dir. apply Hrun; [exact Hpw | reflexivity].
Qed.

(** The loop returns 1 only on a Success answer, which it reports. *)
Lemma poll_loop_success (config : SPConfig) (sid tid : string)
    (remaining : nat) :
  forall (i : Z) (n n' : Net) (v : Z) (t : list Event),
    poll_loop config sid tid remaining i n = Ok (Some v, n', t) ->
    v <> 0 ->
    In success_line t
    /\ exists nk tk,
         sp_get_task_status config sid tid nk = Ok (Some "Success", n', tk).
Proof.
  induction remaining as [|remaining IH]; intros i n n' v t Hloop Hv.
  - discriminate Hloop.
  - rewrite poll_loop_step, poll_once_run in Hloop.
    destruct (sp_get_task_status config sid tid n)
      as [[[[st|] n1] t1]|u] eqn:Hst; [| |discriminate].
    + destruct (streq st "Success") eqn:E1.
      * injection Hloop as <- <- <-. apply streq_true in E1. subst st.
        split; [apply in_or_app; right; left; reflexivity | eauto].
      * destruct (streq st "Failed" || streq st "Error").
        -- injection Hloop as <- <- <-. congruence.
        -- destruct (poll_loop config sid tid remaining (i + 1) n1)
             as [[[r n2] t2]|u] eqn:Hrest; [|discriminate].
           injection Hloop as -> <- <-.
           destruct (IH _ _ _ _ _ Hrest Hv) as [Hin Hq].
           split; [|exact Hq].
           apply in_or_app. right. right. exact Hin.
    + destruct (poll_loop config sid tid remaining (i + 1) n1)
        as [[[r n2] t2]|u] eqn:Hrest; [|discriminate].
      injection Hloop as -> <- <-.
      destruct (IH _ _ _ _ _ Hrest Hv) as [Hin Hq].
      split; [|exact Hq].
      apply in_or_app. right. right. exact Hin.
Qed.

Lemma wait_success (config : SPConfig) (sid tid : string) (n n' : Net)
    (r : Z) (t : list Event) :
  sp_wait_for_task config sid tid 10 n = Ok (r, n', t) ->
  r <> 0 ->
  In success_line t
  /\ exists nk tk,
       sp_get_task_status config sid tid nk = Ok (Some "Success", n', tk).
Proof.
  rewrite sp_wait_for_task_run by (unfold INT_MIN, INT_MAX; lia).
  destruct (poll_loop config sid tid (Z.to_nat (10 * 12)) 0 n)
    as [[[[v|] n1] t1]|u] eqn:Hloop; [| |discriminate].
  - intros [= <- <- <-] Hr.
    destruct (poll_loop_success _ _ _ _ _ _ _ _ _ Hloop Hr) as [Hin Hq].
    split; [right; right; exact Hin | exact Hq].
  - intros [= <- <- <-] Hr. congruence.
Qed.

(** What the work of a session reports. *)
Lemma session_work_report (env : Env) (config : SPConfig) (dir : string)
    (flist : FileList) (sid : string) (n n0 : Net) (code : Z)
    (t0 : list Event) :
  session_work env config dir flist sid n = Ok (code, n0, t0) ->
  entries_of "sp_get_task_data" t0 = (if code =? 0 then 1%nat else O)
  /\ (code = 0 ->
      In success_line t0
      /\ exists tid nk n2 tk,
           sp_get_task_status config sid tid nk = Ok (Some "Success", n2, tk)).
Proof.
  unfold session_work. intros H.
  apply bind_Ok_inv in H. destruct H as (r & n1 & t1 & t2 & Hsb & H & ->).
  destruct (sp_start_backup_outcome _ _ _ _ _ _ _ _ _ Hsb) as (b & Hcall & _).
  pose proof (single_call_entries _ _ _ "sp_get_task_data" Hcall) as He1.
  cbn in He1.
  destruct r as [tid|].
  - apply bind_Ok_inv in H. destruct H as (success & n2 & t3 & t4 & Hw & H & ->).
    apply bind_Ok_inv in H. destruct H as ([] & n3 & t5 & t6 & Hd & H & ->).
    unfold ret in H. injection H as <- <- <-.
    destruct (sp_wait_for_task_outcome _ _ _ _ _ _ _ Hw)
      as (Hr & Hnone & _).
    rewrite !entries_of_app, He1, (Hnone "sp_get_task_data") by discriminate.
    unfold when in Hd. destruct Hr as [-> | ->].
    + change (negb (0 =? 0)) with false in Hd. cbv iota in Hd.
      change (0 =? 0) with true. cbv iota.
      unfold ret in Hd. injection Hd as <- <-. split; [reflexivity|].
      discriminate.
    + change (negb (1 =? 0)) with true in Hd. cbv iota in Hd.
      change (1 =? 0) with false. cbv iota.
      pose proof (sp_get_task_data_outcome _ _ _ _ _ _ Hd) as Hcall'.
      rewrite (single_call_entries _ _ _ "sp_get_task_data" Hcall').
      split; [reflexivity|]. intros _.
      destruct (wait_success _ _ _ _ _ _ _ Hw ltac:(discriminate))
        as [Hin (nk & tk & Hq)].
      split; [|eauto].
      apply in_or_app. right. apply in_or_app. left. exact Hin.
  - apply bind_Ok_inv in H. destruct H as ([] & n2 & t3 & t4 & He & H & ->).
    unfold eprintf, emit in He. injection He as <- <-.
    unfold ret in H. injection H as <- <- <-.
    rewrite !entries_of_app, He1. split; [reflexivity | discriminate].
Qed.

(** How a run that returns went. *)
Lemma main_outcome (env : Env) (n n' : Net) (code : Z) (t : list Event) :
  main env n = Ok (code, n', t) ->
  (forallb is_output t = true
   /\ (getenv env "SP_PASSWORD" = None /\ code = 1
       \/ found_files env = [] /\ code = 0))
  \/ (reaches_sign_on env
      /\ exists pre tid sid n1 t1,
           forallb is_output pre = true
           /\ sp_sign_on (load_config env) None n = Ok ((tid, sid), n1, t1)
           /\ match sid with
              | None =>
                  code = 1 /\ n' = n1
                  /\ t = (pre ++ t1 ++ [Stderr ("Failed to sign on" ++ nl)])%list
              | Some s =>
                  exists n0 t0 toff,
                    session_work env (load_config env) (download_dir_of env)
                      {| files := found_files env |} s n1 = Ok (code, n0, t0)
                    /\ sp_sign_off (load_config env) s n0 = Ok (tt, n', toff)
                    /\ t = (pre ++ t1 ++ t0 ++ toff)%list
              end).
Proof.
  intros Hrun.
  destruct (main_cases env n)
    as [(Hpw & t0 & H & Hout)|[(_ & Hnone & H)|[(_ & _ & _ & H)|[Hr H]]]].
  - left. rewrite Hrun in H. injection H as -> -> ->. auto.
  - left. rewrite Hrun in H.
    assert (Hc : code = 0) by congruence.
    assert (Ht : t = (start_trace env ++ scan_diagnostic env
                      ++ [no_files_warning env])%list) by congruence.
    split; [|auto]. rewrite Ht, !forallb_app, scan_diagnostic_output.
    reflexivity.
  - congruence.
  - right. split; [exact Hr|].
    destruct H as (pre & Hpre & Hmain). rewrite Hrun in Hmain.
    destruct (sp_sign_on (load_config env) None n)
      as [[[[tid sid] n1] t1]|u] eqn:Hso; [|discriminate].
    exists pre, tid, sid, n1, t1. split; [exact Hpre|]. split; [reflexivity|].
    destruct sid as [s|].
    + rewrite run_session_shape in Hmain.
      destruct (bind _ _ n1) as [[[code' n2] t2]|u] eqn:Hb; [|discriminate].
      injection Hmain as -> -> ->.
      apply bind_Ok_inv in Hb.
      destruct Hb as (c & n0 & t0 & t3 & Hwork & Hb & ->).
      apply bind_Ok_inv in Hb.
      destruct Hb as ([] & n3 & toff & t4 & Hoff & Hret & ->).
      unfold ret in Hret. injection Hret as <- <- <-.
      exists n0, t0, toff. rewrite app_nil_r. auto.
    + injection Hmain as -> -> ->. auto.
Qed.

(** X14: the exit status is 0 or 1, and it is 0 only when the scan found
    nothing or the run printed the line that reports the completed backup
    on standard output. *)
Theorem exit_zero_means_success (env : Env) (n n' : Net) (code : Z)
    (t : list Event) :
  main env n = Ok (code, n', t) ->
  (code = 0 \/ code = 1)
  /\ (code = 0 -> found_files env = [] \/ In success_line t).
Proof.
  intros Hrun.
  destruct (main_outcome env n n' code t Hrun)
    as [[_ [[_ ->]|[Hnone ->]]]
       |(Hr & pre & tid & sid & n1 & t1 & Hpre & Hso & H)].
  - split; [auto | discriminate].
  - split; auto.
  - destruct sid as [s|].
    + destruct H as (n0 & t0 & toff & Hwork & Hoff & ->).
      destruct (session_work_outcome _ _ _ _ _ _ _ _ _ Hwork) as (Hcode & _).
      split; [exact Hcode|]. intros Hz. right.
      destruct (proj2 (session_work_report _ _ _ _ _ _ _ _ _ Hwork) Hz)
        as [Hin _].
      apply in_or_app. right. apply in_or_app. right.
      apply in_or_app. left. exact Hin.
    + destruct H as (-> & _ & _). split; [auto | discriminate].
Qed.

(** X15: the result reporter [sp_get_task_data] is entered exactly once in
    a run that found files and exits with status 0, and in no other run. *)
Theorem reporter_once_on_success (env : Env) (n n' : Net) (code : Z)
    (t : list Event) :
  main env n = Ok (code, n', t) ->
  entries_of "sp_get_task_data" t
  = match found_files env with
    | [] => O
    | _ :: _ => if code =? 0 then 1%nat else O
    end.
Proof.
  intros Hrun.
  destruct (main_outcome env n n' code t Hrun)
    as [[Hout [[Hpw ->]|[Hnone ->]]]
       |(Hr & pre & tid & sid & n1 & t1 & Hpre & Hso & H)].
  - rewrite (outputs_no_entries _ _ Hout). now destruct (found_files env).
  - rewrite (outputs_no_entries _ _ Hout), Hnone. reflexivity.
  - pose proof Hr as (_ & Hne & _).
    destruct (reaches_sign_on_password env Hr) as [pw Hpw].
    pose proof (sp_sign_on_outcome (load_config env) pw _ _ _ _ _ Hpw Hso)
      as Hcall.
    pose proof (single_call_entries _ _ _ "sp_get_task_data" Hcall) as He1.
    cbn in He1.
    destruct (found_files env) as [|f fs] eqn:Hf; [contradiction|].
    destruct sid as [s|].
    + destruct H as (n0 & t0 & toff & Hwork & Hoff & ->).
      destruct (sp_sign_off_outcome (load_config env) s n0)
        as (n3 & toff' & Hoff' & Hc').
      rewrite Hoff in Hoff'. injection Hoff' as <- <-.
      rewrite !entries_of_app, (outputs_no_entries _ _ Hpre), He1,
        (proj1 (session_work_report _ _ _ _ _ _ _ _ _ Hwork)),
        (single_call_entries _ _ _ "sp_get_task_data" Hc').
      cbn. now rewrite Nat.add_0_r.
    + destruct H as (-> & _ & ->).
      rewrite !entries_of_app, (outputs_no_entries _ _ Hpre), He1.
      reflexivity.
Qed.

(** A sign-on that yields a session id has sent its request. *)
Lemma sp_sign_on_sent (config : SPConfig) (pw sid : string) (n n1 : Net)
    (tid : option string) (t1 : list Event) :
  password config = Some pw ->
  sp_sign_on config None n = Ok ((tid, Some sid), n1, t1) ->
  requests_of t1 = [signon_request config pw].
Proof.
  intros Hpw H. unfold sp_sign_on in H. rewrite Hpw in H. run_in H;
    injection H as <- <- <- <-; try discriminate; reflexivity.
Qed.

(** A submission that yields a task id has sent its request. *)
Lemma sp_start_backup_sent (config : SPConfig) (sid path name : string)
    (fl : option FileList) (n n' : Net) (r : option string) (t : list Event) :
  sp_start_backup config sid path name fl n = Ok (r, n', t) ->
  (r = None /\ requests_of t = [])
  \/ exists body,
       build_backup_payload sid path name fl = Ok body
       /\ requests_of t = [backup_request config body].
Proof.
  intros H. unfold sp_start_backup in H. run_in H;
    injection H as <- <- <-;
    first [ left; split; reflexivity
          | right; eexists; split; reflexivity ].
Qed.

(** The requests of the work of a session, in their order. *)
Lemma session_work_requests (env : Env) (config : SPConfig) (dir : string)
    (flist : FileList) (sid : string) (n n0 : Net) (code : Z)
    (t0 : list Event) :
  session_work env config dir flist sid n = Ok (code, n0, t0) ->
  exists job tid later,
    requests_of t0 = (job ++ later)%list
    /\ (job = []
        \/ exists body,
             build_backup_payload sid dir
               (strftime_backup_name (localtime_now env)) (Some flist)
             = Ok body
             /\ job = [backup_request config body])
    /\ (forall q, In q later ->
          q = status_request config sid tid
          \/ q = data_request config sid tid).
Proof.
  unfold session_work. intros H.
  apply bind_Ok_inv in H. destruct H as (r & n1 & t1 & t2 & Hsb & H & ->).
  assert (Hjob : requests_of t1 = []
                 \/ exists body,
                      build_backup_payload sid dir
                        (strftime_backup_name (localtime_now env))
                        (Some flist) = Ok body
                      /\ requests_of t1 = [backup_request config body]).
  { destruct (sp_start_backup_sent _ _ _ _ _ _ _ _ _ Hsb)
      as [[_ E]|(body & Hb & E)]; [left | right]; eauto. }
  assert (Hjob' : requests_of t1 = []
                  \/ exists body,
                       build_backup_payload sid dir
                         (strftime_backup_name (localtime_now env))
                         (Some flist) = Ok body
                       /\ requests_of t1 = [backup_request config body])
    by exact Hjob.
  destruct r as [tid|].
  - apply bind_Ok_inv in H. destruct H as (success & n2 & t3 & t4 & Hw & H & ->).
    apply bind_Ok_inv in H. destruct H as ([] & n3 & t5 & t6 & Hd & H & ->).
    unfold ret in H. injection H as <- <- <-.
    destruct (sp_wait_for_task_outcome _ _ _ _ _ _ _ Hw)
      as (_ & _ & Hreq).
    assert (Hdata : forall q, In q (requests_of t5) ->
                              q = data_request config sid tid).
    { unfold when in Hd. destruct (negb (success =? 0)).
      - pose proof (sp_get_task_data_outcome _ _ _ _ _ _ Hd) as Hcall'.
        exact (single_call_requests _ _ _ Hcall').
      - unfold ret in Hd. injection Hd as <- <-. intros q []. }
    exists (requests_of t1), tid, (requests_of t3 ++ requests_of t5)%list.
    split; [now rewrite !requests_of_app, app_nil_r|].
    split.
    + destruct Hjob as [E|(body & Hb & E)]; [left | right]; eauto.
    + intros q Hin. apply in_app_or in Hin. destruct Hin; auto.
  - apply bind_Ok_inv in H. destruct H as ([] & n2 & t3 & t4 & He & H & ->).
    unfold eprintf, emit in He. injection He as <- <-.
    unfold ret in H. injection H as <- <- <-.
    exists (requests_of t1), EmptyString, [].
    split; [now rewrite !requests_of_app|].
    split.
    + destruct Hjob as [E|(body & Hb & E)]; [left | right]; eauto.
    + intros q [].
Qed.

(** X16: the requests of a run with a session come in this order: the
    sign-on request; the job request, if libcurl gave a handle for it, with
    the body built from the session id sign-on returned; then only status
    and detail queries and the sign-off, all for that session id and for
    one task id. *)
Theorem session_requests_in_order (env : Env) (n n1 n' : Net)
    (tid0 : option string) (sid : string) (t1 t : list Event) (code : Z) :
  sp_sign_on (load_config env) None n = Ok ((tid0, Some sid), n1, t1) ->
  reaches_sign_on env ->
  main env n = Ok (code, n', t) ->
  exists pw job tid later,
    getenv env "SP_PASSWORD" = Some pw
    /\ requests_of t
       = (signon_request (load_config env) pw :: job ++ later)%list
    /\ (job = []
        \/ exists body,
             build_backup_payload sid (download_dir_of env)
               (strftime_backup_name (localtime_now env))
               (Some {| files := found_files env |}) = Ok body
             /\ job = [backup_request (load_config env) body])
    /\ (forall q, In q later -> in_session (load_config env) sid tid q).
Proof.
  intros Hso Hr Hrun.
  destruct (reaches_sign_on_password env Hr) as [pw Hpw].
  destruct (main_outcome env n n' code t Hrun)
    as [[_ [[Hno _]|[Hnone _]]]
       |(_ & pre & tid' & sid' & n1' & t1' & Hpre & Hso' & H)].
  - congruence.
  - destruct Hr as (_ & Hne & _). contradiction.
  - rewrite Hso in Hso'. injection Hso' as <- <- <- <-.
    destruct H as (n0 & t0 & toff & Hwork & Hoff & ->).
    destruct (session_work_requests _ _ _ _ _ _ _ _ _ Hwork)
      as (job & tid & later & Hreq & Hjob & Hlater).
    destruct (sp_sign_off_outcome (load_config env) sid n0)
      as (n3 & toff' & Hoff' & Hc').
    rewrite Hoff in Hoff'. injection Hoff' as <- <-.
    exists pw, job, tid, (later ++ requests_of toff)%list.
    split; [exact Hpw|]. split; [|split; [exact Hjob|]].
    + rewrite !requests_of_app, (outputs_no_requests _ Hpre), Hreq,
        (sp_sign_on_sent (load_config env) pw sid n n1 tid0 t1 Hpw Hso).
      cbn [app]. now rewrite <- app_assoc.
    + intros q Hin. unfold in_session. apply in_app_or in Hin.
      destruct Hin as [Hin|Hin].
      * destruct (Hlater q Hin); auto.
      * right. right. exact (single_call_requests _ _ _ Hc' q Hin).
Qed.

Lemma code_accepted (code : Z) :
  (code =? 200) || (code =? 201) || (code =? 202) = true
  <-> code = 200 \/ code = 201 \/ code = 202.
Proof. rewrite !orb_true_iff, !Z.eqb_eq. tauto. Qed.

(** X17: job submission reads the task id off the text of the response.
    With status 200, 201 or 202 and a body that holds the key [taskId]
    between quotes and followed by a colon, and behind the first such place
    blanks and a quoted value, it returns the bytes between the quotes and
    prints them; with an accepted body in which that text does not occur it
    returns none, although the server took the job.  With any other status
    it returns none and echoes the body on standard error; on a transport
    failure and without a libcurl handle it returns none.  After a
    successful transfer that delivered no body it reads the byte of
    [malloc(1)] that was never written. *)
Theorem submit_task_id (config : SPConfig) (sid path name body : string)
    (fl : option FileList) (n : Net) :
  build_backup_payload sid path name fl = Ok body ->
  (forall n1 n2 code data,
      curl_easy_init n = (true, n1) ->
      curl_easy_perform (backup_request config body) n1
        = (CURLE_OK code data, n2) ->
      exists r t,
        sp_start_backup config sid path name fl n = Ok (r, n2, t)
        /\ (code = 200 \/ code = 201 \/ code = 202 ->
            (forall pre ws v post,
                first_occurrence (quoted "taskId" ++ ":") pre data ->
                data = pre ++ (quoted "taskId" ++ ":") ++ ws
                       ++ quoted v ++ post ->
                all_chars is_json_space ws = true ->
                all_chars (fun a => negb (is_dquote a)) v = true ->
                r = Some v
                /\ In (Stdout ("Backup task ID: " ++ v ++ nl)) t)
            /\ (~ occurs (quoted "taskId" ++ ":") data -> r = None)
            /\ r = extract_json_value data "taskId")
        /\ (code <> 200 -> code <> 201 -> code <> 202 ->
            r = None /\ In (Stderr ("Response: " ++ data ++ nl)) t))
  /\ (forall n1 n2 msg,
        curl_easy_init n = (true, n1) ->
        curl_easy_perform (backup_request config body) n1
          = (CURLE_failed msg, n2) ->
        exists t,
          sp_start_backup config sid path name fl n = Ok (None, n2, t))
  /\ (forall n1,
        curl_easy_init n = (false, n1) ->
        sp_start_backup config sid path name fl n
        = Ok (None, n1, [Enter "sp_start_backup"]))
  /\ (forall n1 n2 code,
        curl_easy_init n = (true, n1) ->
        curl_easy_perform (backup_request config body) n1
          = (CURLE_OK_nobody code, n2) ->
        sp_start_backup config sid path name fl n = Undefined UninitRead).
Proof.
  intros Hb.
  assert (Hk : (String.length "taskId" <= 252)%nat) by (simpl; lia).
  split; [|split; [|split]].
  - intros n1 n2 code data Hi Hp.
    destruct (sp_start_backup_answer config _ _ _ _ _ _ _ _ code data
                Hb Hi Hp) as (t & Ht & Hprint & Hecho).
    destruct ((code =? 200) || (code =? 201) || (code =? 202)) eqn:Hc.
    + eexists _, t. split; [exact Ht|]. split.
      * intros _. split; [|split; [|reflexivity]].
        -- intros pre ws v post Hfirst E Hws Hv.
           pose proof (extract_quoted_value _ _ _ _ _ _ Hk Hfirst E Hws Hv)
             as Hx.
           split; [exact Hx | exact (Hprint v eq_refl Hx)].
        -- intros Hno. exact (extract_absent _ _ Hk Hno).
      * intros H0 H1 H2. apply code_accepted in Hc. tauto.
    + eexists _, t. split; [exact Ht|]. split.
      * intros Hc'. apply code_accepted in Hc'. congruence.
      * intros _ _ _. split; [reflexivity | exact (Hecho eq_refl)].
  - intros n1 n2 msg Hi Hp.
    exact (sp_start_backup_failed config _ _ _ _ _ _ _ _ msg Hb Hi Hp).
  - intros n1 Hi. exact (sp_start_backup_no_handle _ _ _ _ _ _ _ Hi).
  - intros n1 n2 code Hi Hp.
    exact (sp_start_backup_nobody config _ _ _ _ _ _ _ _ code Hb Hi Hp).
Qed.

(** X18: with no time allowed ([max_minutes] zero or negative) the wait
    asks nothing and sleeps never: it reports the timeout at once and
    returns 0. *)
Theorem wait_without_time (config : SPConfig) (sid tid : string)
    (max_minutes : Z) (n : Net) :
  INT_MIN <= max_minutes * 12 ->
  max_minutes <= 0 ->
  sp_wait_for_task config sid tid max_minutes n
  = Ok (0, n,
        [Enter "sp_wait_for_task";
         Stdout (nl ++ "Waiting for backup to complete (max "
                 ++ fmt_d max_minutes ++ " minutes)..." ++ nl);
         Stderr ("✗ Timeout waiting for backup to complete" ++ nl)]).
Proof.
  intros Hlo Hle.
  rewrite sp_wait_for_task_run by (unfold INT_MAX; lia).
  replace (Z.to_nat (max_minutes * 12)) with O by lia. reflexivity.
Qed.

Lemma sleep_total_app (t1 t2 : list Event) :
  sleep_total (t1 ++ t2) = sleep_total t1 + sleep_total t2.
Proof.
  induction t1 as [|e t1 IH]; [reflexivity|].
  destruct e; cbn [app sleep_total]; lia.
Qed.

Lemma poll_once_no_sleep (config : SPConfig) (sid tid : string) (i : Z)
    (n n1 : Net) (r : option Z) (t : list Event) :
  poll_once config sid tid i n = Ok (r, n1, t) -> sleep_total t = 0.
Proof.
  rewrite poll_once_run, sp_get_task_status_run.
  destruct (curl_easy_init n) as [[] n0].
  - destruct (curl_easy_perform _ n0) as [[code data|msg|code] n2];
      [destruct (extract_json_value data "taskState") as [st|]| |discriminate].
    + destruct (streq st "Success"); [intros [= <- <- <-]; reflexivity|].
      destruct (streq st "Failed" || streq st "Error");
        [intros [= <- <- <-]; reflexivity|].
      destruct ((streq st "Running" || streq st "Pending") && (i mod 6 =? 0));
        intros [= <- <- <-]; reflexivity.
    + intros [= <- <- <-]. reflexivity.
    + intros [= <- <- <-]. reflexivity.
  - intros [= <- <- <-]. reflexivity.
Qed.

(** The loop sleeps five seconds after every attempt but a terminal one. *)
Lemma poll_loop_sleeps (config : SPConfig) (sid tid : string)
    (remaining : nat) :
  forall (i : Z) (n n' : Net) (r : option Z) (t : list Event),
    poll_loop config sid tid remaining i n = Ok (r, n', t) ->
    sleep_total t
    = 5 * Z.of_nat (entries_of "sp_get_task_status" t)
      - match r with Some _ => 5 | None => 0 end.
Proof.
  induction remaining as [|remaining IH]; intros i n n' r t Hloop.
  - injection Hloop as <- <- <-. reflexivity.
  - rewrite poll_loop_step in Hloop.
    destruct (poll_once config sid tid i n) as [[[r1 n1] t1]|u] eqn:Honce;
      [|discriminate].
    destruct (poll_once_outcome _ _ _ _ _ _ _ _ Honce) as (Hone & _).
    pose proof (poll_once_no_sleep _ _ _ _ _ _ _ _ Honce) as Hs.
    destruct r1 as [v|].
    + injection Hloop as <- <- <-. rewrite Hs, Hone. reflexivity.
    + destruct (poll_loop config sid tid remaining (i + 1) n1)
        as [[[r2 n2] t2]|u] eqn:Hrest; [|discriminate].
      injection Hloop as <- <- <-.
      rewrite sleep_total_app, entries_of_app, Hs, Hone.
      cbn [sleep_total entries_of]. rewrite (IH _ _ _ _ _ Hrest). lia.
Qed.

(** X19: the wait never sleeps longer in total than the time it was
    given: five seconds after each attempt that found no terminal state, at
    most [max_minutes * 60] seconds in all, and five seconds less than the
    attempts made when it returns success. *)
Theorem wait_sleeps_within_time (config : SPConfig) (sid tid : string)
    (max_minutes : Z) (n n' : Net) (r : Z) (t : list Event) :
  0 <= max_minutes ->
  max_minutes * 12 <= INT_MAX ->
  sp_wait_for_task config sid tid max_minutes n = Ok (r, n', t) ->
  sleep_total t <= max_minutes * 60
  /\ sleep_total t <= 5 * Z.of_nat (entries_of "sp_get_task_status" t)
  /\ (r = 1 ->
      sleep_total t = 5 * Z.of_nat (entries_of "sp_get_task_status" t) - 5).
Proof.
  intros Hpos Hmax.
  rewrite sp_wait_for_task_run by (unfold INT_MIN; lia).
  destruct (poll_loop config sid tid (Z.to_nat (max_minutes * 12)) 0 n)
    as [[[r0 n0] t0]|u] eqn:Hloop; [|discriminate].
  destruct (poll_loop_outcome config sid tid _ _ _ _ _ _ Hloop) as (Hle & _).
  pose proof (poll_loop_sleeps _ _ _ _ _ _ _ _ _ Hloop) as Hs.
  assert (He : forall x l,
             entries_of "sp_get_task_status"
               (Enter "sp_wait_for_task" :: Stdout x :: l)
             = entries_of "sp_get_task_status" l) by reflexivity.
  destruct r0 as [v|]; intros [= <- <- <-]; rewrite He; cbn [sleep_total].
  - split; [lia | split; [lia|]]. intros _. exact Hs.
  - rewrite sleep_total_app, entries_of_app. cbn [sleep_total entries_of].
    split; [lia | split; [lia | discriminate]].
Qed.

Lemma strlen_snprintf (k : nat) (s : string) (bound : Z) :
  k <> O -> Z.of_nat k - 1 <= bound -> strlen (snprintf k s) <= bound.
Proof.
  intros Hk Hb. unfold strlen, snprintf. rewrite length_take. lia.
Qed.

(** Every request of a run, with the body of the job request as built. *)
Lemma main_request_forms (env : Env) (n n' : Net) (code : Z) (t : list Event)
    (q : Request) :
  main env n = Ok (code, n', t) ->
  In q (requests_of t) ->
  let config := load_config env in
  (exists pw, q = signon_request config pw)
  \/ (exists sid body,
        build_backup_payload sid (download_dir_of env)
          (strftime_backup_name (localtime_now env))
          (Some {| files := found_files env |}) = Ok body
        /\ q = backup_request config body)
  \/ (exists sid tid, in_session config sid tid q).
Proof.
  intros Hrun Hin config.
  destruct (main_outcome env n n' code t Hrun)
    as [[Hout _]|(Hr & pre & tid & sid & n1 & t1 & Hpre & Hso & H)].
  - rewrite (outputs_no_requests _ Hout) in Hin. destruct Hin.
  - destruct (reaches_sign_on_password env Hr) as [pw Hpw].
    pose proof (sp_sign_on_outcome config pw _ _ _ _ _ Hpw Hso) as Hcall.
    destruct sid as [s|].
    + destruct H as (n0 & t0 & toff & Hwork & Hoff & ->).
      destruct (session_work_requests _ _ _ _ _ _ _ _ _ Hwork)
        as (job & tk & later & Hreq & Hjob & Hlater).
      destruct (sp_sign_off_outcome config s n0) as (n3 & toff' & Hoff' & Hc').
      fold config in Hoff. rewrite Hoff in Hoff'. injection Hoff' as <- <-.
      rewrite !requests_of_app, (outputs_no_requests _ Hpre), Hreq in Hin.
      cbn [app] in Hin.
      apply in_app_or in Hin. destruct Hin as [Hin|Hin].
      { left. exists pw. exact (single_call_requests _ _ _ Hcall q Hin). }
      apply in_app_or in Hin. destruct Hin as [Hin|Hin].
      * apply in_app_or in Hin. destruct Hin as [Hin|Hin].
        -- destruct Hjob as [->|(body & Hb & ->)]; [destruct Hin|].
           destruct Hin as [<-|[]]. right. left. eauto.
        -- right. right. exists s, tk. unfold in_session.
           destruct (Hlater q Hin); auto.
      * right. right. exists s, EmptyString. unfold in_session.
        right. right. exact (single_call_requests _ _ _ Hc' q Hin).
    + destruct H as (_ & _ & ->).
      rewrite !requests_of_app, (outputs_no_requests _ Hpre) in Hin.
      cbn [app requests_of] in Hin. rewrite app_nil_r in Hin.
      left. exists pw. exact (single_call_requests _ _ _ Hcall q Hin).
Qed.

(** X20: what a run sends stays within the buffers it was composed in:
    every URL has at most 2047 bytes, every header at most 511, and every
    body at most 8191. *)
Theorem requests_within_buffers (env : Env) (n n' : Net) (code : Z)
    (t : list Event) (q : Request) :
  main env n = Ok (code, n', t) ->
  In q (requests_of t) ->
  strlen (req_url q) <= 2047
  /\ (forall h, In h (req_headers q) -> strlen h <= 511)
  /\ (forall b, req_body q = Some b -> strlen b <= 8191).
Proof.
  intros Hrun Hin.
  assert (Hurl : forall s, strlen (snprintf MAX_URL_LEN s) <= 2047).
  { intros s. apply strlen_snprintf; [discriminate | vm_compute; discriminate]. }
  assert (Hhdr : forall s, strlen (session_header s) <= 511).
  { intros s. apply strlen_snprintf; [discriminate | vm_compute; discriminate]. }
  destruct (main_request_forms env n n' code t q Hrun Hin)
    as [[pw ->]|[(sid & body & Hb & ->)|(sid & tid & [-> | [-> | ->]])]];
    cbn [req_url req_headers req_body signon_request backup_request
         status_request data_request signoff_request];
    (split; [apply Hurl|]); split.
  - intros h [<-|[<-|[]]]; vm_compute; discriminate.
  - intros b [= <-].
    apply strlen_snprintf; [discriminate | vm_compute; discriminate].
  - intros h [<-|[<-|[]]]; vm_compute; discriminate.
  - intros b [= <-].
    destruct (build_backup_payload_Ok_inv _ _ _ _ _ Hb) as [-> _].
    unfold strlen. rewrite length_take. lia.
  - intros h [<-|[<-|[]]]; [vm_compute; discriminate | apply Hhdr].
  - discriminate.
  - intros h [<-|[<-|[]]]; [vm_compute; discriminate | apply Hhdr].
  - discriminate.
  - intros h [<-|[]]; vm_compute; discriminate.
  - intros b [= <-].
    apply strlen_snprintf; [discriminate | vm_compute; discriminate].
Qed.

(** X21: the report of [sp_get_task_data] does not look at the HTTP status:
    once the transfer itself succeeds and has delivered a body, whatever
    the status, the completion banner is printed on standard output, each
    counter the decoder finds in the body gets its line (the
    processed-files line needs both of its counters), and the task id line
    closes the report.  A transfer that fails prints nothing.  After a
    successful transfer that delivered no body the decoder is run on the
    byte of [malloc(1)] that was never written. *)
Theorem report_ignores_http_status (config : SPConfig) (sid tid : string)
    (n n1 n2 : Net) (res : CurlResult) :
  curl_easy_init n = (true, n1) ->
  curl_easy_perform (data_request config sid tid) n1 = (res, n2) ->
  match res with
  | CURLE_OK _ data =>
      exists t,
        sp_get_task_data config sid tid n = Ok (tt, n2, t)
        /\ forallb (fun e => negb (is_stderr e)) t = true
        /\ In (Stdout ("  BACKUP COMPLETED SUCCESSFULLY" ++ nl)) t
        /\ last t (Enter "sp_get_task_data")
           = Stdout ("Task ID: " ++ tid ++ nl)
        /\ (forall c total,
              extract_json_value data "totalCompletedFiles" = Some c ->
              extract_json_value data "totalFiles" = Some total ->
              In (Stdout ("Files processed: " ++ c ++ "/" ++ total ++ nl))
                t)
        /\ (forall f,
              extract_json_value data "totalFailedFiles" = Some f ->
              In (Stdout ("Files failed: " ++ f ++ nl)) t)
        /\ (forall b,
              extract_json_value data "totalBytes" = Some b ->
              In (Stdout ("Total size: " ++ b ++ " bytes" ++ nl)) t)
  | CURLE_failed _ =>
      sp_get_task_data config sid tid n
      = Ok (tt, n2, [Enter "sp_get_task_data";
                     Http (data_request config sid tid)])
  | CURLE_OK_nobody _ =>
      sp_get_task_data config sid tid n = Undefined UninitRead
  end.
Proof.
  intros Hinit Hperf. unfold sp_get_task_data.
  unfold bind, printf, ret, emit, easy_init, easy_perform, undefined.
  rewrite Hinit. cbv beta iota zeta delta [negb]. rewrite Hperf.
  cbv beta iota zeta.
  destruct res as [code data|msg|code]; [|reflexivity|reflexivity].
  destruct (extract_json_value data "totalCompletedFiles") as [c|];
    destruct (extract_json_value data "totalFiles") as [total|];
    destruct (extract_json_value data "totalFailedFiles") as [f|];
    destruct (extract_json_value data "totalBytes") as [b|];
    cbv beta iota zeta;
    (eexists; split; [reflexivity|]);
    (split; [reflexivity|]);
    (split; [cbn [In app]; tauto|]);
    (split; [reflexivity|]);
    repeat split; intros; try discriminate;
    match goal with
    | H : Some _ = Some _ |- _ => injection H as <-
    end;
    repeat match goal with
    | H : Some _ = Some _ |- _ => injection H as <-
    end;
    cbn [In app]; tauto.
Qed.

End ClientFacts.

(** ** Concrete runs *)

Section Runs.

Import Script.

(** A script without a bodiless success is a network that delivers a body
    with every successful transfer. *)
Lemma scripted_delivers_body : delivers_body bodied.
Proof.
  intros n Hn. unfold bodied in *. split.
  - destruct n as [|[r|] rest]; cbn in *; auto.
  - intros q. destruct n as [|[r|] rest];
      cbn [curl_easy_perform scripted perform fst snd tl forallb] in *.
    + split; [reflexivity | discriminate].
    + apply andb_prop in Hn. destruct Hn as [Hr Hrest].
      split; [exact Hrest|]. intros code ->. discriminate Hr.
    + split; [exact Hn | discriminate].
Qed.

(** C3: the payload block has 8192 bytes whatever the manifest.  With a
    download directory of 500 files the text of the body is 10522 bytes
    long, a store runs past the end of the block, and the run as a
    whole is undefined from there on. *)
Theorem payload_overflows_block :
  let env := env_with (Some many_files) in
  let flist := {| files := found_files env |} in
  count flist = 500
  /\ strlen (payload_text "S1" "downloads"
               (strftime_backup_name (localtime_now env)) (Some flist))
     = 10522
  /\ build_backup_payload "S1" "downloads"
       (strftime_backup_name (localtime_now env)) (Some flist)
     = Undefined HeapOverflow
  /\ main env [Some (CURLE_OK 200 (json1 "sessionId" "S1"))]
     = Undefined HeapOverflow.
Proof. vm_compute. repeat split. Qed.

(** A server that reports Success on the first query. *)
Lemma poll_state_decides_witness :
  sp_get_task_status demo_config "S1" "T9" [state_is "Success"]
  = Ok (Some "Success", [],
        [Enter "sp_get_task_status";
         Http (status_request demo_config "S1" "T9")])
  /\ poll_loop demo_config "S1" "T9" 3 0 [state_is "Success"]
     = Ok (Some 1, [],
           [Enter "sp_get_task_status";
            Http (status_request demo_config "S1" "T9");
            Stdout ("✓ Backup completed successfully" ++ nl)]).
Proof.
  split; [reflexivity|].
  exact (proj1 (poll_state_decides demo_config "S1" "T9" "Success" 0 2
                  [state_is "Success"] [] _ eq_refl) eq_refl).
Defined.

(** C2, as stated, fails: a wait that runs out of attempts returns the same
    value as a wait that sees the task fail. *)
Lemma timeout_returns_as_failure :
  returned (sp_wait_for_task demo_config "S1" "T9" 1
              (always 12 (state_is "Running")))
  = Some 0
  /\ returned (sp_wait_for_task demo_config "S1" "T9" 1 [state_is "Failed"])
     = Some 0
  /\ returned (sp_wait_for_task demo_config "S1" "T9" 1
                 (always 12 (state_is "Running")))
     = returned (sp_wait_for_task demo_config "S1" "T9" 1 [state_is "Failed"]).
Proof. vm_compute. repeat split. Qed.

(** One minute of waiting on a network that never answers. *)
Lemma wait_bounded_then_timeout_witness :
  INT_MIN <= 1 * 12 <= INT_MAX
  /\ bodied []
  /\ exists n' t,
       sp_wait_for_task demo_config "S1" "T9" 1 [] = Ok (0, n', t)
       /\ entries_of "sp_get_task_status" t = 12%nat.
Proof.
  assert (H : INT_MIN <= 1 * 12 <= INT_MAX) by (unfold INT_MIN, INT_MAX; lia).
  split; [exact H|]. split; [reflexivity|].
  destruct (wait_bounded_then_timeout demo_config "S1" "T9" 1 [] H)
    as (_ & Hret & Hdef).
  destruct (Hdef bodied scripted_delivers_body eq_refl)
    as (r & n' & t & Hrun).
  destruct (Hret r n' t Hrun) as (_ & _ & Htimeout).
  destruct (poll_loop demo_config "S1" "T9" (Z.to_nat (1 * 12)) 0 [])
    as [[[[v|] n1] t1]|u] eqn:Hloop;
    [vm_compute in Hloop; discriminate Hloop
    | | vm_compute in Hloop; discriminate Hloop].
  destruct (Htimeout n1 t1 eq_refl) as (-> & Hall & _).
  exists n', t. split; [exact Hrun | exact Hall].
Defined.

(** C4, as stated, fails: a body that holds a session id field with a
    blank before the colon is answered with status 200, and sign-on yields
    no session id; the run exits with status 1. *)
Lemma sign_on_misses_spaced_field :
  let body := "{" ++ quoted "sessionId" ++ " : " ++ quoted "S1" ++ "}" in
  occurs (quoted "sessionId") body
  /\ returned (sp_sign_on demo_config None [Some (CURLE_OK 200 body)])
     = Some (None, None)
  /\ returned (main (env_with (Some two_files)) [Some (CURLE_OK 200 body)])
     = Some 1.
Proof.
  intros body. split; [|split].
  - exists "{", (" : " ++ quoted "S1" ++ "}"). reflexivity.
  - vm_compute. reflexivity.
  - vm_compute. reflexivity.
Qed.

(** A sign-on answer with a session id, and one with a task id only. *)
Lemma sign_on_session_id_witness :
  reaches_sign_on (env_with (Some two_files))
  /\ (exists tid t,
        sp_sign_on (load_config (env_with (Some two_files))) None
          [Some (CURLE_OK 200 (json1 "sessionId" "S1"))]
        = Ok ((tid, Some "S1"), [], t))
  /\ (exists t',
        main (env_with (Some two_files))
          [Some (CURLE_OK 200 (json1 "taskId" "T1"))]
        = Ok (1, [], t')
        /\ entries_of "sp_sign_off" t' = O).
Proof.
  assert (Hr : reaches_sign_on (env_with (Some two_files))).
  { split; [discriminate|]. split; [discriminate | reflexivity]. }
  split; [exact Hr|]. split.
  - destruct (sign_on_session_id (env_with (Some two_files))
                [Some (CURLE_OK 200 (json1 "sessionId" "S1"))] Hr)
      as (pw & _ & Hok & _).
    destruct (Hok [Some (CURLE_OK 200 (json1 "sessionId" "S1"))] [] 200
                (json1 "sessionId" "S1") eq_refl eq_refl)
      as (tid & sid & t & Hso & H2xx & _).
    destruct (H2xx (or_introl eq_refl)) as (Hquoted & _).
    assert (Hfirst : first_occurrence (quoted "sessionId" ++ ":") "{"
                       (json1 "sessionId" "S1")).
    { split; [now exists (quoted "S1" ++ "}")|].
      intros [|c pre'] post' E; [discriminate E | simpl; lia]. }
    rewrite (Hquoted "{" EmptyString "S1" "}" Hfirst eq_refl eq_refl eq_refl)
      in Hso.
    exists tid, t. exact Hso.
  - destruct (sign_on_session_id (env_with (Some two_files))
                [Some (CURLE_OK 200 (json1 "taskId" "T1"))] Hr)
      as (pw & _ & Hok & _ & _ & Hnone & _).
    destruct (Hok [Some (CURLE_OK 200 (json1 "taskId" "T1"))] [] 200
                (json1 "taskId" "T1") eq_refl eq_refl)
      as (tid & sid & t & Hso & H2xx & _).
    destruct (H2xx (or_introl eq_refl)) as (_ & Habsent & _).
    assert (Hno : ~ occurs (quoted "sessionId" ++ ":") (json1 "taskId" "T1")).
    { intros (pre & post & E).
      exact (strstr_some (quoted "sessionId" ++ ":") pre post
               (eq_trans (f_equal (fun s => strstr s _) (eq_sym E))
                  eq_refl)). }
    rewrite (Habsent Hno) in Hso.
    destruct (Hnone tid [] t Hso) as (t' & Hrun & Hoff & _).
    exists t'. auto.
Defined.

(** One query lost in transport, the next one answered. *)
Lemma poll_survives_transport_failure_witness :
  poll_loop demo_config "S1" "T9" 2 0
    [Some (CURLE_failed "Timeout was reached"); state_is "Success"]
  = match poll_loop demo_config "S1" "T9" 1 (0 + 1) [state_is "Success"] with
    | Ok (r, n2, t2) =>
        Ok (r, n2,
            ([Enter "sp_get_task_status";
              Http (status_request demo_config "S1" "T9")]
             ++ Sleep 5 :: t2)%list)
    | Undefined u => Undefined u
    end
  /\ bodied [Some (CURLE_failed "Timeout was reached"); state_is "Success"]
  /\ exists r n' t,
       poll_loop demo_config "S1" "T9" 2 0
         [Some (CURLE_failed "Timeout was reached"); state_is "Success"]
       = Ok (r, n', t).
Proof.
  split; [|split; [reflexivity|]].
  - exact (proj1 (proj2 (poll_survives_transport_failure demo_config "S1" "T9"
                           1 0 [Some (CURLE_failed "Timeout was reached");
                                state_is "Success"]))
             _ _ eq_refl).
  - exact (proj2 (proj2 (proj2
             (poll_survives_transport_failure demo_config "S1" "T9"
                2 0 [Some (CURLE_failed "Timeout was reached");
                     state_is "Success"])))
             bodied scripted_delivers_body eq_refl).
Defined.

Lemma no_occurrence (needle s : string) :
  strstr s needle = None -> ~ occurs needle s.
Proof.
  intros H (pre & post & ->). exact (strstr_some needle pre post H).
Qed.

(** C6, as stated, fails twice over: the decoder answers from the first
    place the key appears, which may lie inside a nested object, and for a
    key of 253 bytes its search pattern loses the colon, so that it answers
    for a key the body does not have. *)
Lemma extract_json_value_not_by_key :
  let nested :=
    "{" ++ quoted "a" ++ ":{" ++ quoted "k" ++ ":1}," ++ quoted "k" ++ ":"
    ++ quoted "v" ++ "}" in
  let other := "{" ++ quoted "x" ++ ":" ++ quoted long_key ++ "}" in
  (occurs (quoted "k" ++ ":" ++ quoted "v") nested
   /\ extract_json_value nested "k" = Some "1")
  /\ (~ occurs (quoted long_key ++ ":") other
      /\ extract_json_value other long_key = Some EmptyString).
Proof.
  intros nested other. split; split.
  - exists ("{" ++ quoted "a" ++ ":{" ++ quoted "k" ++ ":1},"), "}".
    reflexivity.
  - reflexivity.
  - apply no_occurrence. vm_compute. reflexivity.
  - vm_compute. reflexivity.
Qed.

(** The three decodings the specification names. *)
Lemma extract_json_value_first_match_witness :
  extract_json_value (json1 "k" "v") "k" = Some "v"
  /\ extract_json_value ("{" ++ quoted "k" ++ ":42}") "k" = Some "42"
  /\ extract_json_value (json1 "k" "v") "missing" = None.
Proof.
  assert (Hk : (String.length "k" <= 252)%nat) by (simpl; lia).
  assert (Hm : (String.length "missing" <= 252)%nat) by (simpl; lia).
  assert (Hfirst : forall rest,
             first_occurrence (quoted "k" ++ ":") "{"
               ("{" ++ (quoted "k" ++ ":") ++ rest)).
  { intros rest. split; [now exists rest|].
    intros [|c pre'] post' E; [discriminate E | simpl; lia]. }
  split; [|split].
  - destruct (extract_json_value_first_match (json1 "k" "v") "k" Hk)
      as [_ H].
    destruct (H "{" EmptyString (quoted "v" ++ "}") (Hfirst _)
                eq_refl eq_refl eq_refl) as [Hq _].
    exact (Hq "v" "}" eq_refl eq_refl).
  - destruct (extract_json_value_first_match
                ("{" ++ quoted "k" ++ ":42}") "k" Hk) as [_ H].
    destruct (H "{" EmptyString "42}" (Hfirst _) eq_refl eq_refl eq_refl)
      as [_ Hb].
    exact (Hb "42" "}" eq_refl eq_refl eq_refl (or_intror eq_refl)).
  - destruct (extract_json_value_first_match (json1 "k" "v") "missing" Hm)
      as [H _].
    apply H. apply no_occurrence. reflexivity.
Defined.

(** Sign-on succeeds and the server then refuses the job. *)
Lemma sign_off_exactly_once_witness :
  reaches_sign_on (env_with (Some two_files))
  /\ exists code n' t,
       main (env_with (Some two_files))
         [Some (CURLE_OK 200 (json1 "sessionId" "S1"));
          Some (CURLE_OK 500 "{}")]
       = Ok (code, n', t)
       /\ entries_of "sp_sign_off" t = 1%nat.
Proof.
  assert (Hr : reaches_sign_on (env_with (Some two_files))).
  { split; [discriminate|]. split; [discriminate | reflexivity]. }
  split; [exact Hr|].
  destruct (sp_sign_on (load_config (env_with (Some two_files))) None
              [Some (CURLE_OK 200 (json1 "sessionId" "S1"));
               Some (CURLE_OK 500 "{}")])
    as [[[[tid sid] n1] t1]|u] eqn:Hso; [|discriminate Hso].
  assert (Hsid : sid = Some "S1") by (vm_compute in Hso; congruence).
  assert (Hn1 : n1 = [Some (CURLE_OK 500 "{}")])
    by (vm_compute in Hso; congruence).
  subst sid n1.
  destruct (sign_off_exactly_once (env_with (Some two_files)) _ _ tid "S1" t1
              Hr Hso) as (Honce & _ & Hdefined).
  assert (Hb : exists body,
             build_backup_payload "S1"
               (download_dir_of (env_with (Some two_files)))
               (strftime_backup_name
                  (localtime_now (env_with (Some two_files))))
               (Some {| files := found_files (env_with (Some two_files)) |})
             = Ok body) by (vm_compute; eauto).
  destruct Hb as [body Hb].
  destruct (Hdefined bodied body Hb scripted_delivers_body eq_refl)
    as (code & n' & t & Hrun).
  exists code, n', t. split; [exact Hrun|].
  exact (proj1 (Honce code n' t Hrun)).
Defined.

(** A directory that holds no [.txt] file. *)
Lemma no_files_exits_zero_witness :
  found_files (env_with (Some [ {| d_name := "notes.md"; d_type := DT_REG |} ]))
  = []
  /\ exists t,
       main (env_with (Some [ {| d_name := "notes.md"; d_type := DT_REG |} ]))
         [state_is "Success"]
       = Ok (0, [state_is "Success"], t)
       /\ requests_of t = [].
Proof.
  split; [reflexivity|].
  destruct (no_files_exits_zero
              (env_with (Some [ {| d_name := "notes.md"; d_type := DT_REG |} ]))
              [state_is "Success"] ltac:(discriminate) eq_refl)
    as (t & Hrun & _ & Hreq & _).
  exists t. auto.
Defined.

(** A download directory that does not exist. *)
Lemma unopenable_directory_as_empty_witness :
  opendir (env_with None) (download_dir_of (env_with None)) = None
  /\ returned (main (env_with None) [state_is "Success"]) = Some 0
  /\ returned (main (with_directory (env_with None) (Some []))
                 [state_is "Success"]) = Some 0.
Proof.
  split; [reflexivity|].
  destruct (unopenable_directory_as_empty (env_with None) [state_is "Success"]
              ltac:(discriminate) eq_refl)
    as (_ & _ & _ & Hrun & Hempty & _).
  rewrite Hrun, Hempty. split; reflexivity.
Defined.

(** Another backup directory in the environment, the same run; and the
    job request of a run that is accepted. *)
Lemma backup_path_is_scan_directory_witness :
  let env := env_with (Some two_files) in
  let n := [Some (CURLE_OK 200 (json1 "sessionId" "S1"));
            Some (CURLE_OK 202 (json1 "taskId" "T9"));
            state_is "Success"; Some (CURLE_OK 200 "{}")] in
  let body :=
    "{" ++ quoted "sessionId" ++ ":" ++ quoted "S1" ++ ","
    ++ quoted "backupName" ++ ":" ++ quoted "ceph_downloads_20240105_093007"
    ++ "," ++ quoted "backupType" ++ ":" ++ quoted "ceph_downloads" ++ ","
    ++ quoted "backupPath" ++ ":" ++ quoted "downloads" ++ ","
    ++ quoted "fileList" ++ ":[" ++ quoted "downloads/a.txt" ++ ","
    ++ quoted "downloads/b.txt" ++ "]}" in
  main (with_backup_dir env (Some "/elsewhere")) n = main env n
  /\ exists code n' t,
       main env n = Ok (code, n', t)
       /\ In (backup_request (load_config env) body) (requests_of t)
       /\ exists sid rest,
            body
            = "{" ++ quoted "sessionId" ++ ":" ++ quoted sid ++ ","
              ++ quoted "backupName" ++ ":"
              ++ quoted (strftime_backup_name (localtime_now env))
              ++ "," ++ quoted "backupType" ++ ":"
              ++ quoted "ceph_downloads" ++ ","
              ++ quoted "backupPath" ++ ":"
              ++ quoted (download_dir_of env) ++ rest.
Proof.
  intros env n body.
  destruct (backup_path_is_scan_directory env n) as (Hsame & _ & Hreq).
  split; [exact (Hsame (Some "/elsewhere"))|].
  destruct (main env n) as [[[code n'] t]|u] eqn:Hrun;
    [|vm_compute in Hrun; discriminate Hrun].
  assert (Hin : In (backup_request (load_config env) body) (requests_of t)).
  { pose proof Hrun as H'. vm_compute in H'. injection H' as _ _ <-.
    vm_compute. right. left. reflexivity. }
  exists code, n', t. split; [reflexivity|]. split; [exact Hin|].
  destruct (Hreq code n' t _ eq_refl Hin)
    as [[pw E]|[(sid & rest & E)|[(sid & tid & E)|[(sid & tid & E)|[sid E]]]]].
  - apply (f_equal req_url) in E. vm_compute in E. discriminate E.
  - exists sid, rest. exact (f_equal (fun o => match o with
                                                | Some b => b
                                                | None => EmptyString
                                                end)
                               (f_equal req_body E)).
  - apply (f_equal req_method) in E. discriminate E.
  - apply (f_equal req_method) in E. discriminate E.
  - apply (f_equal req_url) in E. vm_compute in E. discriminate E.
Defined.

(** C7: the run of C3 has a session when the payload overflows its block.
    Sign-on has yielded the session id [S1]; the run is undefined from the
    store outside the block on, so that it does not go on to the call of
    [sp_sign_off] that [main] makes on every path behind job submission. *)
Theorem sign_off_lost_on_overflow :
  let env := env_with (Some many_files) in
  let n := [Some (CURLE_OK 200 (json1 "sessionId" "S1"));
            Some (CURLE_OK 202 (json1 "taskId" "T9"));
            state_is "Success"; Some (CURLE_OK 200 "{}")] in
  reaches_sign_on env
  /\ sp_sign_on (load_config env) None n
     = Ok ((None, Some "S1"), List.tl n,
           [Enter "sp_sign_on";
            Stdout ("Signing on to IBM Storage Protect..." ++ nl);
            Stdout ("Server: http://spserver:1580" ++ nl);
            Stdout ("Node: APPLEBEES" ++ nl ++ nl);
            Http (signon_request (load_config env) "secret");
            Stdout ("✓ Sign-on successful" ++ nl);
            Stdout ("Session ID: S1" ++ nl)])
  /\ sp_start_backup (load_config env) "S1" (download_dir_of env)
       (strftime_backup_name (localtime_now env))
       (Some {| files := found_files env |}) (List.tl n)
     = Undefined HeapOverflow
  /\ main env n = Undefined HeapOverflow
  /\ ~ (exists code n' t,
          main env n = Ok (code, n', t)
          /\ entries_of "sp_sign_off" t = 1%nat).
Proof.
  intros env n.
  assert (Hmain : main env n = Undefined HeapOverflow)
    by (vm_compute; reflexivity).
  split; [|split; [|split; [|split]]].
  - split; [discriminate|]. split; [vm_compute; discriminate|].
    vm_compute. reflexivity.
  - vm_compute. reflexivity.
  - vm_compute. reflexivity.
  - exact Hmain.
  - intros (code & n' & t & Hrun & _). rewrite Hmain in Hrun.
    discriminate Hrun.
Qed.

End Runs.

(** * Further properties *)

(** ** The decoder *)

Lemma strstr_suffix (haystack needle s : string) :
  strstr haystack needle = Some s -> exists pre, haystack = pre ++ s.
Proof.
  induction haystack as [|c h IH]; cbn [strstr].
  - destruct (String.prefix needle EmptyString); [|discriminate].
    intros [= <-]. now exists EmptyString.
  - destruct (String.prefix needle (String c h)).
    + intros [= <-]. now exists EmptyString.
    + intros H. destruct (IH H) as [pre ->]. now exists (String c pre).
Qed.

Lemma drop_suffix (k : nat) (s : string) : exists pre, s = pre ++ drop k s.
Proof.
  revert k; induction s as [|c s IH]; intros [|k]; cbn [drop];
    try (now exists EmptyString).
  destruct (IH k) as [pre E]. exists (String c pre). cbn [append]. now rewrite <- E.
Qed.

Lemma skip_spaces_suffix (s : string) : exists pre, s = pre ++ skip_spaces s.
Proof.
  induction s as [|c s IH]; cbn [skip_spaces]; [now exists EmptyString|].
  destruct (is_json_space c); [|now exists EmptyString].
  destruct IH as [pre E]. exists (String c pre). cbn [append]. now rewrite <- E.
Qed.

Lemma strchr_split (s e : string) (c : ascii) :
  strchr s c = Some e ->
  exists v, s = v ++ e /\ all_chars (fun a => negb (Ascii.eqb a c)) v = true.
Proof.
  induction s as [|a s IH]; cbn [strchr]; [discriminate|].
  destruct (Ascii.eqb a c) eqn:E.
  - intros [= <-]. exists EmptyString. split; reflexivity.
  - intros H. destruct (IH H) as (v & -> & Hv). exists (String a v).
    split; [reflexivity|]. cbn [all_chars]. now rewrite E, Hv.
Qed.

Lemma strchr_none (s : string) (c : ascii) :
  all_chars (fun a => negb (Ascii.eqb a c)) s = true -> strchr s c = None.
Proof.
  induction s as [|a s IH]; cbn [strchr all_chars]; [reflexivity|].
  intros H. apply andb_prop in H. destruct H as [Ha Hs].
  apply negb_true_iff in Ha. rewrite Ha. auto.
Qed.

Lemma scan_bare_split (s : string) :
  exists v, s = v ++ scan_bare s
            /\ all_chars (fun a => negb (is_json_delim a)) v = true.
Proof.
  induction s as [|a s IH]; cbn [scan_bare].
  - exists EmptyString. split; reflexivity.
  - destruct (is_json_delim a) eqn:E.
    + exists EmptyString. split; reflexivity.
    + destruct IH as (v & Hs & Hv). exists (String a v). split.
      * cbn [append]. now rewrite <- Hs.
      * cbn [all_chars]. now rewrite E, Hv.
Qed.

(** Where a returned value comes from. *)
Lemma extract_json_value_inv (json key v : string) :
  extract_json_value json key = Some v ->
  exists pre post,
    json = pre ++ v ++ post
    /\ (all_chars (fun a => negb (is_dquote a)) v = true
        \/ all_chars (fun a => negb (is_json_delim a)) v = true).
Proof.
  unfold extract_json_value.
  destruct (strstr json _) as [s1|] eqn:E1; [|discriminate].
  destruct (strstr_suffix _ _ _ E1) as [p1 ->]. clear E1.
  remember (drop (String.length (snprintf 256 (quoted key ++ ":"))) s1)
    as d eqn:Hd.
  destruct (drop_suffix (String.length (snprintf 256 (quoted key ++ ":"))) s1)
    as [p2 E2].
  rewrite <- Hd in E2. clear Hd.
  remember (skip_spaces d) as start eqn:Hs.
  destruct (skip_spaces_suffix d) as [p3 E3]. rewrite <- Hs in E3. clear Hs.
  subst s1 d. cbv zeta.
  assert (Hbare : Some (copy_between start (scan_bare start)) = Some v ->
                  exists pre post,
                    p1 ++ p2 ++ p3 ++ start = pre ++ v ++ post
                    /\ (all_chars (fun a => negb (is_dquote a)) v = true
                        \/ all_chars (fun a => negb (is_json_delim a)) v = true)).
  { destruct (scan_bare_split start) as (w & Hw & Hclean).
    remember (scan_bare start) as e eqn:He. clear He. subst start.
    rewrite copy_between_app. intros [= <-].
    exists (p1 ++ p2 ++ p3), e. split; [|auto].
    now rewrite !app_assoc_s. }
  destruct start as [|c rest]; [exact Hbare|].
  destruct (Ascii.eqb c dquote) eqn:Ec; [|exact Hbare].
  destruct (strchr rest dquote) as [e|] eqn:E4; [|discriminate].
  intros [= <-]. destruct (strchr_split _ _ _ E4) as (w & -> & Hclean).
  rewrite copy_between_app.
  exists (p1 ++ p2 ++ p3 ++ String c EmptyString), e. split; [|auto].
  rewrite !app_assoc_s. reflexivity.
Qed.

(** X1: a value the decoder returns is a run of bytes of the body, copied
    as it stands. *)
Theorem extract_value_is_substring (json key v : string) :
  extract_json_value json key = Some v -> occurs v json.
Proof.
  intros H. destruct (extract_json_value_inv json key v H) as (pre & post & E & _).
  now exists pre, post.
Qed.

(** X2: a returned value holds no double quote, or else no comma, closing
    brace or closing bracket: the decoder stops at the first quote behind an
    opening quote, an escaped one included, and at the first delimiter
    otherwise. *)
Theorem extract_value_stops_at_delimiter (json key v : string) :
  extract_json_value json key = Some v ->
  all_chars (fun a => negb (is_dquote a)) v = true
  \/ all_chars (fun a => negb (is_json_delim a)) v = true.
Proof.
  intros H. destruct (extract_json_value_inv json key v H) as (pre & post & _ & E).
  exact E.
Qed.

(** X3: when the first place of the key is followed by an opening quote
    and no quote closes it, the decoder returns absent, although the key is
    there. *)
Theorem extract_unclosed_quote_absent (json key pre ws tail : string) :
  (String.length key <= 252)%nat ->
  first_occurrence (quoted key ++ ":") pre json ->
  json = pre ++ (quoted key ++ ":") ++ ws ++ quot ++ tail ->
  all_chars is_json_space ws = true ->
  all_chars (fun a => negb (is_dquote a)) tail = true ->
  extract_json_value json key = None.
Proof.
  intros Hk Hfirst E Hws Htail.
  rewrite (extract_at_first json key pre ws (quot ++ tail) Hk Hfirst E Hws
             eq_refl).
  unfold quot. cbn [append]. rewrite Ascii.eqb_refl.
  now rewrite strchr_none.
Qed.

(** ** The directory scan *)

Lemma In_firstn {A} (x : A) (k : nat) (l : list A) :
  In x (firstn k l) -> In x l.
Proof.
  revert l; induction k as [|k IH]; intros l Hin.
  - destruct Hin.
  - destruct l as [|a l]; [destruct Hin|].
    destruct Hin as [<-|Hin]; [now left | right; auto].
Qed.

Section ScanFacts.

Context {Net : Type}.

Lemma readdir_loop_firstn (dir_path : string) (entries : list dirent) :
  forall acc : list string,
    (List.length acc <= Z.to_nat MAX_FILES)%nat ->
    readdir_loop dir_path entries acc
    = firstn (Z.to_nat MAX_FILES)
        (acc ++ List.map (full_path dir_path) (List.filter is_txt_file entries)).
Proof.
  induction entries as [|e rest IH]; intros acc Hacc.
  - cbn [readdir_loop List.filter List.map]. rewrite app_nil_r.
    symmetry. now apply firstn_all2.
  - cbn [readdir_loop List.filter].
    destruct (Z.of_nat (List.length acc) <? MAX_FILES) eqn:Hroom.
    + apply Z.ltb_lt in Hroom. unfold is_txt_file.
      destruct (d_type e =? DT_REG); cbn [andb]; [|now apply IH].
      destruct (strrchr (d_name e) ".") as [ext|]; [|now apply IH].
      destruct (streq ext ".txt"); [|now apply IH].
      rewrite IH by (rewrite List.length_app; unfold MAX_FILES in *; simpl; lia).
      cbn [List.map]. unfold full_path. now rewrite <- app_assoc.
    + apply Z.ltb_ge in Hroom.
      assert (Hfull : List.length acc = Z.to_nat MAX_FILES)
        by (unfold MAX_FILES in *; lia).
      rewrite firstn_app, <- Hfull, firstn_all, Nat.sub_diag.
      cbn [firstn]. now rewrite app_nil_r.
Qed.

Lemma scan_directory_cases (env : Env) (dir_path : string) (n : Net) :
  scan_directory env dir_path n
  = match opendir env dir_path with
    | Some entries =>
        Ok ({| files := readdir_loop dir_path entries [] |}, n, [])
    | None =>
        Ok ({| files := [] |}, n,
            [Stderr ("Error: Cannot open directory '" ++ dir_path ++ "'"
                     ++ nl)])
    end.
Proof. unfold scan_directory. destruct (opendir env dir_path); reflexivity. Qed.

(** X4: from a directory it can open, the scan returns the paths of the
    regular files whose name ends in [.txt], in the order [readdir] yields
    them, cut after the first [MAX_FILES]; it prints nothing and leaves the
    network alone. *)
Theorem scan_lists_txt_files (env : Env) (dir_path : string)
    (entries : list dirent) (n : Net) :
  opendir env dir_path = Some entries ->
  scan_directory env dir_path n
  = Ok ({| files :=
             firstn (Z.to_nat MAX_FILES)
               (List.map (full_path dir_path)
                  (List.filter is_txt_file entries)) |},
        n, []).
Proof.
  intros Hdir. rewrite scan_directory_cases, Hdir.
  rewrite readdir_loop_firstn by (simpl; lia). reflexivity.
Qed.

(** X5: whatever the directory holds, the list has at most [MAX_FILES]
    entries and every path in it at most [MAX_PATH_LEN - 1] bytes. *)
Theorem scan_result_bounded (env : Env) (dir_path : string) (n n' : Net)
    (l : FileList) (t : list Event) :
  scan_directory env dir_path n = Ok (l, n', t) ->
  count l <= MAX_FILES
  /\ forall f, In f (files l) -> strlen f <= Z.of_nat MAX_PATH_LEN - 1.
Proof.
  rewrite scan_directory_cases.
  destruct (opendir env dir_path) as [entries|]; intros [= <- _ _].
  - rewrite readdir_loop_firstn by (simpl; lia). unfold count. cbn [files].
    split.
    + rewrite List.length_firstn. unfold MAX_FILES. lia.
    + intros f Hin. apply In_firstn in Hin. cbn [app] in Hin.
      apply in_map_iff in Hin. destruct Hin as (e & <- & _).
      unfold full_path, snprintf, strlen. rewrite length_take.
      unfold MAX_PATH_LEN. lia.
  - split; [unfold count, MAX_FILES; simpl; lia | intros f []].
Qed.

End ScanFacts.

Lemma strrchr_suffix (s r : string) (c : ascii) :
  strrchr s c = Some r -> exists pre, s = pre ++ r.
Proof.
  revert r; induction s as [|a s IH]; intros r; cbn [strrchr]; [discriminate|].
  destruct (strrchr s c) as [r'|].
  - intros [= <-]. destruct (IH r' eq_refl) as [pre ->].
    now exists (String a pre).
  - destruct (Ascii.eqb a c); [|discriminate].
    intros [= <-]. now exists EmptyString.
Qed.

Lemma strrchr_app (pre r r' : string) (c : ascii) :
  strrchr r c = Some r' -> strrchr (pre ++ r) c = Some r'.
Proof.
  intros H. induction pre as [|a pre IH]; cbn [append strrchr]; [exact H|].
  now rewrite IH.
Qed.

Lemma strrchr_none (s : string) (c : ascii) :
  all_chars (fun a => negb (Ascii.eqb a c)) s = true -> strrchr s c = None.
Proof.
  induction s as [|a s IH]; cbn [strrchr all_chars]; [reflexivity|].
  intros H. apply andb_prop in H. destruct H as [Ha Hs].
  apply negb_true_iff in Ha. now rewrite (IH Hs), Ha.
Qed.

(** X6: the scan takes an entry exactly when it is a regular file and its
    name ends in [.txt], in that spelling; a name that is nothing but
    [.txt] counts, a directory never does. *)
Theorem txt_file_by_suffix (entry : dirent) :
  is_txt_file entry = true
  <-> d_type entry = DT_REG /\ exists stem, d_name entry = stem ++ ".txt".
Proof.
  unfold is_txt_file. rewrite andb_true_iff, Z.eqb_eq. split.
  - intros [Hreg Hext]. split; [exact Hreg|].
    destruct (strrchr (d_name entry) ".") as [ext|] eqn:E; [|discriminate].
    apply String.eqb_eq in Hext. subst ext.
    exact (strrchr_suffix _ _ _ E).
  - intros [Hreg [stem Hname]]. split; [exact Hreg|].
    rewrite Hname, (strrchr_app stem ".txt" ".txt") by reflexivity.
    reflexivity.
Qed.

Lemma strrchr_found (pre post : string) (c : ascii) :
  strrchr (pre ++ String c post) c <> None.
Proof.
  assert (H : exists r, strrchr (String c post) c = Some r).
  { cbn [strrchr]. destruct (strrchr post c); [eauto|].
    rewrite Ascii.eqb_refl. eauto. }
  destruct H as [r H]. rewrite (strrchr_app pre _ r c H). discriminate.
Qed.

Lemma full_path_has_slash (dir_path : string) (entry : dirent) :
  (String.length dir_path <= 1022)%nat ->
  has_slash (full_path dir_path entry) = true.
Proof.
  intros Hdir. unfold has_slash, full_path, snprintf, MAX_PATH_LEN.
  rewrite take_app_ge by lia.
  destruct (1024 - 1 - String.length dir_path)%nat as [|k] eqn:Ek; [lia|].
  cbn [append take].
  destruct (strrchr _ "/") eqn:E; [reflexivity|].
  exfalso. exact (strrchr_found _ _ _ E).
Qed.

Section ListingFacts.

Context {Net : Type}.

Lemma print_files_lines (env : Env) (fs : list string) (n n' : Net)
    (tl : list Event) :
  print_files env fs n = Ok (tt, n', tl) ->
  List.length tl = List.length fs.
Proof.
  revert n n' tl. induction fs as [|f fs IH]; intros n n' tl;
    cbn [print_files].
  - unfold ret. intros [= <- <-]. reflexivity.
  - destruct (strrchr f "/") as [slash|]; [|discriminate].
    unfold bind, printf, emit.
    destruct (print_files env fs n) as [[[[] n1] t1]|u] eqn:E; [|discriminate].
    intros [= <- <-]. cbn [app List.length]. f_equal. exact (IH _ _ _ E).
Qed.

(** X7: when the name of the download directory has at most 1022 bytes,
    every path the scan stored holds a slash, and the listing of [main]
    prints one line per file and nothing else. *)
Theorem listing_defined (env : Env) (n : Net) :
  (String.length (download_dir_of env) <= 1022)%nat ->
  forallb has_slash (found_files env) = true
  /\ exists tl,
       print_files env (found_files env) n = Ok (tt, n, tl)
       /\ forallb is_output tl = true
       /\ List.length tl = List.length (found_files env).
Proof.
  intros Hdir.
  assert (Hs : forallb has_slash (found_files env) = true).
  { apply forallb_forall. intros f Hin. unfold found_files in Hin.
    destruct (opendir env (download_dir_of env)) as [entries|]; [|destruct Hin].
    rewrite readdir_loop_firstn in Hin by (simpl; lia).
    apply In_firstn in Hin. cbn [app] in Hin.
    apply in_map_iff in Hin. destruct Hin as (e & <- & _).
    now apply full_path_has_slash. }
  split; [exact Hs|].
  pose proof (print_files_run env (found_files env) n) as H.
  rewrite Hs in H. destruct H as (tl & Hrun & Hout).
  exists tl. split; [exact Hrun|]. split; [exact Hout|].
  exact (print_files_lines _ _ _ _ _ Hrun).
Qed.

(** X8: for a path that fits its buffer the listing shows the name of the
    entry itself and the size [stat] reports for the path. *)
Theorem listing_shows_name (env : Env) (dir_path : string) (entry : dirent)
    (n : Net) :
  (String.length dir_path + 1 + String.length (d_name entry) <= 1023)%nat ->
  all_chars (fun a => negb (Ascii.eqb a "/")) (d_name entry) = true ->
  full_path dir_path entry = dir_path ++ "/" ++ d_name entry
  /\ print_files env [full_path dir_path entry] n
     = Ok (tt, n,
           [Stdout ("  - " ++ d_name entry ++ " ("
                    ++ fmt_d (st_size env (dir_path ++ "/" ++ d_name entry))
                    ++ " bytes)" ++ nl)]).
Proof.
  intros Hfit Hname.
  assert (Hpath : full_path dir_path entry = dir_path ++ "/" ++ d_name entry).
  { unfold full_path, snprintf, MAX_PATH_LEN. apply take_all.
    rewrite !length_app. simpl. lia. }
  split; [exact Hpath|]. rewrite Hpath. cbn [print_files].
  assert (Hslash : strrchr (dir_path ++ "/" ++ d_name entry) "/"
                   = Some ("/" ++ d_name entry)).
  { apply strrchr_app. cbn [append strrchr].
    rewrite (strrchr_none _ _ Hname). reflexivity. }
  rewrite Hslash. reflexivity.
Qed.

End ListingFacts.

(** ** The job payload *)

Lemma entry_pieces_join (fs : list string) :
  forall n i : Z,
    n = i + Z.of_nat (List.length fs) ->
    concat_s (entry_pieces n i fs) = join_quoted fs.
Proof.
  induction fs as [|f rest IH]; intros n i Hn; [reflexivity|].
  cbn [entry_pieces concat_s fold_right]. fold (concat_s (entry_pieces n (i + 1) rest)).
  rewrite (IH n (i + 1)) by (cbn [List.length] in Hn; lia).
  destruct rest as [|g rest'].
  - replace (i <? n - 1) with false
      by (symmetry; apply Z.ltb_ge; cbn [List.length] in Hn; lia).
    cbn [join_quoted]. now rewrite !app_empty_r.
  - replace (i <? n - 1) with true
      by (symmetry; apply Z.ltb_lt; cbn [List.length] in Hn; lia).
    cbn [join_quoted]. now rewrite app_assoc_s.
Qed.

Lemma payload_text_with_files (sid path name : string) (l : FileList) :
  files l <> [] ->
  payload_text sid path name (Some l)
  = payload_head sid name path ++ "," ++ quoted "fileList" ++ ":["
    ++ join_quoted (files l) ++ "]}".
Proof.
  intros Hne. unfold payload_text, list_pieces.
  replace (0 <? count l) with true
    by (symmetry; apply Z.ltb_lt; unfold count;
        destruct (files l); [contradiction | simpl; lia]).
  cbn [concat_s fold_right].
  fold (concat_s (entry_pieces (count l) 0 (files l) ++ ["]"])).
  rewrite concat_s_app, entry_pieces_join by (unfold count; lia).
  cbn [concat_s fold_right]. rewrite !app_assoc_s. reflexivity.
Qed.

(** X9: when the JSON text of the job fits the block (at most 8191 bytes),
    the body sent is exactly that text: the session id, the backup name,
    the fixed type, the backup path and, under [fileList], every path of
    the manifest in order, quoted, with commas between and none behind the
    last.  Without a manifest the body ends behind the backup path. *)
Theorem job_body_complete (sid path name : string) :
  (forall l : FileList,
      files l <> [] ->
      strlen (payload_head sid name path ++ "," ++ quoted "fileList" ++ ":["
              ++ join_quoted (files l) ++ "]}") <= 8191 ->
      build_backup_payload sid path name (Some l)
      = Ok (payload_head sid name path ++ "," ++ quoted "fileList" ++ ":["
            ++ join_quoted (files l) ++ "]}"))
  /\ (strlen (payload_head sid name path ++ "}") <= 8191 ->
      build_backup_payload sid path name None
      = Ok (payload_head sid name path ++ "}")
      /\ build_backup_payload sid path name (Some {| files := [] |})
         = Ok (payload_head sid name path ++ "}")).
Proof.
  split.
  - intros l Hne Hfit. rewrite <- (payload_text_with_files sid path name l Hne) in *.
    now apply build_backup_payload_fits.
  - intros Hfit. split.
    + apply (build_backup_payload_fits sid path name None). exact Hfit.
    + apply (build_backup_payload_fits sid path name (Some {| files := [] |})).
      exact Hfit.
Qed.

(** X10: where the block ends.  A text of 8192 or 8193 bytes is sent cut
    to its first 8191 bytes, without the closing brace; from 8194 bytes on
    a store runs outside the block. *)
Theorem job_body_limits (sid path name : string) (fl : option FileList) :
  let text := payload_text sid path name fl in
  strlen text <= INT_MAX ->
  (8192 <= strlen text <= 8193 ->
   build_backup_payload sid path name fl = Ok (take (Z.to_nat 8191) text)
   /\ strlen (take (Z.to_nat 8191) text) = 8191)
  /\ (8194 <= strlen text ->
      build_backup_payload sid path name fl = Undefined HeapOverflow).
Proof.
  intros text Hmax. unfold text in *.
  destruct (build_backup_payload_cases sid path name fl Hmax)
    as [[Hle E]|[Hge E]]; split.
  - intros Hb. split; [exact E|]. unfold strlen in *. rewrite length_take. lia.
  - intros Hb. lia.
  - intros Hb. lia.
  - intros _. exact E.
Qed.

(** ** The response buffer *)

Section BufferFacts.

Import ResponseBuffer.

Lemma c_str_terminated (s : string) : c_str (s ++ zero_byte) = c_str s.
Proof.
  induction s as [|a s IH]; [reflexivity|].
  cbn [append c_str]. now rewrite IH.
Qed.

(** One call, on a block that holds [body]. *)
Lemma write_callback_step (body chunk : string) (mem : Response) :
  size mem = strlen body ->
  take (String.length body) (data mem) = body ->
  strlen body + strlen chunk + 1 < SIZE_MODULUS ->
  write_callback true chunk 1 (strlen chunk) mem
  = Ok (strlen chunk,
        {| data := (body ++ chunk) ++ zero_byte;
           size := strlen (body ++ chunk) |},
        []).
Proof.
  intros Hsize Hdata Hfit. unfold write_callback. cbn [negb].
  pose proof (strlen_nonneg body). pose proof (strlen_nonneg chunk).
  rewrite Z.mul_1_l, Hsize.
  rewrite (Z.mod_small (strlen chunk)) by lia.
  rewrite (Z.mod_small (strlen body + strlen chunk + 1)) by lia.
  replace (strlen body + strlen chunk + 1 <? strlen body + strlen chunk + 1)
    with false by (symmetry; apply Z.ltb_ge; lia).
  replace (strlen chunk <? strlen chunk) with false
    by (symmetry; apply Z.ltb_ge; lia).
  assert (Hn : forall s, Z.to_nat (strlen s) = String.length s)
    by (intros s; unfold strlen; apply Nat2Z.id).
  cbn [orb]. rewrite !Hn, Hdata.
  rewrite (take_all _ chunk) by lia.
  now rewrite strlen_app, app_assoc_s.
Qed.

Lemma receive_from (chunks : list string) :
  forall (body chunk : string) (mem : Response),
    size mem = strlen body ->
    take (String.length body) (data mem) = body ->
    strlen body + strlen (concat_s (chunk :: chunks)) + 1 < SIZE_MODULUS ->
    receive (chunk :: chunks) mem
    = Ok {| data := (body ++ concat_s (chunk :: chunks)) ++ zero_byte;
            size := strlen (body ++ concat_s (chunk :: chunks)) |}.
Proof.
  induction chunks as [|c rest IH]; intros body chunk mem Hsize Hdata Hfit.
  - cbn [concat_s fold_right] in *. rewrite app_empty_r in *.
    cbn [receive]. now rewrite (write_callback_step body chunk mem).
  - change (concat_s (chunk :: c :: rest))
      with (chunk ++ concat_s (c :: rest)) in *.
    rewrite strlen_app in Hfit.
    pose proof (strlen_nonneg (concat_s (c :: rest))).
    change (receive (chunk :: c :: rest) mem)
      with (match write_callback true chunk 1 (strlen chunk) mem with
            | Ok (_, mem', _) => receive (c :: rest) mem'
            | Undefined u => Undefined u
            end).
    rewrite (write_callback_step body chunk mem) by (auto; lia).
    rewrite (IH (body ++ chunk) c).
    + now rewrite !app_assoc_s.
    + reflexivity.
    + cbn [data]. rewrite app_assoc_s.
      rewrite <- (app_assoc_s body chunk). apply take_app_length.
    + rewrite strlen_app. lia.
Qed.

(** X11: the write callback accumulates the body.  After the calls for
    the chunks of a response the block holds the chunks in order followed
    by a zero and [size] is their total length, whatever the byte first
    allocated was; so the C string the decoder reads is the body up to its
    first zero byte.  Each call returns the count it was handed.  When
    [realloc] fails the call returns 0 and leaves the buffer as it was. *)
Theorem write_callback_accumulates (chunk : string) (chunks : list string)
    (garbage : ascii) :
  strlen (concat_s (chunk :: chunks)) + 1 < SIZE_MODULUS ->
  receive (chunk :: chunks) (fresh garbage)
  = Ok {| data := concat_s (chunk :: chunks) ++ zero_byte;
          size := strlen (concat_s (chunk :: chunks)) |}
  /\ c_str (concat_s (chunk :: chunks) ++ zero_byte)
     = c_str (concat_s (chunk :: chunks))
  /\ (exists mem',
        write_callback true chunk 1 (strlen chunk) (fresh garbage)
        = Ok (strlen chunk, mem', []))
  /\ (forall mem size_ nmemb,
        write_callback false chunk size_ nmemb mem
        = Ok (0, mem, [Stderr ("Memory allocation failed" ++ nl)])).
Proof.
  intros Hfit. split; [|split; [|split]].
  - apply (receive_from chunks EmptyString chunk (fresh garbage));
      [reflexivity | reflexivity | exact Hfit].
  - apply c_str_terminated.
  - eexists. apply (write_callback_step EmptyString chunk (fresh garbage));
      [reflexivity | reflexivity |].
    change (concat_s (chunk :: chunks)) with (chunk ++ concat_s chunks) in Hfit.
    rewrite strlen_app in Hfit. pose proof (strlen_nonneg (concat_s chunks)).
    change (strlen EmptyString) with 0. lia.
  - reflexivity.
Qed.

End BufferFacts.

(** ** The backup name *)

Lemma below_by_check (P : Z -> bool) (k : Z) :
  forallb P (List.map Z.of_nat (List.seq 0 (Z.to_nat k))) = true ->
  forall z, 0 <= z < k -> P z = true.
Proof.
  intros H z Hz. rewrite forallb_forall in H. apply H.
  apply in_map_iff. exists (Z.to_nat z). split; [lia|].
  apply in_seq. lia.
Qed.

Lemma pad2_length (z : Z) :
  0 <= z < 100 -> String.length (pad2 z) = 2%nat.
Proof.
  intros Hz. apply Nat.eqb_eq.
  apply (below_by_check (fun z => Nat.eqb (String.length (pad2 z)) 2) 100);
    [vm_compute; reflexivity | exact Hz].
Qed.

Lemma year_length (y : Z) :
  1000 <= y <= 9999 -> String.length (fmt_d y) = 4%nat.
Proof.
  intros Hy. apply Nat.eqb_eq.
  assert (H : ((y <? 1000) || Nat.eqb (String.length (fmt_d y)) 4) = true).
  { apply (below_by_check
             (fun y => (y <? 1000) || Nat.eqb (String.length (fmt_d y)) 4)
             10000); [vm_compute; reflexivity | lia]. }
  apply orb_true_iff in H. destruct H as [H|H]; [|exact H].
  apply Z.ltb_lt in H. lia.
Qed.

(** X12: for a calendar time with a four-digit year the backup name has
    exactly 30 bytes, the prefix and fourteen digits around one underscore,
    so it fits the 128-byte buffer of [main] with room to spare. *)
Theorem backup_name_fixed_width (t : tm) :
  calendar_time t ->
  String.length (strftime_backup_name t) = 30%nat
  /\ String.prefix "ceph_downloads_" (strftime_backup_name t) = true.
Proof.
  intros (Hy & Hmo & Hd & Hh & Hmi & Hs). split.
  - unfold strftime_backup_name. rewrite !length_app.
    rewrite (year_length _ Hy), !pad2_length by lia. reflexivity.
  - unfold strftime_backup_name. apply prefix_app.
Qed.

(** ** Concrete runs of the further properties *)

Section FurtherRuns.

Import Script.
Import ResponseBuffer.

Lemma extract_value_is_substring_witness :
  extract_json_value (json1 "taskId" "T9") "taskId" = Some "T9"
  /\ occurs "T9" (json1 "taskId" "T9").
Proof.
  split; [reflexivity|].
  apply (extract_value_is_substring (json1 "taskId" "T9") "taskId" "T9").
  reflexivity.
Defined.

Lemma extract_value_stops_at_delimiter_witness :
  extract_json_value ("{" ++ quoted "k" ++ ":42}") "k" = Some "42"
  /\ (all_chars (fun a => negb (is_dquote a)) "42" = true
      \/ all_chars (fun a => negb (is_json_delim a)) "42" = true).
Proof.
  split; [reflexivity|].
  apply (extract_value_stops_at_delimiter ("{" ++ quoted "k" ++ ":42}") "k").
  reflexivity.
Defined.

(** A body that breaks off inside the value. *)
Lemma extract_unclosed_quote_absent_witness :
  extract_json_value ("{" ++ quoted "k" ++ ":" ++ quot ++ "abc") "k" = None.
Proof.
  apply (extract_unclosed_quote_absent _ "k" "{" EmptyString "abc").
  - simpl; lia.
  - split; [now exists (quot ++ "abc")|].
    intros [|c pre'] post' E; [discriminate E | simpl; lia].
  - reflexivity.
  - reflexivity.
  - reflexivity.
Defined.

Lemma scan_lists_txt_files_witness :
  scan_directory (env_with (Some two_files)) "downloads" ([] : Net)
  = Ok ({| files := ["downloads/a.txt"; "downloads/b.txt"] |}, [], []).
Proof.
  apply (scan_lists_txt_files (env_with (Some two_files)) "downloads"
           two_files ([] : Net)).
  reflexivity.
Defined.

Lemma scan_result_bounded_witness :
  count {| files := ["downloads/a.txt"; "downloads/b.txt"] |} <= MAX_FILES
  /\ forall f, In f ["downloads/a.txt"; "downloads/b.txt"] ->
               strlen f <= Z.of_nat MAX_PATH_LEN - 1.
Proof.
  apply (scan_result_bounded (env_with (Some two_files)) "downloads"
           ([] : Net) []
           {| files := ["downloads/a.txt"; "downloads/b.txt"] |} []).
  reflexivity.
Defined.

Lemma txt_file_by_suffix_witness :
  is_txt_file {| d_name := ".txt"; d_type := DT_REG |} = true
  /\ is_txt_file {| d_name := "a.txt"; d_type := 4 |} = false.
Proof.
  split; [|reflexivity].
  apply (proj2 (txt_file_by_suffix {| d_name := ".txt"; d_type := DT_REG |})).
  split; [reflexivity|]. now exists EmptyString.
Defined.

Lemma listing_defined_witness :
  (String.length (download_dir_of (env_with (Some two_files))) <= 1022)%nat
  /\ exists tl,
       print_files (env_with (Some two_files))
         (found_files (env_with (Some two_files))) ([] : Net)
       = Ok (tt, [], tl)
       /\ List.length tl = 2%nat.
Proof.
  assert (H : (String.length (download_dir_of (env_with (Some two_files)))
               <= 1022)%nat) by (simpl; lia).
  split; [exact H|].
  destruct (listing_defined (env_with (Some two_files)) ([] : Net) H)
    as (_ & tl & Hrun & _ & Hlen).
  exists tl. split; [exact Hrun | exact Hlen].
Defined.

Lemma listing_shows_name_witness :
  print_files (env_with (Some two_files)) ["downloads/a.txt"] ([] : Net)
  = Ok (tt, [], [Stdout ("  - a.txt (42 bytes)" ++ nl)]).
Proof.
  apply (listing_shows_name (env_with (Some two_files)) "downloads"
           {| d_name := "a.txt"; d_type := DT_REG |} ([] : Net)).
  - simpl; lia.
  - reflexivity.
Defined.

Lemma job_body_complete_witness :
  build_backup_payload "S1" "downloads" "b1"
    (Some {| files := ["downloads/a.txt"; "downloads/b.txt"] |})
  = Ok ("{" ++ quoted "sessionId" ++ ":" ++ quoted "S1" ++ ","
        ++ quoted "backupName" ++ ":" ++ quoted "b1" ++ ","
        ++ quoted "backupType" ++ ":" ++ quoted "ceph_downloads" ++ ","
        ++ quoted "backupPath" ++ ":" ++ quoted "downloads" ++ ","
        ++ quoted "fileList" ++ ":[" ++ quoted "downloads/a.txt" ++ ","
        ++ quoted "downloads/b.txt" ++ "]}").
Proof.
  exact (proj1 (job_body_complete "S1" "downloads" "b1")
           {| files := ["downloads/a.txt"; "downloads/b.txt"] |}
           ltac:(discriminate) ltac:(vm_compute; discriminate)).
Defined.

Lemma job_body_limits_witness :
  let env := env_with (Some many_files) in
  build_backup_payload "S1" "downloads"
    (strftime_backup_name (localtime_now env))
    (Some {| files := found_files env |})
  = Undefined HeapOverflow.
Proof.
  intros env.
  apply (job_body_limits "S1" "downloads"
           (strftime_backup_name (localtime_now env))
           (Some {| files := found_files env |})).
  - vm_compute. discriminate.
  - vm_compute. discriminate.
Defined.

(** A response that arrives in two pieces. *)
Lemma write_callback_accumulates_witness :
  receive ["{" ++ quoted "taskId"; ":" ++ quoted "T9" ++ "}"] (fresh "x")
  = Ok {| data := json1 "taskId" "T9" ++ zero_byte; size := 15 |}.
Proof.
  apply (write_callback_accumulates ("{" ++ quoted "taskId")
           [":" ++ quoted "T9" ++ "}"] "x").
  vm_compute. reflexivity.
Defined.

Lemma backup_name_fixed_width_witness :
  calendar_time (localtime_now (env_with None))
  /\ strftime_backup_name (localtime_now (env_with None))
     = "ceph_downloads_20240105_093007"
  /\ String.length (strftime_backup_name (localtime_now (env_with None)))
     = 30%nat.
Proof.
  assert (H : calendar_time (localtime_now (env_with None))).
  { unfold calendar_time. cbn. lia. }
  split; [exact H|]. split; [reflexivity|].
  exact (proj1 (backup_name_fixed_width _ H)).
Defined.

Lemma credential_missing_exits_one_witness :
  getenv (no_password (env_with (Some two_files))) "SP_PASSWORD" = None
  /\ exists t,
       main (no_password (env_with (Some two_files)))
         [Some (CURLE_OK 200 (json1 "sessionId" "S1"))]
       = Ok (1, [Some (CURLE_OK 200 (json1 "sessionId" "S1"))], t)
       /\ requests_of t = [].
Proof.
  split; [reflexivity|].
  destruct (credential_missing_exits_one
              (no_password (env_with (Some two_files)))
              [Some (CURLE_OK 200 (json1 "sessionId" "S1"))] eq_refl)
    as (t & Hrun & _ & _ & Hreq & _).
  exists t. split; [exact Hrun | exact Hreq].
Defined.

(** A run that signs on, submits, and sees Success on the second query. *)
Lemma exit_zero_means_success_witness :
  exists n' t,
    main (env_with (Some two_files))
      [Some (CURLE_OK 200 (json1 "sessionId" "S1"));
       Some (CURLE_OK 202 (json1 "taskId" "T9"));
       state_is "Running"; state_is "Success"; Some (CURLE_OK 200 "{}")]
    = Ok (0, n', t)
    /\ In success_line t.
Proof.
  destruct (main (env_with (Some two_files))
              [Some (CURLE_OK 200 (json1 "sessionId" "S1"));
               Some (CURLE_OK 202 (json1 "taskId" "T9"));
               state_is "Running"; state_is "Success";
               Some (CURLE_OK 200 "{}")])
    as [[[code n'] t]|u] eqn:H; [|vm_compute in H; discriminate H].
  assert (Hc : code = 0) by (vm_compute in H; congruence). subst code.
  exists n', t. split; [reflexivity|].
  destruct (exit_zero_means_success _ _ _ _ _ H) as [_ Hz].
  destruct (Hz eq_refl) as [Hnone|Hin]; [discriminate Hnone | exact Hin].
Defined.

Lemma reporter_once_on_success_witness :
  exists n' t,
    main (env_with (Some two_files))
      [Some (CURLE_OK 200 (json1 "sessionId" "S1"));
       Some (CURLE_OK 202 (json1 "taskId" "T9"));
       state_is "Success"; Some (CURLE_OK 200 "{}")]
    = Ok (0, n', t)
    /\ entries_of "sp_get_task_data" t = 1%nat.
Proof.
  destruct (main (env_with (Some two_files))
              [Some (CURLE_OK 200 (json1 "sessionId" "S1"));
               Some (CURLE_OK 202 (json1 "taskId" "T9"));
               state_is "Success"; Some (CURLE_OK 200 "{}")])
    as [[[code n'] t]|u] eqn:H; [|vm_compute in H; discriminate H].
  assert (Hc : code = 0) by (vm_compute in H; congruence). subst code.
  exists n', t. split; [reflexivity|].
  exact (reporter_once_on_success _ _ _ _ _ H).
Defined.

Lemma session_requests_in_order_witness :
  reaches_sign_on (env_with (Some two_files))
  /\ exists code n' t job later,
       main (env_with (Some two_files))
         [Some (CURLE_OK 200 (json1 "sessionId" "S1"));
          Some (CURLE_OK 500 "{}")]
       = Ok (code, n', t)
       /\ requests_of t
          = (signon_request (load_config (env_with (Some two_files))) "secret"
             :: job ++ later)%list.
Proof.
  assert (Hr : reaches_sign_on (env_with (Some two_files))).
  { split; [discriminate|]. split; [discriminate | reflexivity]. }
  split; [exact Hr|].
  destruct (sp_sign_on (load_config (env_with (Some two_files))) None
              [Some (CURLE_OK 200 (json1 "sessionId" "S1"));
               Some (CURLE_OK 500 "{}")])
    as [[[[tid sid] n1] t1]|u] eqn:Hso; [|discriminate Hso].
  assert (Hsid : sid = Some "S1") by (vm_compute in Hso; congruence).
  subst sid.
  destruct (main (env_with (Some two_files))
              [Some (CURLE_OK 200 (json1 "sessionId" "S1"));
               Some (CURLE_OK 500 "{}")])
    as [[[code n'] t]|u] eqn:H; [|vm_compute in H; discriminate H].
  destruct (session_requests_in_order _ _ _ _ _ _ _ _ _ Hso Hr H)
    as (pw & job & tk & later & Hpw & Hreq & _).
  assert (Hs : pw = "secret") by (vm_compute in Hpw; congruence). subst pw.
  exists code, n', t, job, later. split; [reflexivity | exact Hreq].
Defined.

(** The server takes the job and names its task. *)
Lemma submit_task_id_witness :
  exists t,
    sp_start_backup demo_config "S1" "downloads" "b1" None
      [Some (CURLE_OK 202 (json1 "taskId" "T9"))]
    = Ok (Some "T9", [], t)
    /\ In (Stdout ("Backup task ID: T9" ++ nl)) t.
Proof.
  destruct (build_backup_payload "S1" "downloads" "b1" None)
    as [body|u] eqn:Hb; [|discriminate Hb].
  destruct (submit_task_id demo_config "S1" "downloads" "b1" body None
              [Some (CURLE_OK 202 (json1 "taskId" "T9"))] Hb)
    as (Hok & _).
  destruct (Hok [Some (CURLE_OK 202 (json1 "taskId" "T9"))] [] 202
              (json1 "taskId" "T9") eq_refl eq_refl)
    as (r & t & Hrun & Haccepted & _).
  destruct (Haccepted (or_intror (or_intror eq_refl))) as (Hquoted & _).
  assert (Hfirst : first_occurrence (quoted "taskId" ++ ":") "{"
                     (json1 "taskId" "T9")).
  { split; [now exists (quoted "T9" ++ "}")|].
    intros [|c pre'] post' E; [discriminate E | simpl; lia]. }
  destruct (Hquoted "{" EmptyString "T9" "}" Hfirst eq_refl eq_refl eq_refl)
    as [-> Hin].
  exists t. split; [exact Hrun | exact Hin].
Defined.

Lemma wait_without_time_witness :
  exists t,
    sp_wait_for_task demo_config "S1" "T9" 0 [state_is "Success"]
    = Ok (0, [state_is "Success"], t)
    /\ requests_of t = [].
Proof.
  eexists. split.
  - apply (wait_without_time demo_config "S1" "T9" 0 [state_is "Success"]).
    + unfold INT_MIN. lia.
    + lia.
  - reflexivity.
Defined.

Lemma wait_sleeps_within_time_witness :
  exists r n' t,
    sp_wait_for_task demo_config "S1" "T9" 1
      [state_is "Running"; state_is "Running"; state_is "Success"]
    = Ok (r, n', t)
    /\ sleep_total t <= 1 * 60.
Proof.
  destruct (sp_wait_for_task demo_config "S1" "T9" 1
              [state_is "Running"; state_is "Running"; state_is "Success"])
    as [[[r n'] t]|u] eqn:H; [|vm_compute in H; discriminate H].
  exists r, n', t. split; [reflexivity|].
  exact (proj1 (wait_sleeps_within_time demo_config "S1" "T9" 1 _ _ _ _
                  ltac:(lia) ltac:(unfold INT_MAX; lia) H)).
Defined.

Lemma requests_within_buffers_witness :
  exists code n' t,
    main (env_with (Some two_files)) [Some (CURLE_failed "timeout")]
    = Ok (code, n', t)
    /\ In (signon_request demo_config "secret") (requests_of t)
    /\ strlen (req_url (signon_request demo_config "secret")) <= 2047.
Proof.
  destruct (main (env_with (Some two_files)) [Some (CURLE_failed "timeout")])
    as [[[code n'] t]|u] eqn:H; [|vm_compute in H; discriminate H].
  assert (Hin : In (signon_request demo_config "secret") (requests_of t)).
  { pose proof H as H'. vm_compute in H'. injection H' as _ _ <-.
    vm_compute. left. reflexivity. }
  exists code, n', t. split; [reflexivity|]. split; [exact Hin|].
  exact (proj1 (requests_within_buffers _ _ _ _ _ _ H Hin)).
Defined.

(** The server answers the data request with status 500. *)
Lemma report_ignores_http_status_witness :
  exists t,
    sp_get_task_data demo_config "S1" "T9" [Some (CURLE_OK 500 "{}")]
    = Ok (tt, [], t)
    /\ In (Stdout ("  BACKUP COMPLETED SUCCESSFULLY" ++ nl)) t.
Proof.
  destruct (report_ignores_http_status (curl := scripted)
              demo_config "S1" "T9"
              [Some (CURLE_OK 500 "{}")] [Some (CURLE_OK 500 "{}")] []
              (CURLE_OK 500 "{}") eq_refl eq_refl)
    as (t & Hrun & _ & Hin & _).
  exists t. split; [exact Hrun | exact Hin].
Defined.

End FurtherRuns.
